(** * ai-rag-starter: document store, embedding batches and RAG query

    A shallow embedding of
      - src/lib/vector-store.ts   (globals, ingestion, deletion, clearing),
      - src/lib/embeddings.ts     (DashScopeEmbeddings),
      - src/lib/rag.ts            (queryRag),
      - src/app/api/upload/route.ts and src/app/api/reindex/route.ts (POST),
      - the chat, knowledge and feedback routes,
    together with the properties of the pipeline that are checked on it.

    Conventions.
      - A JavaScript string is the list of its UTF-16 code units, so that
        [length], [trim], [split] and the regular expressions count and
        match what the engine counts and matches.
      - Process-wide globals, the request log of the embedding service, the
        prompt log of the chat model, the number of clock reads and the files
        written to the upload directory form the [World]; asynchronous
        functions are run to completion one at a time and become actions of
        a state-and-exception monad [M].
      - Everything outside the repository (the embedding endpoint, the chat
        model, the text splitter, the file parsers, similarity search, the
        clock, the file system, the Unicode tables behind [toLowerCase]) is
        a field of [Env]; results hold for every [Env] unless a hypothesis
        says otherwise.
      - console logging has no effect on any modelled value and is left out. *)

From Stdlib Require Import Ascii String DecimalString QArith.
From stdpp Require Import base option list numbers strings gmap.

Abbreviation jsstring := (list N).

(* ===================================================================== *)
(** ** JavaScript strings as UTF-16 code units *)
(* ===================================================================== *)

Local Open Scope N_scope.

Module JsString.

(** Decoding of a UTF-8 literal of this file into code units; only used to
    write the string constants of the source. *)
Fixpoint utf16_of_utf8 (bs : list N) : jsstring :=
  match bs with
  | [] => []
  | b0 :: r0 =>
    if b0 <? 128 then b0 :: utf16_of_utf8 r0 else
    match r0 with
    | [] => []
    | b1 :: r1 =>
      if b0 <? 224 then ((b0 - 192) * 64 + (b1 - 128)) :: utf16_of_utf8 r1 else
      match r1 with
      | [] => []
      | b2 :: r2 =>
        if b0 <? 240
        then ((b0 - 224) * 4096 + (b1 - 128) * 64 + (b2 - 128)) :: utf16_of_utf8 r2
        else
        match r2 with
        | [] => []
        | b3 :: r3 =>
          let cp := (b0 - 240) * 262144 + (b1 - 128) * 4096 + (b2 - 128) * 64 + (b3 - 128) in
          let v := cp - 65536 in
          (55296 + v / 1024) :: (56320 + v mod 1024) :: utf16_of_utf8 r3
        end
      end
    end
  end.

Definition js (s : string) : jsstring :=
  utf16_of_utf8 (map N_of_ascii (list_ascii_of_string s)).

(** [String(n)] for a non-negative integer. *)
Definition decimal (n : N) : jsstring :=
  map N_of_ascii (list_ascii_of_string (NilEmpty.string_of_uint (N.to_uint n))).

(** WhiteSpace and LineTerminator of ECMAScript: what [trim] removes and
    what [\s] matches. *)
Definition isWhiteSpace (c : N) : bool :=
  (9 <=? c) && (c <=? 13) || (c =? 32) || (c =? 160) || (c =? 5760)
  || (8192 <=? c) && (c <=? 8202) || (c =? 8232) || (c =? 8233)
  || (c =? 8239) || (c =? 8287) || (c =? 12288) || (c =? 65279).

(** [\d] *)
Definition isDigit (c : N) : bool := (48 <=? c) && (c <=? 57).

Fixpoint dropWhile (p : N → bool) (s : jsstring) : jsstring :=
  match s with
  | [] => []
  | c :: t => if p c then dropWhile p t else s
  end.

Fixpoint takeWhile (p : N → bool) (s : jsstring) : jsstring :=
  match s with
  | [] => []
  | c :: t => if p c then c :: takeWhile p t else []
  end.

Definition trimStart (s : jsstring) : jsstring := dropWhile isWhiteSpace s.
Definition trimEnd (s : jsstring) : jsstring := rev (dropWhile isWhiteSpace (rev s)).
Definition trim (s : jsstring) : jsstring := trimEnd (trimStart s).

(** [s.substring(0, n)] *)
Definition substring0 (n : nat) (s : jsstring) : jsstring := take n s.

(** What [s.toLowerCase()] gives on a string of ASCII characters. The
    method itself also maps letters outside ASCII, by the Unicode tables of
    the engine; it is a field of the environment below, and this function
    serves the concrete environments, whose file names are ASCII. *)
Definition toLowerCaseAscii (s : jsstring) : jsstring :=
  map (λ c, if (65 <=? c) && (c <=? 90) then c + 32 else c) s.

(** [s.startsWith(p)] *)
Fixpoint startsWith (p s : jsstring) : bool :=
  match p, s with
  | [], _ => true
  | _ :: _, [] => false
  | a :: p', b :: s' => (a =? b) && startsWith p' s'
  end.

(** [s.includes(p)] *)
Fixpoint includes (p s : jsstring) : bool :=
  startsWith p s || match s with [] => false | _ :: t => includes p t end.

(** The first occurrence of [sep] in [s]: the text before it and the text
    after it. *)
Fixpoint breakOn (sep s : jsstring) : option (jsstring * jsstring) :=
  if startsWith sep s then Some ([], drop (length sep) s) else
  match s with
  | [] => None
  | c :: t =>
    match breakOn sep t with
    | Some (b, a) => Some (c :: b, a)
    | None => None
    end
  end.

(** [s.split(sep)] for a non-empty separator: cut at every occurrence,
    scanning from the left. Each cut consumes at least one code unit, so
    [S (length s)] rounds are enough. *)
Fixpoint split_rounds (rounds : nat) (sep s : jsstring) : list jsstring :=
  match rounds with
  | O => [s]
  | S r =>
    match breakOn sep s with
    | None => [s]
    | Some (b, a) => b :: split_rounds r sep a
    end
  end.

Definition split (sep s : jsstring) : list jsstring :=
  split_rounds (S (length s)) sep s.

(** [parts.join(sep)] *)
Fixpoint join (sep : jsstring) (parts : list jsstring) : jsstring :=
  match parts with
  | [] => []
  | [p] => p
  | p :: rest => p ++ sep ++ join sep rest
  end.

(** [s.replace(/[ \t]+/g, ' ')]: every maximal run of spaces and tabs
    becomes one space. *)
Definition isBlank (c : N) : bool := (c =? 32) || (c =? 9).

Fixpoint collapseBlanks_from (inRun : bool) (s : jsstring) : jsstring :=
  match s with
  | [] => []
  | c :: t =>
    if isBlank c
    then (if inRun then collapseBlanks_from true t else 32 :: collapseBlanks_from true t)
    else c :: collapseBlanks_from false t
  end.

Definition collapseBlanks (s : jsstring) : jsstring := collapseBlanks_from false s.

(** [s.replace(/\n{3,}/g, '\n\n')]: every maximal run of three or more
    line feeds becomes two; [seen] counts the line feeds of the current
    run that were kept. *)
Fixpoint collapseNewlines_from (seen : nat) (s : jsstring) : jsstring :=
  match s with
  | [] => []
  | c :: t =>
    if c =? 10
    then (if (seen <? 2)%nat then 10 :: collapseNewlines_from (S seen) t
          else collapseNewlines_from seen t)
    else c :: collapseNewlines_from O t
  end.

Definition collapseNewlines (s : jsstring) : jsstring := collapseNewlines_from O s.

(** [s.replace(/^\d+\.\s*/, '')] *)
Definition stripNumericMarker (s : jsstring) : jsstring :=
  match takeWhile isDigit s with
  | [] => s
  | _ :: _ =>
    match dropWhile isDigit s with
    | 46 :: r => dropWhile isWhiteSpace r
    | _ => s
    end
  end.

(** [s.replace(/^[-•]\s*/, '')] *)
Definition stripBulletMarker (s : jsstring) : jsstring :=
  match s with
  | c :: r => if (c =? 45) || (c =? 8226) then dropWhile isWhiteSpace r else s
  | [] => s
  end.

End JsString.
Import JsString.

Local Close Scope N_scope.

(* ===================================================================== *)
(** ** Data model (src/lib/vector-store.ts, @langchain/core) *)
(* ===================================================================== *)

(** Embedding vectors are opaque to the code of the repository; their
    components are kept as rationals. *)
Abbreviation Vector := (list Q).

(** Values found in a [metadata] object. *)
Inductive jsvalue :=
| JStr (s : jsstring)
| JNum (n : Z)
| JOpaque (tag : N).

(** Truthiness, for [x || y]. *)
Definition truthy (v : jsvalue) : bool :=
  match v with
  | JStr [] => false
  | JNum 0%Z => false
  | _ => true
  end.

(** [Document] of @langchain/core: text and a metadata object. *)
Record Document := mkDocument {
  pageContent : jsstring;
  metadata : gmap string jsvalue
}.

(** An entry of langchain's [MemoryVectorStore]; [mv_embedding] is [None]
    when the caller passed [undefined]. *)
Record MemoryVector := mkMemoryVector {
  mv_content : jsstring;
  mv_embedding : option Vector;
  mv_metadata : gmap string jsvalue
}.

Record MemoryVectorStore := mkMemoryVectorStore {
  memoryVectors : list MemoryVector
}.

(** [new MemoryVectorStore(embeddings)] *)
Definition newMemoryVectorStore : MemoryVectorStore := mkMemoryVectorStore [].

(** [store.addVectors(vectors, documents)]: one entry per vector, paired by
    position, appended to the entries already there. *)
Definition addVectors (vs : MemoryVectorStore) (vectors : list (option Vector))
    (documents : list Document) : MemoryVectorStore :=
  mkMemoryVectorStore
    (memoryVectors vs ++
     zip_with (λ e d, mkMemoryVector (pageContent d) e (metadata d)) vectors documents).

(** [fileType] is declared a string; what is stored is the value of
    [fileType || detectFileType(filename)], whatever it is. *)
Record DocumentMeta := mkDocumentMeta {
  id : jsstring;
  filename : jsstring;
  uploadTime : jsstring;
  chunkCount : nat;
  fileType : jsvalue
}.

Record RagConfig := mkRagConfig {
  topK : Z;
  chunkSize : Z;
  chunkOverlap : Z;
  model : jsstring;
  temperature : Q
}.

Definition DEFAULT_RAG_CONFIG : RagConfig :=
  mkRagConfig 5 500 100 (js "qwen-max") (3 # 10).

(** An element of [global.storedDocuments]. *)
Record StoredDocument := mkStoredDocument {
  docId : jsstring;
  doc : Document
}.

(** The four [declare global] variables; [None] is [undefined]. *)
Record Globals := mkGlobals {
  vectorStoreInstance : option MemoryVectorStore;
  storedDocuments : option (list StoredDocument);
  documentMetas : option (list DocumentMeta);
  ragConfig : option RagConfig
}.

(** Globals plus what the process has done to its collaborators so far: the
    inputs of every request sent to the embedding endpoint, every prompt
    given to the chat model, how often the clock was read, and every file
    the upload handler has written to the upload directory (name and
    bytes, in the order of the writes). *)
Record World := mkWorld {
  globals : Globals;
  embedRequests : list (list jsstring);
  llmPrompts : list jsstring;
  clockReads : nat;
  savedFiles : list (jsstring * list N)
}.

Definition freshGlobals : Globals := mkGlobals None None None None.

Definition freshWorld : World := mkWorld freshGlobals [] [] 0 [].

(** [x || []] *)
Definition orEmpty {A} (x : option (list A)) : list A := default [] x.

(* ===================================================================== *)
(** ** Exceptions, the monad of asynchronous functions, collaborators *)
(* ===================================================================== *)

Inductive Error :=
| JsError (message : jsstring).

Inductive Outcome (A : Type) :=
| Ok (a : A)
| Throw (e : Error).

Arguments Ok {A} a.

Arguments Throw {A} e.

Definition M (A : Type) : Type := World → Outcome A * World.

#[global] Instance M_ret : MRet M := λ A a w, (Ok a, w).

#[global] Instance M_bind : MBind M := λ A B f m w,
  match m w with
  | (Ok a, w') => f a w'
  | (Throw e, w') => (Throw e, w')
  end.

Definition throw {A} (e : Error) : M A := λ w, (Throw e, w).

(** [try { body } catch (error) { handler(error) }] *)
Definition tryCatch {A} (body : M A) (handler : Error → M A) : M A := λ w,
  match body w with
  | (Ok a, w') => (Ok a, w')
  | (Throw e, w') => handler e w'
  end.

Definition readGlobals : M Globals := λ w, (Ok (globals w), w).

Definition writeGlobals (g : Globals) : M () := λ w,
  (Ok (), mkWorld g (embedRequests w) (llmPrompts w) (clockReads w) (savedFiles w)).

(** A counted [for] loop whose bound and step do not change while it runs:
    [for (let i = 0; i < n; i += step)] visits [0, step, 2*step, ...] below
    [n], that is [Math.ceil(n / step)] values. *)
Definition loopStarts (n step : nat) : list nat :=
  (λ k, k * step) <$> seq 0 ((n + step - 1) / step).

(** Running a loop body over the visited values, threading the local
    variables [St] that the body updates. *)
Fixpoint forLoop {A St} (l : list A) (body : St → A → M St) (s : St) : M St :=
  match l with
  | [] => mret s
  | x :: rest => s' ← body s x; forLoop rest body s'
  end.

(** [xs.slice(i, j)] for [0 <= i <= j] *)
Definition slice {A} (xs : list A) (i j : nat) : list A := take (j - i) (drop i xs).

(** What lies outside the repository. *)
Record Env := mkEnv {
  (** [process.env.DASHSCOPE_API_KEY || ''] *)
  DASHSCOPE_API_KEY : jsstring;
  (** The embedding endpoint: the answer to the request that follows [k]
      earlier ones, as [data.data.map(item => item.embedding)], or the error
      raised (network failure, non-OK status, malformed body). *)
  dashscope : nat → list jsstring → Outcome (list Vector);
  (** The value of the [k]-th read of the clock, in milliseconds. *)
  Date_now : nat → N;
  (** [new Date(ms).toISOString()] *)
  toISOString : N → jsstring;
  (** [RecursiveCharacterTextSplitter({chunkSize, chunkOverlap, separators}).splitDocuments] *)
  splitDocuments : Z → Z → list jsstring → list Document → Outcome (list Document);
  (** [similaritySearchVectorWithScore] of the memory store, scores dropped. *)
  similaritySearch : MemoryVectorStore → option Vector → Z → Outcome (list Document);
  (** [createLLM(model, temperature).invoke(prompt)], answering after [k]
      earlier prompts: [response.content], or the error raised. *)
  chatModel : jsstring → Q → nat → jsstring → Outcome jsstring;
  (** Decoding of file bytes as UTF-8 text. *)
  utf8Decode : list N → jsstring;
  (** [pdfParse(buffer)]: [pdfData.text] *)
  pdfParse : list N → Outcome jsstring;
  (** [XLSX.read(buffer)]: for every sheet its name and [sheet_to_csv] text. *)
  xlsxSheets : list N → Outcome (list (jsstring * jsstring));
  (** [mammoth.extractRawText({ buffer })]: [result.value] *)
  mammothRawText : list N → Outcome jsstring;
  (** [readdir(uploadDir)] *)
  readdir : Outcome (list jsstring);
  (** [readFile(join(uploadDir, filename))]: the bytes the file system
      gives for that path, or the error raised. *)
  readFile : jsstring → Outcome (list N);
  (** [s.toLowerCase()] *)
  toLowerCase : jsstring → jsstring;
  (** [file.arrayBuffer()], [mkdir(uploadDir, { recursive: true })] and
      [writeFile(join(uploadDir, name), buffer)] of the upload handler, for
      the file that follows [k] files written before: they succeed, or one
      of them raises an error. *)
  saveUpload : nat → jsstring → list N → Outcome ()
}.

Definition dateNow (env : Env) : M N := λ w,
  (Ok (Date_now env (clockReads w)),
   mkWorld (globals w) (embedRequests w) (llmPrompts w) (S (clockReads w)) (savedFiles w)).

(* ===================================================================== *)
(** ** src/lib/embeddings.ts: DashScopeEmbeddings *)
(* ===================================================================== *)

Module DashScopeEmbeddings.

Definition batchSize : nat := 10.

(** The [fetch] of [callDashScopeEmbedding] with everything that follows it
    inside the [try]: the request is logged, the endpoint answers. *)
Definition postEmbeddings (env : Env) (input : list jsstring) : M (list Vector) := λ w,
  (dashscope env (length (embedRequests w)) input,
   mkWorld (globals w) (embedRequests w ++ [input]) (llmPrompts w) (clockReads w)
           (savedFiles w)).

(** [cleaned.length > 2048 ? cleaned.substring(0, 2048) : cleaned] after
    [text.trim()] *)
Definition processText (text : jsstring) : jsstring :=
  let cleaned := trim text in
  if 2048 <? length cleaned then substring0 2048 cleaned else cleaned.

Definition callDashScopeEmbedding (env : Env) (texts : list jsstring) : M (list Vector) :=
  match DASHSCOPE_API_KEY env with
  | [] => throw (JsError (js "DASHSCOPE_API_KEY is required for embeddings"))
  | _ :: _ =>
    let processedTexts := processText <$> texts in
    tryCatch (postEmbeddings env processedTexts) (λ error, throw error)
  end.

Definition embedDocuments (env : Env) (documents : list jsstring) : M (list Vector) :=
  forLoop (loopStarts (length documents) batchSize)
    (λ results i,
       let batch := slice documents i (i + batchSize) in
       embeddings ← callDashScopeEmbedding env batch;
       mret (results ++ embeddings))
    [].

(** [embeddings[0]] may be [undefined]. *)
Definition embedQuery (env : Env) (query : jsstring) : M (option Vector) :=
  embeddings ← callDashScopeEmbedding env [query];
  mret (embeddings !! 0).

End DashScopeEmbeddings.

(* ===================================================================== *)
(** ** src/lib/vector-store.ts *)
(* ===================================================================== *)

(** [filename.toLowerCase().split('.').pop() || ''] *)
Definition getFileExtension (env : Env) (name : jsstring) : jsstring :=
  default [] (last (split (js ".") (toLowerCase env name))).

(** The names of the properties that a plain object such as [typeMap]
    inherits from [Object.prototype]. Their values are functions, and for
    [__proto__] the prototype object: each of them is truthy and none is a
    string. *)
Definition OBJECT_PROTOTYPE_KEYS : list jsstring :=
  [js "constructor"; js "__defineGetter__"; js "__defineSetter__"; js "hasOwnProperty";
   js "__lookupGetter__"; js "__lookupSetter__"; js "isPrototypeOf";
   js "propertyIsEnumerable"; js "toString"; js "valueOf"; js "__proto__";
   js "toLocaleString"].

(** The value of an inherited property: an opaque value, told from the
    others by the position of its name. *)
Definition inheritedProperty (key : jsstring) : option jsvalue :=
  (λ found : nat * jsstring, JOpaque (N.of_nat found.1))
    <$> list_find (λ k, k = key) OBJECT_PROTOTYPE_KEYS.

(** [typeMap[ext]]: the entry of the table, else the inherited property of
    that name, else [undefined]. *)
Definition typeMapLookup (ext : jsstring) : option jsvalue :=
  if decide (ext = js "pdf") then Some (JStr (js "PDF"))
  else if decide (ext = js "txt") then Some (JStr (js "TXT"))
  else if decide (ext = js "md") then Some (JStr (js "Markdown"))
  else if decide (ext = js "markdown") then Some (JStr (js "Markdown"))
  else if decide (ext = js "xlsx") then Some (JStr (js "Excel"))
  else if decide (ext = js "xls") then Some (JStr (js "Excel"))
  else if decide (ext = js "docx") then Some (JStr (js "Word"))
  else if decide (ext = js "doc") then Some (JStr (js "Word"))
  else inheritedProperty ext.

(** [typeMap[ext] || 'Unknown'] *)
Definition detectFileType (env : Env) (name : jsstring) : jsvalue :=
  let ext := getFileExtension env name in
  match typeMapLookup ext with
  | Some v => if truthy v then v else JStr (js "Unknown")
  | None => JStr (js "Unknown")
  end.

Definition getRagConfig : M RagConfig :=
  g ← readGlobals;
  match ragConfig g with
  | Some c => mret c
  | None =>
    writeGlobals (mkGlobals (vectorStoreInstance g) (storedDocuments g) (documentMetas g)
                            (Some DEFAULT_RAG_CONFIG));;
    mret DEFAULT_RAG_CONFIG
  end.

(** [Partial<RagConfig>] *)
Record PartialRagConfig := mkPartialRagConfig {
  p_topK : option Z;
  p_chunkSize : option Z;
  p_chunkOverlap : option Z;
  p_model : option jsstring;
  p_temperature : option Q
}.

Definition setRagConfig (config : PartialRagConfig) : M RagConfig :=
  c ← getRagConfig;
  let merged := mkRagConfig (default (topK c) (p_topK config))
                            (default (chunkSize c) (p_chunkSize config))
                            (default (chunkOverlap c) (p_chunkOverlap config))
                            (default (model c) (p_model config))
                            (default (temperature c) (p_temperature config)) in
  g ← readGlobals;
  writeGlobals (mkGlobals (vectorStoreInstance g) (storedDocuments g) (documentMetas g)
                          (Some merged));;
  mret merged.

Definition getVectorStore : M MemoryVectorStore :=
  g ← readGlobals;
  match vectorStoreInstance g with
  | Some vs => mret vs
  | None =>
    let vectorStore := newMemoryVectorStore in
    writeGlobals (mkGlobals (Some vectorStore)
                            (Some (orEmpty (storedDocuments g)))
                            (Some (orEmpty (documentMetas g)))
                            (ragConfig g));;
    mret vectorStore
  end.

Definition getDocumentMetas : M (list DocumentMeta) :=
  g ← readGlobals; mret (orEmpty (documentMetas g)).

Record KnowledgeBaseStats := mkStats {
  documentCount : nat;
  totalChunks : nat;
  documents : list DocumentMeta;
  config : RagConfig
}.

Definition getKnowledgeBaseStats : M KnowledgeBaseStats :=
  g ← readGlobals;
  let metas := orEmpty (documentMetas g) in
  let totalChunks := foldl (λ sum m, sum + chunkCount m) 0 metas in
  c ← getRagConfig;
  mret (mkStats (length metas) totalChunks metas c).

(** [vectorStore.addVectors(...)] on the store that [global.vectorStoreInstance]
    refers to: inside [addDocumentsToStore] the local [vectorStore] is that
    very object. *)
Definition addVectorsToInstance (vectors : list (option Vector)) (docs : list Document) : M () :=
  g ← readGlobals;
  writeGlobals (mkGlobals (instance ← vectorStoreInstance g;
                           Some (addVectors instance vectors docs))
                          (storedDocuments g) (documentMetas g) (ragConfig g)).

(** [global.storedDocuments = global.storedDocuments || []; global.storedDocuments.push(x)] *)
Definition pushStoredDocument (x : StoredDocument) : M () :=
  g ← readGlobals;
  writeGlobals (mkGlobals (vectorStoreInstance g) (Some (orEmpty (storedDocuments g) ++ [x]))
                          (documentMetas g) (ragConfig g)).

(** [global.documentMetas = global.documentMetas || []; global.documentMetas.push(x)] *)
Definition pushDocumentMeta (x : DocumentMeta) : M () :=
  g ← readGlobals;
  writeGlobals (mkGlobals (vectorStoreInstance g) (storedDocuments g)
                          (Some (orEmpty (documentMetas g) ++ [x])) (ragConfig g)).

Definition typeError : Error := JsError (js "TypeError").

Definition batchSize : nat := 10.

(** [`doc_${Date.now()}`] *)
Definition makeDocId (now : N) : jsstring := js "doc_" ++ decimal now.

(** The [new Document({ pageContent, metadata: { ...metadata, docId, source, fileType } })]
    built for every chunk. *)
Definition docWithMeta (docId filename : jsstring) (detectedFileType : jsvalue)
    (batch_j : Document) : Document :=
  mkDocument (pageContent batch_j)
    (<["fileType" := detectedFileType]>
       (<["source" := JStr filename]>
          (<["docId" := JStr docId]> (metadata batch_j)))).

(** [fileType || detectFileType(filename)] *)
Definition detectedFileTypeOf (env : Env) (filename : jsstring) (fileType : option jsvalue)
    : jsvalue :=
  match fileType with
  | Some v => if truthy v then v else detectFileType env filename
  | None => detectFileType env filename
  end.

Definition addDocumentsToStore (env : Env) (docs : list Document) (filename : jsstring)
    (fileType : option jsvalue) : M DocumentMeta :=
  _ ← getVectorStore;
  now ← dateNow env;
  let docId := makeDocId now in
  let detectedFileType := detectedFileTypeOf env filename fileType in
  forLoop (loopStarts (length docs) batchSize)
    (λ _ i,
       let batch := slice docs i (i + batchSize) in
       tryCatch
         (let texts := pageContent <$> batch in
          vectors ← DashScopeEmbeddings.embedDocuments env texts;
          forLoop (seq 0 (length batch))
            (λ _ j,
               match batch !! j with
               | None => throw typeError
               | Some batch_j =>
                 let docWithMeta := docWithMeta docId filename detectedFileType batch_j in
                 addVectorsToInstance [vectors !! j] [docWithMeta];;
                 pushStoredDocument (mkStoredDocument docId docWithMeta)
               end)
            ())
         (λ error, throw error))
    ();;
  stamp ← dateNow env;
  let docMeta := mkDocumentMeta docId filename (toISOString env stamp) (length docs)
                                detectedFileType in
  pushDocumentMeta docMeta;;
  mret docMeta.

Record DeleteResult := mkDeleteResult {
  success : bool;
  remainingChunks : nat
}.

Definition deleteDocument (env : Env) (docId' : jsstring) : M DeleteResult :=
  g ← readGlobals;
  writeGlobals (mkGlobals (vectorStoreInstance g) (storedDocuments g)
                          (Some (filter (λ m, id m ≠ docId') (orEmpty (documentMetas g))))
                          (ragConfig g));;
  g ← readGlobals;
  let remainingDocs := filter (λ d, docId d ≠ docId') (orEmpty (storedDocuments g)) in
  writeGlobals (mkGlobals (vectorStoreInstance g) (Some remainingDocs) (documentMetas g)
                          (ragConfig g));;
  newVectorStore ←
    (if 0 <? length remainingDocs then
       forLoop (loopStarts (length remainingDocs) batchSize)
         (λ newVectorStore i,
            let batch := slice remainingDocs i (i + batchSize) in
            let texts := (λ d, pageContent (doc d)) <$> batch in
            vectors ← DashScopeEmbeddings.embedDocuments env texts;
            forLoop (seq 0 (length batch))
              (λ newVectorStore j,
                 match batch !! j with
                 | None => throw typeError
                 | Some batch_j => mret (addVectors newVectorStore [vectors !! j] [doc batch_j])
                 end)
              newVectorStore)
         newMemoryVectorStore
     else mret newMemoryVectorStore);
  g ← readGlobals;
  writeGlobals (mkGlobals (Some newVectorStore) (storedDocuments g) (documentMetas g)
                          (ragConfig g));;
  mret (mkDeleteResult true (length remainingDocs)).

Definition clearKnowledgeBase : M () :=
  g ← readGlobals;
  writeGlobals (mkGlobals None (Some []) (Some []) (ragConfig g)).

Definition clearAllDocuments : M () :=
  g ← readGlobals;
  writeGlobals (mkGlobals None (Some []) (Some []) (ragConfig g)).

(* ===================================================================== *)
(** ** src/app/api/upload/route.ts and src/app/api/reindex/route.ts *)
(* ===================================================================== *)

(** An uploaded [File]: its name and its bytes. *)
Record File := mkFile {
  name : jsstring;
  bytes : list N
}.

(** One element of [results] in the reindex handler. *)
Record ReindexResult := mkReindexResult {
  r_filename : jsstring;
  r_status : jsstring;
  r_chunks : option nat
}.

Inductive ResponseBody :=
| ErrorBody (error : jsstring)
| UploadBody (message : jsstring) (document : DocumentMeta)
| ReindexBody (success : bool) (message : jsstring) (processed : nat)
              (totalChunks : option nat) (details : list ReindexResult).

Record Response := mkResponse {
  body : ResponseBody;
  status : Z
}.

Definition liftOutcome {A} (o : Outcome A) : M A := λ w, (o, w).

Definition errorMessage (err : Error) : jsstring :=
  match err with JsError message => message end.

Definition SUPPORTED_EXTENSIONS : list jsstring :=
  [js "txt"; js "pdf"; js "xlsx"; js "xls"; js "docx"; js "doc"; js "md"; js "markdown"].

Definition separators : list jsstring :=
  [[10; 10]; [10]; js "。"; js "！"; js "？"; js "；"; js "."; js "!"; js "?"; js ";";
   js ","; js "，"; js " "; js ""]%N.

(** The text of a workbook: the non-blank sheets, each under its heading. *)
Definition sheetsText (sheets : list (jsstring * jsstring)) : jsstring :=
  join [10; 10]%N
    ((λ sheet, js "【工作表: " ++ sheet.1 ++ js "】" ++ [10%N] ++ sheet.2)
       <$> filter (λ sheet, trim sheet.2 ≠ []) sheets).

(** [content.trim().replace(/[ \t]+/g, ' ').replace(/\n{3,}/g, '\n\n')] *)
Definition normalizeContent (content : jsstring) : jsstring :=
  collapseNewlines (collapseBlanks (trim content)).

(** The source document of a file: [new Document({ pageContent: content,
    metadata: { source, fileType } })]. *)
Definition sourceDocument (content source : jsstring) (fileType : jsvalue) : Document :=
  mkDocument content (<["fileType" := fileType]> (<["source" := JStr source]> ∅)).

Module Upload.

(** [await file.arrayBuffer()], [await mkdir(uploadDir, { recursive: true })],
    [await writeFile(filePath, buffer)]: when they succeed the file is in
    the upload directory; when one of them throws, the directory is taken
    to be as before. *)
Definition saveFile (env : Env) (file : File) : M () := λ w,
  match saveUpload env (length (savedFiles w)) (name file) (bytes file) with
  | Ok _ =>
    (Ok (), mkWorld (globals w) (embedRequests w) (llmPrompts w) (clockReads w)
                    (savedFiles w ++ [(name file, bytes file)]))
  | Throw e => (Throw e, w)
  end.

(** The branches on the extension: the extracted text with the file type,
    or the response that reports a parse failure. A text or Markdown file
    is read back from the upload directory, and a failure of that read is
    thrown; the other formats are parsed from the uploaded bytes, inside a
    [try ... catch] of their own. *)
Definition extract (env : Env) (ext name : jsstring) (buffer : list N)
    : Outcome (Response + (jsstring * jsstring)) :=
  if decide (ext = js "txt") then
    match readFile env name with
    | Ok saved => Ok (inr (utf8Decode env saved, js "TXT"))
    | Throw e => Throw e
    end
  else if decide (ext = js "md" ∨ ext = js "markdown") then
    match readFile env name with
    | Ok saved => Ok (inr (utf8Decode env saved, js "Markdown"))
    | Throw e => Throw e
    end
  else if decide (ext = js "pdf") then
    match pdfParse env buffer with
    | Ok text => Ok (inr (text, js "PDF"))
    | Throw _ => Ok (inl (mkResponse (ErrorBody (js "PDF 解析失败，可能是扫描版或加密 PDF")) 500))
    end
  else if decide (ext = js "xlsx" ∨ ext = js "xls") then
    match xlsxSheets env buffer with
    | Ok sheets => Ok (inr (sheetsText sheets, js "Excel"))
    | Throw _ => Ok (inl (mkResponse (ErrorBody (js "Excel 解析失败")) 500))
    end
  else if decide (ext = js "docx" ∨ ext = js "doc") then
    match mammothRawText env buffer with
    | Ok value => Ok (inr (value, js "Word"))
    | Throw _ => Ok (inl (mkResponse (ErrorBody (js "Word 解析失败，仅支持 .docx 格式")) 500))
    end
  else Ok (inr ([], [])).

(** The handler. [form] is the outcome of [await request.formData()] with
    [formData.get('file')]: the file, [None] when the field is missing or
    is not a [File], or the error raised while reading the request. *)
Definition POST (env : Env) (form : Outcome (option File)) : M Response :=
  tryCatch
    (file ← liftOutcome form;
     match file with
     | None => mret (mkResponse (ErrorBody (js "未选择文件")) 400)
     | Some file =>
       match DASHSCOPE_API_KEY env with
       | [] => mret (mkResponse (ErrorBody (js "未配置 DASHSCOPE_API_KEY")) 500)
       | _ :: _ =>
         let ext := getFileExtension env (name file) in
         if decide (ext ∈ SUPPORTED_EXTENSIONS) then
           saveFile env file;;
           extracted ← liftOutcome (extract env ext (name file) (bytes file));
           match extracted with
           | inl response => mret response
           | inr (content, fileType) =>
             let content := normalizeContent content in
             if length content <? 10 then
               mret (mkResponse
                       (ErrorBody (fileType ++ js " 内容为空或无法提取文字。请检查文件是否正确。"))
                       400)
             else
               let docs := [sourceDocument content (name file) (JStr fileType)] in
               config ← getRagConfig;
               splitDocs ← liftOutcome (splitDocuments env (chunkSize config)
                                          (chunkOverlap config) separators docs);
               let splitDocs :=
                 if (length splitDocs =? 0) && (0 <? length content) then docs
                 else splitDocs in
               if length splitDocs =? 0 then
                 mret (mkResponse (ErrorBody (js "文档处理失败，无法生成文本片段")) 400)
               else
                 docMeta ← addDocumentsToStore env splitDocs (name file)
                                               (Some (JStr fileType));
                 mret (mkResponse
                         (UploadBody (js "文档上传成功！已处理 "
                                        ++ decimal (N.of_nat (length splitDocs))
                                        ++ js " 个文本片段。")
                                     docMeta)
                         200)
           end
         else
           mret (mkResponse
                   (ErrorBody (js "不支持的文件类型: ." ++ ext ++ js "。支持的格式: "
                                 ++ join (js ", ") SUPPORTED_EXTENSIONS))
                   400)
       end
     end)
    (λ err, mret (mkResponse (ErrorBody (js "处理失败: " ++ errorMessage err)) 500)).

End Upload.

Module Reindex.

Definition parseFile (env : Env) (filename : jsstring) : Outcome jsstring :=
  let ext := getFileExtension env filename in
  match readFile env filename with
  | Throw e => Throw e
  | Ok buffer =>
    if decide (ext = js "txt" ∨ ext = js "md" ∨ ext = js "markdown")
    then Ok (utf8Decode env buffer)
    else if decide (ext = js "pdf") then pdfParse env buffer
    else if decide (ext = js "xlsx" ∨ ext = js "xls") then
      match xlsxSheets env buffer with
      | Ok sheets => Ok (sheetsText sheets)
      | Throw e => Throw e
      end
    else if decide (ext = js "docx" ∨ ext = js "doc") then mammothRawText env buffer
    else Ok []
  end.

(** The body of [for (const filename of supportedFiles)], with its
    [try ... catch]; the loop updates [results] and [totalChunks]. *)
Definition processFile (env : Env) (config : RagConfig)
    (state : list ReindexResult * nat) (filename : jsstring)
    : M (list ReindexResult * nat) :=
  let '(results, totalChunks) := state in
  tryCatch
    (content ← liftOutcome (parseFile env filename);
     let content := normalizeContent content in
     if length content <? 10 then
       mret (results ++ [mkReindexResult filename (js "内容为空，跳过") None], totalChunks)
     else
       let fileType := detectFileType env filename in
       let docs := [sourceDocument content filename fileType] in
       splitDocs ← liftOutcome (splitDocuments env (chunkSize config) (chunkOverlap config)
                                  separators docs);
       let splitDocs :=
         if (length splitDocs =? 0) && (0 <? length content) then docs else splitDocs in
       _ ← addDocumentsToStore env splitDocs filename (Some fileType);
       mret (results ++ [mkReindexResult filename (js "成功") (Some (length splitDocs))],
             totalChunks + length splitDocs))
    (λ err,
       mret (results ++ [mkReindexResult filename (js "失败: " ++ errorMessage err) None],
             totalChunks)).

Definition succeeded (results : list ReindexResult) : nat :=
  length (filter (λ r, r_status r = js "成功") results).

Definition POST (env : Env) : M Response :=
  tryCatch
    (match readdir env with
     | Throw _ =>
       mret (mkResponse (ReindexBody false (js "uploads 目录不存在或为空") 0 None []) 200)
     | Ok files =>
       let supportedFiles :=
         filter (λ f, getFileExtension env f ∈ SUPPORTED_EXTENSIONS) files in
       if length supportedFiles =? 0 then
         mret (mkResponse (ReindexBody true (js "uploads 目录中没有可处理的文档") 0 None []) 200)
       else
         clearAllDocuments;;
         config ← getRagConfig;
         state ← forLoop supportedFiles (processFile env config) ([], 0);
         let '(results, totalChunks) := state in
         mret (mkResponse
                 (ReindexBody true
                    (js "重新索引完成，共处理 " ++ decimal (N.of_nat (succeeded results))
                       ++ js " 个文件，" ++ decimal (N.of_nat totalChunks) ++ js " 个片段")
                    (succeeded results) (Some totalChunks) results)
                 200)
     end)
    (λ err,
       mret (mkResponse
               (ReindexBody false (js "重新索引失败: " ++ errorMessage err) 0 None [])
               500)).

End Reindex.

(* ===================================================================== *)
(** ** src/lib/rag.ts: queryRag *)
(* ===================================================================== *)

Record RetrievedChunk := mkRetrievedChunk {
  content : jsstring;
  source : jsvalue
}.

Record RagResult := mkRagResult {
  answer : jsstring;
  chunks : list RetrievedChunk;
  suggestedQuestions : list jsstring
}.

(** [vectorStore.asRetriever({ k }).invoke(question)]: the question is
    embedded with [embedQuery], then the store is searched. *)
Definition retrieverInvoke (env : Env) (vectorStore : MemoryVectorStore) (k : Z)
    (question : jsstring) : M (list Document) :=
  queryVector ← DashScopeEmbeddings.embedQuery env question;
  liftOutcome (similaritySearch env vectorStore queryVector k).

(** [model.invoke(prompt)]: the prompt is logged, the model answers. *)
Definition invokeModel (env : Env) (model : jsstring) (temperature : Q) (prompt : jsstring)
    : M jsstring := λ w,
  (chatModel env model temperature (length (llmPrompts w)) prompt,
   mkWorld (globals w) (embedRequests w) (llmPrompts w ++ [prompt]) (clockReads w)
           (savedFiles w)).

Definition NO_INFORMATION : jsstring :=
  js "抱歉，知识库中没有找到相关信息。请先上传相关文档。".

Definition separator : jsstring := js "---SUGGESTED_QUESTIONS---".

Definition quote : jsstring := [34%N].

Definition newline : jsstring := [10%N].

(** [docs.map((d, i) => `【片段${i + 1}】\n${d.pageContent}`).join('\n\n---\n\n')] *)
Definition buildContext (docs : list Document) : jsstring :=
  join (newline ++ newline ++ js "---" ++ newline ++ newline)
    (imap (λ i d, js "【片段" ++ decimal (N.of_nat (i + 1)) ++ js "】" ++ newline
                    ++ pageContent d) docs).

Definition buildPrompt (docs : list Document) (question : jsstring) : jsstring :=
  join newline
    [js "你是一个专业的知识库问答助手。请严格根据以下提供的资料来回答用户的问题。";
     js "";
     js "## 重要规则：";
     js "1. 只能使用下面提供的资料内容来回答";
     js "2. 如果资料中包含相关信息，请准确引用并回答";
     js "3. 如果资料中确实没有相关信息，请明确说" ++ quote
       ++ js "根据已上传的文档，未找到相关信息" ++ quote;
     js "4. 回答要条理清晰，可以使用列表格式";
     js "5. 回答完成后，在最后另起一行，以" ++ quote ++ separator ++ quote
       ++ js "开头，然后换行列出3个用户可能想继续问的相关问题，每个问题一行，问题要基于资料内容，帮助用户深入了解";
     js "";
     js "## 参考资料：";
     buildContext docs;
     js "";
     js "## 用户问题：";
     question;
     js "";
     js "## 回答："].

(** [q.replace(/^\d+\.\s*/, '').replace(/^[-•]\s*/, '').trim()] *)
Definition cleanQuestion (q : jsstring) : jsstring :=
  trim (stripBulletMarker (stripNumericMarker q)).

(** [q.length > 0 && q.length < 100] *)
Definition keepQuestion (q : jsstring) : Prop := 0 < length q ∧ length q < 100.

#[global] Instance keepQuestion_dec (q : jsstring) : Decision (keepQuestion q).
Proof. unfold keepQuestion. apply _. Defined.

(** The lines of [parts[1]?.trim() || '']. *)
Definition questionLines (rawAnswer : jsstring) : list jsstring :=
  let parts := split separator rawAnswer in
  let questionsText := match parts !! 1 with Some p => trim p | None => [] end in
  split newline questionsText.

(** The parsing of the raw answer into the answer and the suggested
    questions. *)
Definition parseRawAnswer (rawAnswer : jsstring) : jsstring * list jsstring :=
  if includes separator rawAnswer then
    let parts := split separator rawAnswer in
    let answer := trim (default [] (parts !! 0)) in
    (answer, take 3 (filter keepQuestion (cleanQuestion <$> questionLines rawAnswer)))
  else (rawAnswer, []).

(** [doc.metadata?.source || '未知来源'] *)
Definition sourceOf (d : Document) : jsvalue :=
  match metadata d !! "source" with
  | Some v => if truthy v then v else JStr (js "未知来源")
  | None => JStr (js "未知来源")
  end.

(** The first statements of [queryRag]: the configuration, the effective
    [topK] and the retrieved documents. *)
Definition retrieveFor (env : Env) (question : jsstring) (customTopK : option Z)
    : M (RagConfig * list Document) :=
  config ← getRagConfig;
  let topK := default (topK config) customTopK in
  vectorStore ← getVectorStore;
  docs ← retrieverInvoke env vectorStore topK question;
  mret (config, docs).

Definition queryRag (env : Env) (question : jsstring) (customTopK : option Z) : M RagResult :=
  retrieved ← retrieveFor env question customTopK;
  let '(config, docs) := retrieved in
  let chunks := (λ d, mkRetrievedChunk (pageContent d) (sourceOf d)) <$> docs in
  if length docs =? 0 then
    mret (mkRagResult NO_INFORMATION [] [])
  else
    let prompt := buildPrompt docs question in
    rawAnswer ← invokeModel env (model config) (temperature config) prompt;
    let '(answer, suggestedQuestions) := parseRawAnswer rawAnswer in
    mret (mkRagResult answer chunks suggestedQuestions).

(* ===================================================================== *)
(** ** src/app/api/chat/route.ts *)
(* ===================================================================== *)

Module Chat.

(** The JSON answer of the chat route: the three fields of a [RagResult]
    and the status. *)
Record Response := mkResponse {
  result : RagResult;
  status : Z
}.

(** The message shown for an error, chosen by what its text contains. *)
Definition friendlyMessage (errorStr : jsstring) : jsstring :=
  if includes (js "AllocationQuota.FreeTierOnly") errorStr || includes (js "free tier") errorStr
  then js "⚠️ 当前模型的免费额度已用完，请切换到其他模型或在阿里云控制台开通付费模式。"
  else if includes (js "InvalidApiKey") errorStr || includes (js "Unauthorized") errorStr
  then js "⚠️ API Key 无效或已过期，请检查 DASHSCOPE_API_KEY 配置。"
  else if includes (js "RateLimitExceeded") errorStr
  then js "⚠️ 请求过于频繁，请稍后再试。"
  else if includes (js "ModelNotFound") errorStr
  then js "⚠️ 模型不存在或未开通，请在阿里云控制台确认模型权限。"
  else js "请求处理失败".

(** The handler. [parsed] is the outcome of [chatSchema.parse(await
    req.json())]: the message and the optional [topK] of a valid body, or
    the error that reading or validating the body raised. *)
Definition POST (env : Env) (parsed : Outcome (jsstring * option Z)) : M Response :=
  tryCatch
    (request ← liftOutcome parsed;
     let '(message, topK) := request in
     result ← queryRag env message topK;
     mret (mkResponse (mkRagResult (answer result) (chunks result) (suggestedQuestions result))
                      200))
    (λ error,
       let errorStr := errorMessage error in
       mret (mkResponse (mkRagResult (friendlyMessage errorStr) [] []) 500)).

End Chat.

(* ===================================================================== *)
(** ** src/app/api/knowledge/route.ts *)
(* ===================================================================== *)

Module Knowledge.

(** The fields of the body that the handler reads: [action], [config]
    (as the partial configuration it holds) and [docId]. *)
Record Body := mkBody {
  action : jsstring;
  config : PartialRagConfig;
  docId : option jsstring
}.

Inductive ResponseBody :=
| StatsBody (stats : KnowledgeBaseStats)
| ConfigBody (success : bool) (config : RagConfig)
| DeleteBody (result : DeleteResult)
| ClearedBody (success : bool) (message : jsstring)
| ErrorBody (error : jsstring).

Record Response := mkResponse {
  body : ResponseBody;
  status : Z
}.

Definition GET : M Response :=
  stats ← getKnowledgeBaseStats;
  mret (mkResponse (StatsBody stats) 200).

(** [parsed] is the outcome of [await req.json()]. *)
Definition POST (env : Env) (parsed : Outcome Body) : M Response :=
  tryCatch
    (body ← liftOutcome parsed;
     if decide (action body = js "updateConfig") then
       config ← setRagConfig (config body);
       mret (mkResponse (ConfigBody true config) 200)
     else if decide (action body = js "deleteDocument") then
       match docId body with
       | Some (c :: rest) =>
         result ← deleteDocument env (c :: rest);
         mret (mkResponse (DeleteBody result) 200)
       | _ => mret (mkResponse (ErrorBody (js "未知操作")) 400)
       end
     else mret (mkResponse (ErrorBody (js "未知操作")) 400))
    (λ error, mret (mkResponse (ErrorBody (js "操作失败")) 500)).

Definition DELETE : M Response :=
  clearKnowledgeBase;;
  mret (mkResponse (ClearedBody true (js "知识库已清空")) 200).

End Knowledge.

(* ===================================================================== *)
(** ** src/app/api/feedback/route.ts *)
(* ===================================================================== *)

Module Feedback.

Record Chunk := mkChunk {
  content : jsstring;
  source : jsstring
}.

Record FeedbackRecord := mkFeedbackRecord {
  id : jsstring;
  messageId : jsstring;
  question : jsstring;
  answer : jsstring;
  chunks : list Chunk;
  feedbackType : jsstring;
  timestamp : jsstring;
  topK : option Z
}.

Record Stats := mkStats {
  totalLikes : Z;
  totalDislikes : Z;
  lastUpdated : jsstring
}.

Record FeedbackData := mkFeedbackData {
  records : list FeedbackRecord;
  stats : Stats
}.

(** What the feedback routes depend on: the clock, the suffix that
    [Math.random().toString(36).substr(2, 9)] gives on its [k]-th call, and
    whether the [k]-th attempt to save (create the directory and write the
    file) fails. *)
Record Env := mkEnv {
  Date_now : nat → N;
  toISOString : N → jsstring;
  randomSuffix : nat → jsstring;
  saveError : nat → option Error
}.

(** The feedback file — [None] when it is missing or cannot be parsed,
    otherwise the data it holds — and the numbers of clock reads, random
    draws and save attempts so far. *)
Record World := mkWorld {
  file : option FeedbackData;
  clockReads : nat;
  randomDraws : nat;
  saves : nat
}.

(** [new Date().toISOString()] *)
Definition isoNow (env : Env) (w : World) : jsstring * World :=
  (toISOString env (Date_now env (clockReads w)),
   mkWorld (file w) (S (clockReads w)) (randomDraws w) (saves w)).

Definition loadFeedbackData (env : Env) (w : World) : FeedbackData * World :=
  match file w with
  | Some data => (data, w)
  | None =>
    let '(now, w1) := isoNow env w in
    (mkFeedbackData [] (mkStats 0 0 now), w1)
  end.

Definition saveFeedbackData (env : Env) (data : FeedbackData) (w : World)
    : Outcome () * World :=
  match saveError env (saves w) with
  | Some e => (Throw e, mkWorld (file w) (clockReads w) (randomDraws w) (S (saves w)))
  | None => (Ok (), mkWorld (Some data) (clockReads w) (randomDraws w) (S (saves w)))
  end.

(** The fields of the body of a POST; [None] is a missing field. *)
Record Body := mkBody {
  b_messageId : option jsstring;
  b_question : option jsstring;
  b_answer : option jsstring;
  b_chunks : option (list Chunk);
  b_feedbackType : option jsstring;
  b_topK : option Z
}.

Inductive ResponseBody :=
| ErrorBody (error : jsstring)
| SuccessBody (success : bool) (message : jsstring) (stats : Stats).

Record Response := mkResponse {
  body : ResponseBody;
  status : Z
}.

(** [x || ''] of a string field: the empty string when it is falsy. *)
Definition orBlank (x : option jsstring) : jsstring := default [] x.

(** [if (oldType === 'like') data.stats.totalLikes--; else data.stats.totalDislikes--;] *)
Definition uncount (oldType : jsstring) (s : Stats) : Stats :=
  if decide (oldType = js "like")
  then mkStats (totalLikes s - 1) (totalDislikes s) (lastUpdated s)
  else mkStats (totalLikes s) (totalDislikes s - 1) (lastUpdated s).

(** [if (feedbackType === 'like') data.stats.totalLikes++; else data.stats.totalDislikes++;] *)
Definition count (feedbackType : jsstring) (s : Stats) : Stats :=
  if decide (feedbackType = js "like")
  then mkStats (totalLikes s + 1) (totalDislikes s) (lastUpdated s)
  else mkStats (totalLikes s) (totalDislikes s + 1) (lastUpdated s).

(** [data.records.findIndex(r => r.messageId === messageId)] *)
Definition findByMessage (messageId' : jsstring) (rs : list FeedbackRecord)
    : option (nat * FeedbackRecord) :=
  list_find (λ r, messageId r = messageId') rs.

Definition POST (env : Env) (body : Body) (w : World) : Response * World :=
  let messageId := orBlank (b_messageId body) in
  let question := orBlank (b_question body) in
  let answer := orBlank (b_answer body) in
  let feedbackType := orBlank (b_feedbackType body) in
  match messageId, question, answer, feedbackType with
  | _ :: _, _ :: _, _ :: _, _ :: _ =>
    if decide (feedbackType ∈ [js "like"; js "dislike"]) then
      let '(data, w) := loadFeedbackData env w in
      let existing := findByMessage messageId (records data) in
      let now := Date_now env (clockReads w) in
      let suffix := randomSuffix env (randomDraws w) in
      let w := mkWorld (file w) (S (clockReads w)) (S (randomDraws w)) (saves w) in
      let '(timestamp, w) := isoNow env w in
      let newRecord :=
        mkFeedbackRecord (js "fb_" ++ decimal now ++ js "_" ++ suffix)
                         messageId question answer (default [] (b_chunks body))
                         feedbackType timestamp (b_topK body) in
      let data :=
        match existing with
        | Some (existingIndex, old) =>
          mkFeedbackData (<[existingIndex := newRecord]> (records data))
                         (uncount (Feedback.feedbackType old) (stats data))
        | None => mkFeedbackData (records data ++ [newRecord]) (stats data)
        end in
      let '(updated, w) := isoNow env w in
      let stats := count feedbackType (stats data) in
      let data := mkFeedbackData (records data)
                                 (mkStats (totalLikes stats) (totalDislikes stats) updated) in
      match saveFeedbackData env data w with
      | (Ok _, w) => (mkResponse (SuccessBody true (js "反馈已记录") (Feedback.stats data)) 200, w)
      | (Throw _, w) => (mkResponse (ErrorBody (js "记录反馈失败")) 500, w)
      end
    else (mkResponse (ErrorBody (js "无效的反馈类型")) 400, w)
  | _, _, _, _ => (mkResponse (ErrorBody (js "缺少必要参数")) 400, w)
  end.

(** [messageId'] is [searchParams.get('messageId')]. *)
Definition DELETE (env : Env) (messageId' : option jsstring) (w : World) : Response * World :=
  match messageId' with
  | Some (c :: rest) =>
    let '(data, w) := loadFeedbackData env w in
    match findByMessage (c :: rest) (records data) with
    | Some (existingIndex, old) =>
      let stats := uncount (feedbackType old) (stats data) in
      let '(updated, w) := isoNow env w in
      let data := mkFeedbackData (delete existingIndex (records data))
                                 (mkStats (totalLikes stats) (totalDislikes stats) updated) in
      match saveFeedbackData env data w with
      | (Ok _, w) => (mkResponse (SuccessBody true (js "反馈已取消") (Feedback.stats data)) 200, w)
      | (Throw _, w) => (mkResponse (ErrorBody (js "取消反馈失败")) 500, w)
      end
    | None => (mkResponse (SuccessBody true (js "反馈已取消") (stats data)) 200, w)
    end
  | _ => (mkResponse (ErrorBody (js "缺少 messageId")) 400, w)
  end.

End Feedback.

(* ===================================================================== *)
(** ** Observations and the vocabulary of the statements *)
(* ===================================================================== *)

(** [global.documentMetas || []] *)
Definition metasOf (w : World) : list DocumentMeta := orEmpty (documentMetas (globals w)).

(** [global.storedDocuments || []] *)
Definition storedOf (w : World) : list StoredDocument := orEmpty (storedDocuments (globals w)).

(** The entries of the vector store instance, none when there is no
    instance. *)
Definition entriesOf (w : World) : list MemoryVector :=
  from_option memoryVectors [] (vectorStoreInstance (globals w)).

(** The text and metadata of the indexed entries, as documents. *)
Definition entryDocsOf (w : World) : list Document :=
  (λ mv, mkDocument (mv_content mv) (mv_metadata mv)) <$> entriesOf w.

(** [getKnowledgeBaseStats().documentCount] and [.totalChunks] as functions
    of the registry. *)
Definition countChunks (metas : list DocumentMeta) : nat :=
  foldl (λ sum m, sum + chunkCount m) 0 metas.

(** The world and the outcome of running an action. *)
Definition worldAfter {A} (m : M A) (w : World) : World := (m w).2.

Definition outcomeOf {A} (m : M A) (w : World) : Outcome A := (m w).1.

(** Nothing but the request log changes. *)
Definition onlyRequestsLogged (w w' : World) : Prop :=
  globals w' = globals w ∧ llmPrompts w' = llmPrompts w ∧ clockReads w' = clockReads w.

(** The sub-batches that [embedDocuments] sends, before [processText]. *)
Definition subBatches (texts : list jsstring) : list (list jsstring) :=
  (λ i, slice texts i (i + DashScopeEmbeddings.batchSize))
    <$> loopStarts (length texts) DashScopeEmbeddings.batchSize.

(** [w'] is [w0] with the documents [ds] indexed and stored under [docId],
    and nothing else of the store, the registry, the configuration, the
    prompt log or the clock changed. *)
Definition committed (w0 : World) (docId : jsstring) (ds : list Document) (w' : World) : Prop :=
  is_Some (vectorStoreInstance (globals w')) ∧
  entryDocsOf w' = entryDocsOf w0 ++ ds ∧
  storedOf w' = storedOf w0 ++ (mkStoredDocument docId <$> ds) ∧
  metasOf w' = metasOf w0 ∧
  ragConfig (globals w') = ragConfig (globals w0) ∧
  llmPrompts w' = llmPrompts w0 ∧
  clockReads w' = clockReads w0.

(** The text and metadata of the entries of a store, as documents. *)
Definition storeDocs (vs : MemoryVectorStore) : list Document :=
  (λ mv, mkDocument (mv_content mv) (mv_metadata mv)) <$> memoryVectors vs.

(** The rebuild loop of [deleteDocument] over the remaining documents, as
    an action of its own (the same term as in [deleteDocument]). *)
Definition rebuildLoop (env : Env) (remainingDocs : list StoredDocument) : M MemoryVectorStore :=
  forLoop (loopStarts (length remainingDocs) batchSize)
    (λ newVectorStore i,
       let batch := slice remainingDocs i (i + batchSize) in
       let texts := (λ d, pageContent (doc d)) <$> batch in
       vectors ← DashScopeEmbeddings.embedDocuments env texts;
       forLoop (seq 0 (length batch))
         (λ newVectorStore j,
            match batch !! j with
            | None => throw typeError
            | Some batch_j => mret (addVectors newVectorStore [vectors !! j] [doc batch_j])
            end)
         newVectorStore)
    newMemoryVectorStore.

(** The operations on the store that a request can trigger. *)
Inductive Operation :=
| OpAdd (docs : list Document) (filename : jsstring) (fileType : option jsvalue)
| OpDelete (docId : jsstring)
| OpClear.

(** An operation runs to its end, normal or exceptional; the caller catches
    what it throws and the process goes on from the world it left. *)
Definition runOp (env : Env) (op : Operation) (w : World) : World :=
  match op with
  | OpAdd docs filename fileType => worldAfter (addDocumentsToStore env docs filename fileType) w
  | OpDelete docId => worldAfter (deleteDocument env docId) w
  | OpClear => worldAfter clearKnowledgeBase w
  end.

(** A sequence of operations, one after the other. *)
Definition runOps (env : Env) (ops : list Operation) (w : World) : World :=
  foldl (λ w op, runOp env op w) w ops.

(** The property of the registry and the stored documents: every record
    counts the stored chunks that carry its id. *)
Definition registryConsistent (w : World) : Prop :=
  ∀ m, m ∈ metasOf w →
    chunkCount m = length (filter (λ d, docId d = id m) (storedOf w)).

(** [documentCount] and [totalChunks] as [getKnowledgeBaseStats] reports
    them. *)
Definition statsOf (w : World) : option (nat * nat) :=
  match outcomeOf getKnowledgeBaseStats w with
  | Ok stats => Some (documentCount stats, totalChunks stats)
  | Throw _ => None
  end.

(** A call of one of the two clearing functions. *)
Inductive ClearCall := CallClearKnowledgeBase | CallClearAllDocuments.

Definition runClear (c : ClearCall) (w : World) : World :=
  match c with
  | CallClearKnowledgeBase => worldAfter clearKnowledgeBase w
  | CallClearAllDocuments => worldAfter clearAllDocuments w
  end.

(** The id [i] is carried by no record of the registry and by no stored
    chunk. *)
Definition idUnused (w : World) (i : jsstring) : Prop :=
  (i ∉ id <$> metasOf w) ∧ (i ∉ docId <$> storedOf w).

(** Every ingestion of the sequence draws an id that is unused when it
    starts. *)
Fixpoint idsFresh (env : Env) (ops : list Operation) (w : World) : Prop :=
  match ops with
  | [] => True
  | op :: rest =>
    match op with
    | OpAdd _ _ _ => idUnused w (makeDocId (Date_now env (clockReads w)))
    | _ => True
    end ∧ idsFresh env rest (runOp env op w)
  end.

(** The response of the upload handler to content that is too short. *)
Definition emptyContentError (fileType : jsstring) : Response :=
  mkResponse (ErrorBody (fileType ++ js " 内容为空或无法提取文字。请检查文件是否正确。")) 400.


(* ===================================================================== *)
(** ** Concrete environments and inputs *)
(* ===================================================================== *)

(** In the concrete runs the embedding of a text is its length. *)
Definition sampleEmbedding (text : jsstring) : Vector := [inject_Z (Z.of_nat (length text))].

(** A small environment: the endpoint is [endpoint], the clock is [clock];
    the splitter returns its input, the search returns the first [k]
    entries, the chat model answers [ok], every file is saved, and nothing
    can be listed or read back from the upload directory. *)
Definition sampleEnvWith (endpoint : nat → list jsstring → Outcome (list Vector))
    (clock : nat → N) : Env :=
  mkEnv (js "sk-test")
        endpoint
        clock
        decimal
        (λ _ _ _ docs, Ok docs)
        (λ vs _ k, Ok (take (Z.to_nat k) (storeDocs vs)))
        (λ _ _ _ _, Ok (js "ok"))
        utf16_of_utf8
        (λ _, Throw (JsError (js "pdf")))
        (λ _, Throw (JsError (js "xlsx")))
        (λ _, Throw (JsError (js "docx")))
        (Ok [])
        (λ _, Throw (JsError (js "ENOENT")))
        toLowerCaseAscii
        (λ _ _ _, Ok ()).

(** The endpoint answers every request. *)
Definition alwaysAnswers : nat → list jsstring → Outcome (list Vector) :=
  λ _ input, Ok (sampleEmbedding <$> input).

(** The endpoint answers the first [okRequests] requests and rejects the
    later ones. *)
Definition answersFirst (okRequests : nat) : nat → list jsstring → Outcome (list Vector) :=
  λ k input,
    if k <? okRequests then Ok (sampleEmbedding <$> input)
    else Throw (JsError (js "DashScope Embedding API error: quota")).

(** The small environment with an endpoint that gives up after
    [okRequests] requests. *)
Definition sampleEnv (okRequests : nat) (clock : nat → N) : Env :=
  sampleEnvWith (answersFirst okRequests) clock.

(** A chunk with the given text and no metadata. *)
Definition textDoc (text : string) : Document := mkDocument (js text) ∅.

(** A clock that is read several times within one millisecond. *)
Definition sameMillisecond : nat → N := λ _, 1700000000000%N.

(** Two ingestions, of one and of two chunks, that enter
    [addDocumentsToStore] within that millisecond. *)
Definition twoIngestions : World :=
  runOps (sampleEnv 10 sameMillisecond)
         [OpAdd [textDoc "alpha"] (js "a.txt") None;
          OpAdd [textDoc "beta one"; textDoc "beta two"] (js "b.txt") None]
         freshWorld.

(** Eleven chunks: two sub-batches. *)
Definition elevenChunks : list Document :=
  (λ i, mkDocument (js "chunk " ++ decimal (N.of_nat i)) ∅) <$> seq 0 11.

(** The endpoint answers the first request and rejects the second. *)
Definition secondRequestFails : Env :=
  sampleEnv 1 (λ k, (1700000000000 + N.of_nat k)%N).

(** Eleven texts to embed. *)
Definition elevenTexts : list jsstring :=
  (λ i, js "text " ++ decimal (N.of_nat i)) <$> seq 0 11.

(** A text file that holds [hi]. *)
Definition hiFile : File := mkFile (js "hi.txt") [104; 105]%N.

(** The bytes of an ASCII text. *)
Definition asciiBytes (s : string) : list N := N_of_ascii <$> list_ascii_of_string s.

(** A text file of seventeen characters. *)
Definition noteFile : File := mkFile (js "note.txt") (asciiBytes "hello world notes").

(** An environment whose splitter returns no segment, with that file in the
    upload directory. *)
Definition emptySplitEnv : Env :=
  mkEnv (js "sk-test")
        alwaysAnswers
        sameMillisecond
        decimal
        (λ _ _ _ _, Ok [])
        (λ vs _ k, Ok (take (Z.to_nat k) (storeDocs vs)))
        (λ _ _ _ _, Ok (js "ok"))
        utf16_of_utf8
        (λ _, Throw (JsError (js "pdf")))
        (λ _, Throw (JsError (js "xlsx")))
        (λ _, Throw (JsError (js "docx")))
        (Ok [name noteFile])
        (λ _, Ok (bytes noteFile))
        toLowerCaseAscii
        (λ _ _ _, Ok ()).

(** A raw answer with two follow-up questions after the separator. *)
Definition sampleRawAnswer : jsstring :=
  js "Paris." ++ newline ++ separator ++ newline
    ++ js "1. What about Rome?" ++ newline ++ js "- And Berlin?".

(** An environment whose chat model gives that answer. *)
Definition chattyEnv : Env :=
  mkEnv (js "sk-test")
        alwaysAnswers
        sameMillisecond
        decimal
        (λ _ _ _ docs, Ok docs)
        (λ vs _ k, Ok (take (Z.to_nat k) (storeDocs vs)))
        (λ _ _ _ _, Ok sampleRawAnswer)
        utf16_of_utf8
        (λ _, Throw (JsError (js "pdf")))
        (λ _, Throw (JsError (js "xlsx")))
        (λ _, Throw (JsError (js "docx")))
        (Ok [])
        (λ _, Throw (JsError (js "ENOENT")))
        toLowerCaseAscii
        (λ _ _ _, Ok ()).

(** A store with one ingested chunk, and that chunk as it is stored. *)
Definition oneChunkWorld : World :=
  worldAfter (addDocumentsToStore chattyEnv [textDoc "Paris is the capital of France."]
                                  (js "geo.txt") None)
             freshWorld.

Definition oneChunk : list Document :=
  [docWithMeta (js "doc_1700000000000") (js "geo.txt") (JStr (js "TXT"))
               (textDoc "Paris is the capital of France.")].

(** The limits of the embedding endpoint: at most ten texts in a request,
    at most 2048 code units in a text. *)
Definition withinLimits (request : list jsstring) : Prop :=
  length request ≤ 10 ∧ Forall (λ text, length text ≤ 2048) request.

(** Every request sent so far respects the limits. *)
Definition requestsWithinLimits (w : World) : Prop :=
  Forall withinLimits (embedRequests w).

(** The requests that [embedDocuments] sends for [documents]. *)
Definition requestsFor (documents : list jsstring) : list (list jsstring) :=
  fmap (M:=list) DashScopeEmbeddings.processText <$> subBatches documents.

(** The error of [callDashScopeEmbedding] when there is no credential. *)
Definition missingKeyError : Error :=
  JsError (js "DASHSCOPE_API_KEY is required for embeddings").

(** An environment without credential. *)
Definition noKeyEnv : Env :=
  mkEnv [] alwaysAnswers sameMillisecond decimal (λ _ _ _ docs, Ok docs)
        (λ vs _ k, Ok (take (Z.to_nat k) (storeDocs vs)))
        (λ _ _ _ _, Ok (js "ok")) utf16_of_utf8
        (λ _, Throw (JsError (js "pdf"))) (λ _, Throw (JsError (js "xlsx")))
        (λ _, Throw (JsError (js "docx"))) (Ok [])
        (λ _, Throw (JsError (js "ENOENT")))
        toLowerCaseAscii
        (λ _ _ _, Ok ()).

(** [{ ...config, ...partial }] *)
Definition mergeConfig (c : RagConfig) (p : PartialRagConfig) : RagConfig :=
  mkRagConfig (default (topK c) (p_topK p)) (default (chunkSize c) (p_chunkSize p))
              (default (chunkOverlap c) (p_chunkOverlap p)) (default (model c) (p_model p))
              (default (temperature c) (p_temperature p)).

(** The configuration in force: the stored one, or the default while none
    was stored. *)
Definition configOf (w : World) : RagConfig :=
  default DEFAULT_RAG_CONFIG (ragConfig (globals w)).

(** A partial configuration that changes [topK] and the model only. *)
Definition samplePartial : PartialRagConfig :=
  mkPartialRagConfig (Some 50%Z) None None (Some (js "qwen-plus")) None.

(** The entry that the rebuild of the index makes of a stored document,
    when [embed] is the embedding of a text as sent. *)
Definition rebuiltEntry (embed : jsstring → Vector) (d : StoredDocument) : MemoryVector :=
  mkMemoryVector (pageContent (doc d)) (Some (embed (pageContent (doc d))))
                 (metadata (doc d)).

(** The texts of stored documents. *)
Definition textsOf (ds : list StoredDocument) : list jsstring :=
  (λ d, pageContent (doc d)) <$> ds.

(** The documents that survive the deletion of [docId']. *)
Definition survivors (docId' : jsstring) (w : World) : list StoredDocument :=
  filter (λ d, docId d ≠ docId') (storedOf w).

(** The index holds the stored documents, in order. *)
Definition indexMirrorsStore (w : World) : Prop :=
  entryDocsOf w = doc <$> storedOf w.

(** Every deletion of the sequence returns normally. *)
Fixpoint deletionsSucceed (env : Env) (ops : list Operation) (w : World) : Prop :=
  match ops with
  | [] => True
  | op :: rest =>
    match op with
    | OpDelete docId' =>
      match outcomeOf (deleteDocument env docId') w with
      | Ok _ => True
      | Throw _ => False
      end
    | _ => True
    end ∧ deletionsSucceed env rest (runOp env op w)
  end.

(** A stored chunk carries in its metadata the document id under which it
    is stored, a source, and a file type that is not empty: a truthy value,
    which is a string unless [typeMap] gave an inherited property. *)
Definition tagged (s : StoredDocument) : Prop :=
  metadata (doc s) !! "docId" = Some (JStr (docId s)) ∧
  (∃ source, metadata (doc s) !! "source" = Some (JStr source)) ∧
  (∃ fileType, metadata (doc s) !! "fileType" = Some fileType ∧ truthy fileType = true).

Definition storedTagged (w : World) : Prop := Forall tagged (storedOf w).

(** The endpoint answers two requests; the clock advances at every read. *)
Definition thirdRequestFails : Env :=
  sampleEnv 2 (λ k, (1700000000000 + N.of_nat k)%N).

(** Two ingested documents with different ids. *)
Definition twoDocuments : World :=
  runOps thirdRequestFails
         [OpAdd [textDoc "alpha"] (js "a.txt") None;
          OpAdd [textDoc "beta"] (js "b.txt") None]
         freshWorld.

(** The file types that [typeMap] names. *)
Definition FILE_TYPES : list jsstring :=
  [js "PDF"; js "TXT"; js "Markdown"; js "Excel"; js "Word"].


(** A text file of twelve spaces, and an environment that has it in the
    upload directory. *)
Definition blankFile : File := mkFile (js "blank.txt") (asciiBytes "            ").

Definition blankDirEnv : Env :=
  mkEnv (js "sk-test")
        alwaysAnswers
        sameMillisecond
        decimal
        (λ _ _ _ docs, Ok docs)
        (λ vs _ k, Ok (take (Z.to_nat k) (storeDocs vs)))
        (λ _ _ _ _, Ok (js "ok"))
        utf16_of_utf8
        (λ _, Throw (JsError (js "pdf")))
        (λ _, Throw (JsError (js "xlsx")))
        (λ _, Throw (JsError (js "docx")))
        (Ok [name blankFile])
        (λ _, Ok (bytes blankFile))
        toLowerCaseAscii
        (λ _ _ _, Ok ()).

(** The files of the upload directory that the reindex handler processes. *)
Definition supportedFilesOf (env : Env) : list jsstring :=
  match readdir env with
  | Ok files => filter (λ f, getFileExtension env f ∈ SUPPORTED_EXTENSIONS) files
  | Throw _ => []
  end.

(** The lines of a reindex report that say a file was ingested. *)
Definition successesOf (details : list ReindexResult) : list ReindexResult :=
  filter (λ r, r_status r = js "成功") details.

(** What the knowledge base holds and the configuration in force. *)
Definition sameKnowledgeBase (w w' : World) : Prop :=
  metasOf w' = metasOf w ∧ storedOf w' = storedOf w ∧ entryDocsOf w' = entryDocsOf w ∧
  configOf w' = configOf w ∧ clockReads w' = clockReads w.

(** The messages that the chat route shows for an error. *)
Definition chatErrorMessages : list jsstring :=
  [js "⚠️ 当前模型的免费额度已用完，请切换到其他模型或在阿里云控制台开通付费模式。";
   js "⚠️ API Key 无效或已过期，请检查 DASHSCOPE_API_KEY 配置。";
   js "⚠️ 请求过于频繁，请稍后再试。";
   js "⚠️ 模型不存在或未开通，请在阿里云控制台确认模型权限。";
   js "请求处理失败"].

(** The records of a feedback file that are likes, and those that are not. *)
Definition likesIn (rs : list Feedback.FeedbackRecord) : nat :=
  length (filter (λ r, Feedback.feedbackType r = js "like") rs).

Definition dislikesIn (rs : list Feedback.FeedbackRecord) : nat :=
  length (filter (λ r, Feedback.feedbackType r ≠ js "like") rs).

(** The counters of the file are the numbers of its records, and no two
    records are about the same message. *)
Definition countersMatch (d : Feedback.FeedbackData) : Prop :=
  Feedback.totalLikes (Feedback.stats d) = Z.of_nat (likesIn (Feedback.records d)) ∧
  Feedback.totalDislikes (Feedback.stats d) = Z.of_nat (dislikesIn (Feedback.records d)).

Definition onePerMessage (d : Feedback.FeedbackData) : Prop :=
  NoDup (Feedback.messageId <$> Feedback.records d).

(** A missing or unreadable file is read as the empty data. *)
Definition feedbackInvariant (w : Feedback.World) : Prop :=
  match Feedback.file w with
  | Some d => countersMatch d ∧ onePerMessage d
  | None => True
  end.



(** A call of one of the two feedback handlers that write. *)
Inductive FeedbackCall :=
| CallPost (body : Feedback.Body)
| CallDelete (messageId : option jsstring).

Definition runFeedback (env : Feedback.Env) (call : FeedbackCall) (w : Feedback.World)
    : Feedback.Response * Feedback.World :=
  match call with
  | CallPost body => Feedback.POST env body w
  | CallDelete messageId => Feedback.DELETE env messageId w
  end.

Definition runFeedbacks (env : Feedback.Env) (calls : list FeedbackCall) (w : Feedback.World)
    : Feedback.World :=
  foldl (λ w call, (runFeedback env call w).2) w calls.

(** A body with every field that the handler requires. *)
Definition validBody (body : Feedback.Body) : Prop :=
  Feedback.orBlank (Feedback.b_messageId body) ≠ [] ∧
  Feedback.orBlank (Feedback.b_question body) ≠ [] ∧
  Feedback.orBlank (Feedback.b_answer body) ≠ [] ∧
  Feedback.orBlank (Feedback.b_feedbackType body) ∈ [js "like"; js "dislike"].


(** The same, with a disk on which the second save fails. *)
Definition secondSaveFails : Feedback.Env :=
  Feedback.mkEnv (λ k, 1700000000000 + N.of_nat k)%N decimal (λ _, js "k3x9q2m1z")
                 (λ k, if (k =? 1)%nat then Some (JsError (js "ENOSPC")) else None).

Definition noFeedback : Feedback.World := Feedback.mkWorld None 0 0 0.

Definition feedbackBody (messageId feedbackType : string) : Feedback.Body :=
  Feedback.mkBody (Some (js messageId)) (Some (js "capital?")) (Some (js "Paris."))
                  None (Some (js feedbackType)) None.

#[global] Instance validBody_dec (body : Feedback.Body) : Decision (validBody body).
Proof. unfold validBody. apply _. Defined.

(** The world [w] after [file] was written to the upload directory. *)
Definition withSaved (file : File) (w : World) : World :=
  mkWorld (globals w) (embedRequests w) (llmPrompts w) (clockReads w)
          (savedFiles w ++ [(name file, bytes file)]).

(** The small environment with one file in the upload directory: reading
    that file gives its bytes, reading another one fails. *)
Definition uploadDirEnv (file : File) : Env :=
  mkEnv (js "sk-test")
        alwaysAnswers
        sameMillisecond
        decimal
        (λ _ _ _ docs, Ok docs)
        (λ vs _ k, Ok (take (Z.to_nat k) (storeDocs vs)))
        (λ _ _ _ _, Ok (js "ok"))
        utf16_of_utf8
        (λ _, Throw (JsError (js "pdf")))
        (λ _, Throw (JsError (js "xlsx")))
        (λ _, Throw (JsError (js "docx")))
        (Ok [name file])
        (λ path, if decide (path = name file) then Ok (bytes file)
                 else Throw (JsError (js "ENOENT")))
        toLowerCaseAscii
        (λ _ _ _, Ok ()).


(* ===================================================================== *)
(** ** The specification of suggested questions, in terms of lists *)
(* ===================================================================== *)

(** These definitions say in terms of lists what the specification says of
    lines, markers and trimming; they do not use the functions that model
    the string methods and the regular expressions of [queryRag]. *)

(** A text begins, or ends, with a white-space character. *)
Definition startsBlank (s : jsstring) : Prop :=
  ∃ c, head s = Some c ∧ isWhiteSpace c = true.

Definition endsBlank (s : jsstring) : Prop :=
  ∃ c, last s = Some c ∧ isWhiteSpace c = true.

(** [t] is [s] without the white space at its two ends. *)
Definition Trimmed (s t : jsstring) : Prop :=
  ∃ pre post,
    s = pre ++ t ++ post ∧
    Forall (λ c, isWhiteSpace c = true) pre ∧ Forall (λ c, isWhiteSpace c = true) post ∧
    ¬ startsBlank t ∧ ¬ endsBlank t.

(** A line begins with a numeric marker: one or more digits and a dot. *)
Definition numericMarked (line : jsstring) : Prop :=
  ∃ digits rest,
    digits ≠ [] ∧ Forall (λ c, isDigit c = true) digits ∧ line = digits ++ [46%N] ++ rest.

(** A line begins with a bullet marker: a dash or a bullet. *)
Definition bulletMarked (line : jsstring) : Prop :=
  ∃ c rest, (c = 45%N ∨ c = 8226%N) ∧ line = c :: rest.

(** [rest] is [line] without the numeric marker at its very start and the
    white space that follows the marker; a line that does not begin with a
    numeric marker is left as it is. *)
Inductive WithoutNumericMarker : jsstring → jsstring → Prop :=
| numeric_marker_removed (digits blanks rest : jsstring) :
    digits ≠ [] →
    Forall (λ c, isDigit c = true) digits →
    Forall (λ c, isWhiteSpace c = true) blanks →
    ¬ startsBlank rest →
    WithoutNumericMarker (digits ++ [46%N] ++ blanks ++ rest) rest
| numeric_marker_absent (line : jsstring) :
    ¬ numericMarked line → WithoutNumericMarker line line.

(** The same for the dash or bullet at the very start of a line. *)
Inductive WithoutBulletMarker : jsstring → jsstring → Prop :=
| bullet_marker_removed (c : N) (blanks rest : jsstring) :
    c = 45%N ∨ c = 8226%N →
    Forall (λ c, isWhiteSpace c = true) blanks →
    ¬ startsBlank rest →
    WithoutBulletMarker (c :: blanks ++ rest) rest
| bullet_marker_absent (line : jsstring) :
    ¬ bulletMarked line → WithoutBulletMarker line line.

(** A line as it is offered as a question: a numeric marker at its start is
    removed, then a bullet marker at the start of what is left, then the
    white space at the two ends. *)
Definition CleanedLine (line question : jsstring) : Prop :=
  ∃ r1 r2, WithoutNumericMarker line r1 ∧ WithoutBulletMarker r1 r2 ∧ Trimmed r2 question.

(** [middle] is the text of [after] up to the next separator, all of
    [after] when there is none. *)
Definition UpToSeparator (after middle : jsstring) : Prop :=
  (middle = after ∧ ∀ n, startsWith separator (drop n after) = false) ∨
  (∃ tail, after = middle ++ separator ++ tail ∧
           ∀ n, n < length middle → startsWith separator (drop n after) = false).

(** [lines] are the lines of [block]. *)
Definition LinesOf (block : jsstring) (lines : list jsstring) : Prop :=
  lines ≠ [] ∧ join newline lines = block ∧ Forall (λ line, 10%N ∉ line) lines.

(** An environment like the small one whose chat model answers [raw]. *)
Definition answeringEnv (raw : jsstring) : Env :=
  mkEnv (js "sk-test")
        alwaysAnswers
        sameMillisecond
        decimal
        (λ _ _ _ docs, Ok docs)
        (λ vs _ k, Ok (take (Z.to_nat k) (storeDocs vs)))
        (λ _ _ _ _, Ok raw)
        utf16_of_utf8
        (λ _, Throw (JsError (js "pdf")))
        (λ _, Throw (JsError (js "xlsx")))
        (λ _, Throw (JsError (js "docx")))
        (Ok [])
        (λ _, Throw (JsError (js "ENOENT")))
        toLowerCaseAscii
        (λ _ _ _, Ok ()).

(** A raw answer whose only suggestion has a numeric marker behind a
    bullet, and one whose suggestion is indented. *)
Definition bulletThenNumber : jsstring :=
  js "A." ++ newline ++ separator ++ newline ++ js "- 1. first".

Definition indentedNumber : jsstring :=
  js "A." ++ newline ++ separator ++ newline ++ js "1. one" ++ newline ++ js "  2. two".

(** The small environment with a clock that advances at every read and an
    endpoint that answers the first [okRequests] requests. *)
Definition tickingEnv (okRequests : nat) : Env :=
  sampleEnv okRequests (λ k, (1700000000000 + N.of_nat k)%N).

(** One document, then one of eleven chunks; the first one is deleted, which
    embeds the eleven survivors again in two requests; then the ingestion
    of eleven more chunks fails at its second request. *)
Definition mixedOperations : list Operation :=
  [OpAdd [textDoc "alpha"] (js "a.txt") None;
   OpAdd elevenChunks (js "big.txt") (Some (JStr (js "TXT")));
   OpDelete (js "doc_1700000000000");
   OpAdd elevenChunks (js "more.txt") None].

(** Constants that the proofs below keep folded. *)
Arguments js : simpl never.
Arguments decimal : simpl never.
Arguments makeDocId : simpl never.
Arguments detectedFileTypeOf : simpl never.
Arguments docWithMeta : simpl never.
Arguments loopStarts : simpl never.
Arguments slice : simpl never.
Arguments batchSize : simpl never.
Arguments DashScopeEmbeddings.batchSize : simpl never.

(* ===================================================================== *)
(** ** The string functions on examples *)
(* ===================================================================== *)

Example js_ascii : js "doc_" = [100; 111; 99; 95]%N.
Proof. reflexivity. Qed.

Example js_bmp : js "•。" = [8226; 12290]%N.
Proof. reflexivity. Qed.

Example decimal_ex : decimal 1700000000000%N = js "1700000000000".
Proof. reflexivity. Qed.

Example trim_ex : trim (js "  a b
 ") = js "a b".
Proof. reflexivity. Qed.

Example split_ex : split (js "--") (js "a--b----c") = [js "a"; js "b"; js ""; js "c"].
Proof. reflexivity. Qed.

Example split_empty : split (js ",") (js "") = [js ""].
Proof. reflexivity. Qed.

Example collapseBlanks_ex : collapseBlanks (js "a  	 b c") = js "a b c".
Proof. reflexivity. Qed.

Example collapseNewlines_ex :
  collapseNewlines [97; 10; 10; 10; 10; 98; 10; 10; 99; 10; 100]%N
  = [97; 10; 10; 98; 10; 10; 99; 10; 100]%N.
Proof. reflexivity. Qed.

Example stripNumeric_ex : stripNumericMarker (js "12.   what?") = js "what?".
Proof. reflexivity. Qed.

Example stripNumeric_nodot : stripNumericMarker (js "12 what?") = js "12 what?".
Proof. reflexivity. Qed.

Example stripBullet_ex : stripBulletMarker (js "•  what?") = js "what?".
Proof. reflexivity. Qed.

(* ===================================================================== *)
(** ** General facts about the monad and the loops *)
(* ===================================================================== *)

Lemma bind_run {A B} (m : M A) (f : A → M B) (w : World) :
  (m ≫= f) w =
  match m w with
  | (Ok a, w') => f a w'
  | (Throw e, w') => (Throw e, w')
  end.
Proof. reflexivity. Qed.

Lemma bind_ok {A B} (m : M A) (f : A → M B) (w w' : World) (a : A) :
  m w = (Ok a, w') → (m ≫= f) w = f a w'.
Proof. intros H. rewrite bind_run, H. reflexivity. Qed.

Lemma bind_throw {A B} (m : M A) (f : A → M B) (w w' : World) (e : Error) :
  m w = (Throw e, w') → (m ≫= f) w = (Throw e, w').
Proof. intros H. rewrite bind_run, H. reflexivity. Qed.

Lemma bind_lift_ok {A B} (a : A) (f : A → M B) (w : World) :
  ((λ w, (Ok a, w)) ≫= f) w = f a w.
Proof. reflexivity. Qed.

Lemma tryCatch_rethrow {A} (m : M A) (w : World) :
  tryCatch m (λ error, throw error) w = m w.
Proof. unfold tryCatch, throw. destruct (m w) as [[a|e] w']; reflexivity. Qed.

(** The loop rule: an invariant indexed by the number of completed rounds,
    and a condition established whenever a round throws. *)
Lemma forLoop_rule {A St} (I : nat → St → World → Prop) (E : Error → World → Prop)
    (l : list A) (body : St → A → M St) (s : St) (w : World) :
  I 0 s w →
  (∀ k x s w, l !! k = Some x → I k s w →
     match body s x w with
     | (Ok s', w') => I (S k) s' w'
     | (Throw e, w') => E e w'
     end) →
  match forLoop l body s w with
  | (Ok s', w') => I (length l) s' w'
  | (Throw e, w') => E e w'
  end.
Proof.
  revert I s w. induction l as [|x rest IH]; intros I s w H0 Hstep.
  - exact H0.
  - cbn [forLoop]. rewrite bind_run.
    pose proof (Hstep 0 x s w eq_refl H0) as Hx.
    destruct (body s x w) as [[s'|e] w1]; [|exact Hx].
    apply (IH (λ k, I (S k))); [exact Hx|].
    intros k y s2 w2 Hk. apply (Hstep (S k) y s2 w2). exact Hk.
Qed.

(** The rounds of a batched loop: their number, their values, and what the
    slices cover. *)
Lemma loopStarts_length (n step : nat) :
  length (loopStarts n step) = (n + step - 1) / step.
Proof. unfold loopStarts. rewrite length_fmap, length_seq. reflexivity. Qed.

Lemma loopStarts_lookup (n step k x : nat) :
  loopStarts n step !! k = Some x → x = k * step ∧ k * step < n.
Proof.
  unfold loopStarts. rewrite list_lookup_fmap.
  destruct (seq 0 ((n + step - 1) / step) !! k) as [j|] eqn:Hj; [|discriminate].
  apply lookup_seq in Hj as [-> Hlt]. cbn. intros [= <-]. split; [reflexivity|].
  destruct step as [|step]; [cbn in Hlt; lia|].
  assert (k * S step ≤ (n + S step - 1) / S step * S step - S step) by nia.
  pose proof (Nat.Div0.mul_div_le (n + S step - 1) (S step)). nia.
Qed.

Lemma loopStarts_cover {A} (xs : list A) (step : nat) :
  0 < step → take (length (loopStarts (length xs) step) * step) xs = xs.
Proof.
  intros Hstep. rewrite loopStarts_length. apply take_ge.
  pose proof (Nat.div_mod_eq (length xs + step - 1) step).
  pose proof (Nat.mod_upper_bound (length xs + step - 1) step). nia.
Qed.

Lemma slice_take_drop {A} (xs : list A) (i n : nat) :
  slice xs i (i + n) = take n (drop i xs).
Proof. unfold slice. f_equal. lia. Qed.

Lemma take_slice_next {A} (xs : list A) (k step : nat) :
  take (k * step) xs ++ slice xs (k * step) (k * step + step) = take (S k * step) xs.
Proof.
  rewrite slice_take_drop, take_take_drop. f_equal. lia.
Qed.

Lemma slice_length_le {A} (xs : list A) (i n : nat) : length (slice xs i (i + n)) ≤ n.
Proof. rewrite slice_take_drop, length_take. lia. Qed.

(* ===================================================================== *)
(** ** Embedding batches *)
(* ===================================================================== *)

Lemma onlyRequestsLogged_refl (w : World) : onlyRequestsLogged w w.
Proof. repeat split. Qed.

Lemma onlyRequestsLogged_trans (w1 w2 w3 : World) :
  onlyRequestsLogged w1 w2 → onlyRequestsLogged w2 w3 → onlyRequestsLogged w1 w3.
Proof. unfold onlyRequestsLogged. intros (?&?&?) (?&?&?). repeat split; congruence. Qed.

Lemma callDashScopeEmbedding_run (env : Env) (texts : list jsstring) (w : World) :
  DASHSCOPE_API_KEY env ≠ [] →
  DashScopeEmbeddings.callDashScopeEmbedding env texts w =
  (dashscope env (length (embedRequests w)) (DashScopeEmbeddings.processText <$> texts),
   mkWorld (globals w) (embedRequests w ++ [DashScopeEmbeddings.processText <$> texts])
           (llmPrompts w) (clockReads w) (savedFiles w)).
Proof.
  intros Hkey. unfold DashScopeEmbeddings.callDashScopeEmbedding.
  destruct (DASHSCOPE_API_KEY env) as [|c key]; [congruence|].
  rewrite tryCatch_rethrow. reflexivity.
Qed.

Lemma callDashScopeEmbedding_frame (env : Env) (texts : list jsstring) (w : World) :
  onlyRequestsLogged w (worldAfter (DashScopeEmbeddings.callDashScopeEmbedding env texts) w).
Proof.
  unfold worldAfter, DashScopeEmbeddings.callDashScopeEmbedding.
  destruct (DASHSCOPE_API_KEY env) as [|c key]; [apply onlyRequestsLogged_refl|].
  rewrite tryCatch_rethrow. repeat split.
Qed.

Lemma embedDocuments_frame (env : Env) (documents : list jsstring) (w : World) :
  onlyRequestsLogged w (worldAfter (DashScopeEmbeddings.embedDocuments env documents) w).
Proof.
  unfold worldAfter, DashScopeEmbeddings.embedDocuments.
  match goal with |- context [forLoop ?l ?b ?s w] =>
    pose proof (forLoop_rule (λ _ _ w', onlyRequestsLogged w w')
                             (λ _ w', onlyRequestsLogged w w') l b s w) as H
  end.
  cbn beta in H.
  match type of H with _ → _ → match ?r with _ => _ end =>
    destruct r as [[a|e] w']; apply H
  end; try apply onlyRequestsLogged_refl.
  all: intros k x s w1 _ Hw1; rewrite bind_run;
    pose proof (callDashScopeEmbedding_frame env
      (slice documents x (x + DashScopeEmbeddings.batchSize)) w1) as Hc;
    unfold worldAfter in Hc;
    destruct (DashScopeEmbeddings.callDashScopeEmbedding env _ w1) as [[a'|e'] w2];
    cbn in *; eapply onlyRequestsLogged_trans; eauto.
Qed.



Lemma subBatches_bounded (texts : list jsstring) :
  Forall (λ b, length b ≤ DashScopeEmbeddings.batchSize) (subBatches texts).
Proof.
  unfold subBatches. apply Forall_fmap, Forall_forall. intros i _. apply slice_length_le.
Qed.

Lemma subBatches_count (texts : list jsstring) :
  length (subBatches texts) = (length texts + 9) / 10.
Proof.
  unfold subBatches. rewrite length_fmap, loopStarts_length.
  unfold DashScopeEmbeddings.batchSize. f_equal. lia.
Qed.

(** What [embedDocuments] does when the endpoint answers every request of
    at most ten inputs with one vector per input, in the order sent. *)
Lemma embedDocuments_run (env : Env) (embed1 : jsstring → Vector)
    (documents : list jsstring) (w : World) :
  DASHSCOPE_API_KEY env ≠ [] →
  (∀ k (input : list jsstring),
     length input ≤ 10 → dashscope env k input = Ok (embed1 <$> input)) →
  DashScopeEmbeddings.embedDocuments env documents w =
  (Ok ((λ text, embed1 (DashScopeEmbeddings.processText text)) <$> documents),
   mkWorld (globals w)
           (embedRequests w ++
            (fmap (M:=list) DashScopeEmbeddings.processText <$> subBatches documents))
           (llmPrompts w) (clockReads w) (savedFiles w)).
Proof.
  intros Hkey Hapi. unfold DashScopeEmbeddings.embedDocuments.
  set (f := λ text, embed1 (DashScopeEmbeddings.processText text)).
  set (starts := loopStarts (length documents) DashScopeEmbeddings.batchSize).
  set (I := λ (k : nat) (results : list Vector) (w' : World),
         results = f <$> take (k * DashScopeEmbeddings.batchSize) documents ∧
         w' = mkWorld (globals w)
                (embedRequests w ++
                 (fmap (M:=list) DashScopeEmbeddings.processText
                    <$> take k (subBatches documents)))
                (llmPrompts w) (clockReads w) (savedFiles w)).
  assert (Hbase : I 0 [] w).
  { split; [reflexivity|]. cbn. rewrite app_nil_r. by destruct w. }
  match goal with |- forLoop starts ?b ?s w = _ =>
    pose proof (forLoop_rule I (λ _ _, False) starts b s w Hbase) as H
  end.
  lapply H; clear H.
  - intros H. destruct (forLoop starts _ [] w) as [[results|e] w']; [|contradiction].
    destruct H as [-> ->]. f_equal.
    + f_equal. f_equal. apply loopStarts_cover. unfold DashScopeEmbeddings.batchSize. lia.
    + f_equal. f_equal. f_equal. apply take_ge.
      unfold subBatches. rewrite length_fmap. reflexivity.
  - intros k x results w1 Hk [-> ->].
    pose proof (loopStarts_lookup _ _ _ _ Hk) as [-> Hlt].
    rewrite bind_run, callDashScopeEmbedding_run by assumption.
    rewrite Hapi by (rewrite length_fmap; apply slice_length_le).
    cbn. split.
    + rewrite <- list_fmap_compose, <- fmap_app. f_equal. apply take_slice_next.
    + f_equal. rewrite <- app_assoc. f_equal.
      unfold subBatches. fold starts. rewrite <- !fmap_take.
      rewrite (take_S_r _ _ _ Hk), !fmap_app. reflexivity.
Qed.

(* ===================================================================== *)
(** ** Ingestion: what [addDocumentsToStore] commits *)
(* ===================================================================== *)

Lemma committed_nil (w : World) (docId : jsstring) :
  is_Some (vectorStoreInstance (globals w)) → committed w docId [] w.
Proof. intros H. unfold committed. rewrite !app_nil_r. repeat split; done. Qed.

Lemma committed_trans (w0 w1 w2 : World) (docId : jsstring) (ds1 ds2 : list Document) :
  committed w0 docId ds1 w1 → committed w1 docId ds2 w2 → committed w0 docId (ds1 ++ ds2) w2.
Proof.
  unfold committed. intros (_&E1&S1&M1&R1&L1&C1) (I2&E2&S2&M2&R2&L2&C2).
  rewrite E2, E1, S2, S1, M2, M1, R2, R1, L2, L1, C2, C1, fmap_app, !app_assoc.
  repeat split; done.
Qed.

Lemma committed_frame (w0 w w' : World) (docId : jsstring) (ds : list Document) :
  committed w0 docId ds w → onlyRequestsLogged w w' → committed w0 docId ds w'.
Proof.
  unfold committed, onlyRequestsLogged, entryDocsOf, entriesOf, storedOf, metasOf.
  intros (I&E&S&M&R&L&C) (G&L'&C'). rewrite G, L', C'. repeat split; done.
Qed.

Lemma getVectorStore_run (w : World) :
  ∃ vs w', getVectorStore w = (Ok vs, w') ∧
    is_Some (vectorStoreInstance (globals w')) ∧
    entryDocsOf w' = entryDocsOf w ∧ storedOf w' = storedOf w ∧ metasOf w' = metasOf w ∧
    ragConfig (globals w') = ragConfig (globals w) ∧
    embedRequests w' = embedRequests w ∧ llmPrompts w' = llmPrompts w ∧
    clockReads w' = clockReads w.
Proof.
  unfold getVectorStore. rewrite bind_run. cbn.
  destruct (vectorStoreInstance (globals w)) as [vs|] eqn:Hvs.
  - exists vs, w. cbn. rewrite Hvs. repeat split; eauto.
  - eexists _, _. split; [reflexivity|].
    unfold entryDocsOf, entriesOf, storedOf, metasOf. cbn. rewrite Hvs.
    destruct (storedDocuments (globals w)), (documentMetas (globals w)); repeat split; eauto.
Qed.

(** One chunk: [addVectors] on the instance, then the push. *)
Lemma commit_one (w : World) (v : option Vector) (d : Document) (docId : jsstring) :
  is_Some (vectorStoreInstance (globals w)) →
  ∃ w', (addVectorsToInstance [v] [d];; pushStoredDocument (mkStoredDocument docId d)) w
        = (Ok (), w') ∧
        committed w docId [d] w' ∧ embedRequests w' = embedRequests w.
Proof.
  intros [vs Hvs]. eexists. split; [reflexivity|].
  unfold committed, entryDocsOf, entriesOf, storedOf, metasOf. cbn. rewrite Hvs. cbn.
  rewrite fmap_app. repeat split; eauto. by destruct d.
Qed.

Section Ingestion.

Variable env : Env.
Variables docId filename : jsstring.
Variable detectedFileType : jsvalue.

Let stamp : Document → Document := docWithMeta docId filename detectedFileType.

(** The inner loop over one batch never throws and commits the batch. *)
Lemma commit_batch (batch : list Document) (vectors : list Vector) (w : World) :
  is_Some (vectorStoreInstance (globals w)) →
  ∃ w',
    forLoop (seq 0 (length batch))
      (λ (_ : ()) j,
         match batch !! j with
         | None => throw typeError
         | Some batch_j =>
           let docWithMeta := docWithMeta docId filename detectedFileType batch_j in
           addVectorsToInstance [vectors !! j] [docWithMeta];;
           pushStoredDocument (mkStoredDocument docId docWithMeta)
         end) () w = (Ok (), w') ∧
    committed w docId (stamp <$> batch) w' ∧ embedRequests w' = embedRequests w.
Proof.
  intros Hvs.
  set (I := λ (k : nat) (_ : ()) (w' : World),
         committed w docId (stamp <$> take k batch) w' ∧ embedRequests w' = embedRequests w).
  assert (Hbase : I 0 () w) by (split; [by apply committed_nil|done]).
  match goal with |- ∃ w', forLoop ?l ?b ?s w = _ ∧ _ =>
    pose proof (forLoop_rule I (λ _ _, False) l b s w Hbase) as H
  end.
  lapply H; clear H.
  - intros H. destruct (forLoop _ _ () w) as [[[]|e] w']; [|contradiction].
    exists w'. split; [reflexivity|]. destruct H as [H ?].
    rewrite length_seq, firstn_all in H. by split.
  - intros k x [] w1 Hk [Hc Hr]. apply lookup_seq in Hk as [-> Hlt]. cbn in Hlt |- *.
    destruct (lookup_lt_is_Some_2 batch k Hlt) as [d Hd]. rewrite Hd.
    destruct (commit_one w1 (vectors !! k) (stamp d) docId) as (w2 & Hrun & Hc2 & Hr2);
      [apply Hc|].
    unfold stamp in Hrun. cbn zeta. rewrite Hrun.
    split; [|congruence].
    rewrite (take_S_r _ _ _ Hd), fmap_app. eapply committed_trans; eauto.
Qed.

(** The outer loop: either every batch is committed, or the embedding of
    some batch throws and exactly the batches before it stay committed. *)
Lemma commit_batches (docs : list Document) (w : World) :
  is_Some (vectorStoreInstance (globals w)) →
  match
    forLoop (loopStarts (length docs) batchSize)
      (λ (_ : ()) i,
         let batch := slice docs i (i + batchSize) in
         tryCatch
           (let texts := pageContent <$> batch in
            vectors ← DashScopeEmbeddings.embedDocuments env texts;
            forLoop (seq 0 (length batch))
              (λ (_ : ()) j,
                 match batch !! j with
                 | None => throw typeError
                 | Some batch_j =>
                   let docWithMeta := docWithMeta docId filename detectedFileType batch_j in
                   addVectorsToInstance [vectors !! j] [docWithMeta];;
                   pushStoredDocument (mkStoredDocument docId docWithMeta)
                 end)
              ())
           (λ error, throw error))
      () w
  with
  | (Ok _, w') => committed w docId (stamp <$> docs) w'
  | (Throw e, w') =>
    ∃ k w1, k * batchSize < length docs ∧
         committed w docId (stamp <$> take (k * batchSize) docs) w1 ∧
         DashScopeEmbeddings.embedDocuments env
           (pageContent <$> slice docs (k * batchSize) (k * batchSize + batchSize)) w1
         = (Throw e, w') ∧
         committed w docId (stamp <$> take (k * batchSize) docs) w'
  end.
Proof.
  intros Hvs.
  set (I := λ (k : nat) (_ : ()) (w' : World),
         committed w docId (stamp <$> take (k * batchSize) docs) w').
  set (E := λ (e : Error) (w' : World),
         ∃ k w1, k * batchSize < length docs ∧
              committed w docId (stamp <$> take (k * batchSize) docs) w1 ∧
              DashScopeEmbeddings.embedDocuments env
                (pageContent <$> slice docs (k * batchSize) (k * batchSize + batchSize)) w1
              = (Throw e, w') ∧
              committed w docId (stamp <$> take (k * batchSize) docs) w').
  assert (Hbase : I 0 () w) by (by apply committed_nil).
  match goal with |- match forLoop ?l ?b ?s w with _ => _ end =>
    pose proof (forLoop_rule I E l b s w Hbase) as H
  end.
  lapply H; clear H.
  - intros H. destruct (forLoop _ _ () w) as [[[]|e] w']; [|exact H].
    unfold I in H. rewrite loopStarts_cover in H; [exact H|unfold batchSize; lia].
  - intros k x [] w1 Hk Hc. apply loopStarts_lookup in Hk as [-> Hlt].
    cbn zeta. rewrite tryCatch_rethrow, bind_run.
    pose proof (embedDocuments_frame env
      (pageContent <$> slice docs (k * batchSize) (k * batchSize + batchSize)) w1) as Hf.
    unfold worldAfter in Hf.
    destruct (DashScopeEmbeddings.embedDocuments env _ w1) as [[vectors|e] w2] eqn:Hemb;
      cbn in Hf.
    + pose proof (committed_frame _ _ _ _ _ Hc Hf) as Hc2.
      destruct (commit_batch (slice docs (k * batchSize) (k * batchSize + batchSize))
                  vectors w2) as (w3 & Hrun & Hc3 & _); [apply Hc2|].
      cbn zeta in Hrun. rewrite Hrun.
      unfold I. rewrite <- take_slice_next, fmap_app. eapply committed_trans; eauto.
    + exists k, w1. split; [exact Hlt|]. split; [exact Hc|]. split; [exact Hemb|].
      eapply committed_frame; eauto.
Qed.

End Ingestion.

(** The complete behaviour of [addDocumentsToStore]. On success the chunks
    and the registry record are committed; when it throws, the registry is
    as before, the chunks of the batches that precede the failing one are
    committed, and the error is the one of the embedding of that batch. *)
Lemma addDocumentsToStore_spec (env : Env) (docs : list Document) (filename : jsstring)
    (fileType : option jsvalue) (w : World) :
  let docId := makeDocId (Date_now env (clockReads w)) in
  let ft := detectedFileTypeOf env filename fileType in
  let stamp := docWithMeta docId filename ft in
  match addDocumentsToStore env docs filename fileType w with
  | (Ok m, w') =>
    m = mkDocumentMeta docId filename (toISOString env (Date_now env (S (clockReads w))))
                       (length docs) ft ∧
    metasOf w' = metasOf w ++ [m] ∧
    storedOf w' = storedOf w ++ (mkStoredDocument docId <$> (stamp <$> docs)) ∧
    entryDocsOf w' = entryDocsOf w ++ (stamp <$> docs) ∧
    is_Some (vectorStoreInstance (globals w')) ∧
    ragConfig (globals w') = ragConfig (globals w) ∧
    llmPrompts w' = llmPrompts w ∧
    clockReads w' = S (S (clockReads w))
  | (Throw e, w') =>
    ∃ k w1,
      k * batchSize < length docs ∧
      DashScopeEmbeddings.embedDocuments env
        (pageContent <$> slice docs (k * batchSize) (k * batchSize + batchSize)) w1
      = (Throw e, w') ∧
      metasOf w' = metasOf w ∧
      storedOf w' = storedOf w ++ (mkStoredDocument docId <$> (stamp <$> take (k * batchSize) docs)) ∧
      entryDocsOf w' = entryDocsOf w ++ (stamp <$> take (k * batchSize) docs) ∧
      is_Some (vectorStoreInstance (globals w')) ∧
      ragConfig (globals w') = ragConfig (globals w) ∧
      llmPrompts w' = llmPrompts w ∧
      clockReads w' = S (clockReads w)
  end.
Proof.
  cbn zeta. unfold addDocumentsToStore.
  destruct (getVectorStore_run w) as (vs & w0 & Hrun & Hvs & He & Hs & Hm & Hr & _ & Hl & Hc).
  rewrite (bind_ok _ _ _ _ _ Hrun). rewrite bind_run. cbn [dateNow]. rewrite Hc.
  cbn zeta.
  set (docId := makeDocId (Date_now env (clockReads w))).
  set (ft := detectedFileTypeOf env filename fileType).
  set (w1 := mkWorld _ _ _ _ _).
  assert (Hvs1 : is_Some (vectorStoreInstance (globals w1))) by exact Hvs.
  pose proof (commit_batches env docId filename ft docs w1 Hvs1) as Hloop.
  rewrite bind_run.
  destruct (forLoop _ _ () w1) as [[[]|e] w2].
  - destruct Hloop as (I2 & E2 & S2 & M2 & R2 & L2 & C2).
    destruct I2 as [vs2 Hvs2].
    unfold metasOf, storedOf, entryDocsOf, entriesOf in *. cbn in *.
    unfold mbind, M_bind, mret, M_ret, dateNow, pushDocumentMeta, readGlobals, writeGlobals.
    simpl. rewrite C2. repeat split; eauto; simpl; congruence.
  - destruct Hloop as (k & w3 & Hlt & _ & Hemb & I2 & E2 & S2 & M2 & R2 & L2 & C2).
    exists k, w3. unfold metasOf, storedOf, entryDocsOf, entriesOf in *. cbn in *.
    repeat split; eauto; congruence.
Qed.

(* ===================================================================== *)
(** ** Deletion: what [deleteDocument] leaves *)
(* ===================================================================== *)

Lemma storeDocs_addVectors (vs : MemoryVectorStore) (v : option Vector) (d : Document) :
  storeDocs (addVectors vs [v] [d]) = storeDocs vs ++ [d].
Proof. unfold storeDocs. cbn. rewrite fmap_app. cbn. by destruct d. Qed.

(** The inner loop of the rebuild: the batch is added to the local store,
    the world is not touched. *)
Lemma rebuild_batch (batch : list StoredDocument) (vectors : list Vector)
    (vs : MemoryVectorStore) (w : World) :
  ∃ vs',
    forLoop (seq 0 (length batch))
      (λ newVectorStore j,
         match batch !! j with
         | None => throw typeError
         | Some batch_j => mret (addVectors newVectorStore [vectors !! j] [doc batch_j])
         end) vs w = (Ok vs', w) ∧
    storeDocs vs' = storeDocs vs ++ (doc <$> batch).
Proof.
  set (I := λ (k : nat) (vs' : MemoryVectorStore) (w' : World),
         w' = w ∧ storeDocs vs' = storeDocs vs ++ (doc <$> take k batch)).
  assert (Hbase : I 0 vs w) by (split; [done|by rewrite app_nil_r]).
  match goal with |- ∃ vs', forLoop ?l ?b ?s w = _ ∧ _ =>
    pose proof (forLoop_rule I (λ _ _, False) l b s w Hbase) as H
  end.
  lapply H; clear H.
  - intros H. destruct (forLoop _ _ vs w) as [[vs'|e] w']; [|contradiction].
    destruct H as [-> H]. exists vs'. split; [reflexivity|].
    by rewrite length_seq, firstn_all in H.
  - intros k x vs1 w1 Hk [-> Hd]. apply lookup_seq in Hk as [-> Hlt].
    cbn [Nat.add] in Hlt |- *.
    destruct (lookup_lt_is_Some_2 batch k Hlt) as [d Hk]. rewrite Hk. cbn.
    split; [done|]. rewrite storeDocs_addVectors, Hd, (take_S_r _ _ _ Hk), fmap_app.
    by rewrite app_assoc.
Qed.

Lemma deleteDocument_unfold (env : Env) (docId' : jsstring) (w : World) :
  deleteDocument env docId' w =
  let remainingDocs := filter (λ d, docId d ≠ docId') (storedOf w) in
  let w1 := mkWorld (mkGlobals (vectorStoreInstance (globals w)) (Some remainingDocs)
                               (Some (filter (λ m, id m ≠ docId') (metasOf w)))
                               (ragConfig (globals w)))
                    (embedRequests w) (llmPrompts w) (clockReads w) (savedFiles w) in
  match (if 0 <? length remainingDocs then rebuildLoop env remainingDocs
         else mret newMemoryVectorStore) w1 with
  | (Ok newVectorStore, w2) =>
    (Ok (mkDeleteResult true (length remainingDocs)),
     mkWorld (mkGlobals (Some newVectorStore) (storedDocuments (globals w2))
                        (documentMetas (globals w2)) (ragConfig (globals w2)))
             (embedRequests w2) (llmPrompts w2) (clockReads w2) (savedFiles w2))
  | (Throw e, w2) => (Throw e, w2)
  end.
Proof. reflexivity. Qed.

Lemma rebuild_batches (env : Env) (remainingDocs : list StoredDocument) (w : World) :
  match rebuildLoop env remainingDocs w with
  | (Ok vs', w') => onlyRequestsLogged w w' ∧ storeDocs vs' = doc <$> remainingDocs
  | (Throw e, w') => onlyRequestsLogged w w'
  end.
Proof.
  unfold rebuildLoop.
  set (I := λ (k : nat) (vs' : MemoryVectorStore) (w' : World),
         onlyRequestsLogged w w' ∧ storeDocs vs' = doc <$> take (k * batchSize) remainingDocs).
  assert (Hbase : I 0 newMemoryVectorStore w) by (split; [apply onlyRequestsLogged_refl|done]).
  match goal with |- match forLoop ?l ?b ?s w with _ => _ end =>
    pose proof (forLoop_rule I (λ _ w', onlyRequestsLogged w w') l b s w Hbase) as H
  end.
  lapply H; clear H.
  - intros H. destruct (forLoop _ _ newMemoryVectorStore w) as [[vs'|e] w']; [|exact H].
    unfold I in H. rewrite loopStarts_cover in H; [exact H|unfold batchSize; lia].
  - intros k x vs1 w1 Hk [Hf Hd]. apply loopStarts_lookup in Hk as [-> Hlt].
    cbn zeta. rewrite bind_run.
    pose proof (embedDocuments_frame env
      ((λ d, pageContent (doc d)) <$>
         slice remainingDocs (k * batchSize) (k * batchSize + batchSize)) w1) as Hf1.
    unfold worldAfter in Hf1.
    destruct (DashScopeEmbeddings.embedDocuments env _ w1) as [[vectors|e] w2]; cbn in Hf1.
    + destruct (rebuild_batch (slice remainingDocs (k * batchSize) (k * batchSize + batchSize))
                  vectors vs1 w2) as (vs2 & -> & Hd2).
      split; [eapply onlyRequestsLogged_trans; eauto|].
      by rewrite Hd2, Hd, <- fmap_app, take_slice_next.
    + eapply onlyRequestsLogged_trans; eauto.
Qed.

(** The complete behaviour of [deleteDocument]. The registry and the stored
    documents are filtered whether or not the rebuild succeeds; the vector
    store instance is replaced only when it does. *)
Lemma deleteDocument_spec (env : Env) (docId' : jsstring) (w : World) :
  let w' := worldAfter (deleteDocument env docId') w in
  metasOf w' = filter (λ m, id m ≠ docId') (metasOf w) ∧
  storedOf w' = filter (λ d, docId d ≠ docId') (storedOf w) ∧
  ragConfig (globals w') = ragConfig (globals w) ∧
  llmPrompts w' = llmPrompts w ∧
  clockReads w' = clockReads w ∧
  match outcomeOf (deleteDocument env docId') w with
  | Ok r =>
    r = mkDeleteResult true (length (storedOf w')) ∧
    entryDocsOf w' = doc <$> storedOf w'
  | Throw e =>
    vectorStoreInstance (globals w') = vectorStoreInstance (globals w)
  end.
Proof.
  unfold worldAfter, outcomeOf. rewrite deleteDocument_unfold. cbn zeta.
  set (remaining := filter (λ d, docId d ≠ docId') (storedOf w)).
  set (w1 := mkWorld _ _ _ _ _).
  destruct (0 <? length remaining) eqn:Hlen.
  - pose proof (rebuild_batches env remaining w1) as Hloop.
    destruct (rebuildLoop env remaining w1) as [[vs'|e] w2].
    + destruct Hloop as [(G & L & C) Hd].
      unfold metasOf, storedOf, entryDocsOf, entriesOf in *.
      simpl. rewrite G, L, C. simpl. repeat split; done.
    + destruct Hloop as (G & L & C).
      unfold metasOf, storedOf in *. simpl. rewrite G, L, C. simpl. repeat split; done.
  - unfold metasOf, storedOf, entryDocsOf, entriesOf in *. simpl. repeat split; try done.
    apply Nat.ltb_ge in Hlen. destruct remaining; [done|cbn in Hlen; lia].
Qed.

(* ===================================================================== *)
(** ** Statistics and filters *)
(* ===================================================================== *)

Lemma statsOf_metas (w : World) :
  statsOf w = Some (length (metasOf w), countChunks (metasOf w)).
Proof.
  unfold statsOf, outcomeOf, getKnowledgeBaseStats, getRagConfig.
  rewrite !bind_run. cbn [readGlobals]. rewrite !bind_run. cbn [readGlobals].
  destruct (ragConfig (globals w)); reflexivity.
Qed.

Lemma countChunks_app (xs ys : list DocumentMeta) :
  countChunks (xs ++ ys) = countChunks xs + countChunks ys.
Proof.
  unfold countChunks. rewrite foldl_app. generalize (foldl (λ sum m, sum + chunkCount m) 0 xs).
  induction ys as [|y ys IH]; intros n; cbn; [lia|]. rewrite IH, (IH (chunkCount y)). lia.
Qed.

Lemma filter_all {A} (P : A → Prop) `{∀ x, Decision (P x)} (xs : list A) :
  (∀ x, x ∈ xs → P x) → filter P xs = xs.
Proof.
  induction xs as [|x xs IH]; intros Hall; [reflexivity|].
  rewrite filter_cons_True by (apply Hall; left).
  f_equal. apply IH. intros y Hy. apply Hall. by right.
Qed.

Lemma filter_none {A} (P : A → Prop) `{∀ x, Decision (P x)} (xs : list A) :
  (∀ x, x ∈ xs → ¬ P x) → filter P xs = [].
Proof.
  induction xs as [|x xs IH]; intros Hall; [reflexivity|].
  rewrite filter_cons_False by (apply Hall; left).
  apply IH. intros y Hy. apply Hall. by right.
Qed.

(* ===================================================================== *)
(** ** Clearing *)
(* ===================================================================== *)

Lemma runClear_idem (c : ClearCall) (w : World) :
  runClear c (worldAfter clearKnowledgeBase w) = worldAfter clearKnowledgeBase w.
Proof. destruct c; reflexivity. Qed.

(** C10. [clearKnowledgeBase] and [clearAllDocuments] are the same action:
    from every world both return normally, leave [storedDocuments] and
    [documentMetas] empty and [vectorStoreInstance] undefined, and end in
    the same world; any non-empty sequence of calls of either of them ends
    in the world that one call of [clearKnowledgeBase] produces. *)
Theorem clear_functions_equivalent (w : World) :
  clearKnowledgeBase w = clearAllDocuments w ∧
  outcomeOf clearKnowledgeBase w = Ok () ∧
  storedDocuments (globals (worldAfter clearKnowledgeBase w)) = Some [] ∧
  documentMetas (globals (worldAfter clearKnowledgeBase w)) = Some [] ∧
  vectorStoreInstance (globals (worldAfter clearKnowledgeBase w)) = None ∧
  ∀ (c : ClearCall) (cs : list ClearCall),
    foldl (λ w c, runClear c w) w (c :: cs) = worldAfter clearKnowledgeBase w.
Proof.
  repeat split.
  intros c cs. cbn [foldl].
  assert (runClear c w = worldAfter clearKnowledgeBase w) as -> by (destruct c; reflexivity).
  induction cs as [|c' cs IH]; [reflexivity|].
  cbn [foldl]. rewrite runClear_idem. exact IH.
Qed.

(* ===================================================================== *)
(** ** Document ids *)
(* ===================================================================== *)

(** The id of the record that an ingestion returns is a function of the
    first clock read of the call and of nothing else. *)
Lemma addDocumentsToStore_id (env : Env) (docs : list Document) (filename : jsstring)
    (fileType : option jsvalue) (w w' : World) (m : DocumentMeta) :
  addDocumentsToStore env docs filename fileType w = (Ok m, w') →
  id m = makeDocId (Date_now env (clockReads w)).
Proof.
  intros Hrun. pose proof (addDocumentsToStore_spec env docs filename fileType w) as H.
  cbn zeta in H. rewrite Hrun in H. destruct H as [-> _]. reflexivity.
Qed.

(** Two successful ingestions that read the same value from the clock when
    they start return records with the same id. *)
Lemma equal_clock_reads_equal_ids (env : Env) (docs1 docs2 : list Document)
    (filename1 filename2 : jsstring) (fileType1 fileType2 : option jsvalue)
    (w1 w1' w2 w2' : World) (m1 m2 : DocumentMeta) :
  addDocumentsToStore env docs1 filename1 fileType1 w1 = (Ok m1, w1') →
  addDocumentsToStore env docs2 filename2 fileType2 w2 = (Ok m2, w2') →
  Date_now env (clockReads w1) = Date_now env (clockReads w2) →
  id m1 = id m2.
Proof.
  intros H1 H2 Hclock.
  rewrite (addDocumentsToStore_id _ _ _ _ _ _ _ H1), (addDocumentsToStore_id _ _ _ _ _ _ _ H2).
  by rewrite Hclock.
Qed.

(** C9. Two ingestions whose calls read the same millisecond from the
    clock register two records with the same id: the ids of the registry
    are not pairwise distinct. *)
Theorem same_millisecond_same_id :
  id <$> metasOf twoIngestions = [js "doc_1700000000000"; js "doc_1700000000000"] ∧
  ¬ NoDup (id <$> metasOf twoIngestions).
Proof.
  assert (H : id <$> metasOf twoIngestions
              = [js "doc_1700000000000"; js "doc_1700000000000"]) by (vm_compute; reflexivity).
  split; [exact H|]. rewrite H. intros Hnd. apply NoDup_cons in Hnd as [Hin _].
  apply Hin. left.
Qed.

(* ===================================================================== *)
(** ** Deletion law *)
(* ===================================================================== *)

(** When the id of the ingested document is carried by no earlier record,
    deleting it removes its chunks, [d.chunkCount] from [totalChunks] and
    one from [documentCount]. *)
Lemma deletion_law_when_id_fresh (env : Env) (docs : list Document) (filename : jsstring)
    (fileType : option jsvalue) (w w1 : World) (d : DocumentMeta) :
  addDocumentsToStore env docs filename fileType w = (Ok d, w1) →
  id d ∉ (id <$> metasOf w) →
  let w2 := worldAfter (deleteDocument env (id d)) w1 in
  (∀ s, s ∈ storedOf w2 → docId s ≠ id d) ∧
  statsOf w1 = Some (length (metasOf w) + 1, countChunks (metasOf w) + chunkCount d) ∧
  statsOf w2 = Some (length (metasOf w), countChunks (metasOf w)).
Proof.
  intros Hadd Hfresh w2.
  pose proof (addDocumentsToStore_spec env docs filename fileType w) as Hs.
  cbn zeta in Hs. rewrite Hadd in Hs. destruct Hs as (_ & Hm & _).
  pose proof (deleteDocument_spec env (id d) w1) as Hd. cbn zeta in Hd. fold w2 in Hd.
  destruct Hd as (Hm2 & Hs2 & _).
  split; [|split].
  - intros s Hin. rewrite Hs2 in Hin. by apply list_elem_of_filter in Hin as [? _].
  - rewrite statsOf_metas, Hm, length_app, countChunks_app. cbn. repeat f_equal; lia.
  - rewrite statsOf_metas, Hm2, Hm, filter_app.
    rewrite (filter_all (λ m, id m ≠ id d) (metasOf w)).
    + rewrite filter_cons_False, filter_nil, app_nil_r by (intros H; by apply H). reflexivity.
    + intros m Hin Heq. apply Hfresh. rewrite <- Heq. by apply list_elem_of_fmap_2.
Qed.

(** C1. The deletion law fails when the ingested document received the id
    of an earlier record. A one-chunk document and then a two-chunk document
    [d] are ingested within one millisecond; [deleteDocument(d.id)] takes
    [documentCount] from 2 to 0 and [totalChunks] from 3 to 0, where the law
    asks for 1 and 1. *)
Theorem deletion_law_broken_by_id_collision :
  let env := sampleEnv 10 sameMillisecond in
  let w0 := worldAfter (addDocumentsToStore env [textDoc "alpha"] (js "a.txt") None) freshWorld in
  ∃ d w1,
    addDocumentsToStore env [textDoc "beta one"; textDoc "beta two"] (js "b.txt") None w0
      = (Ok d, w1) ∧
    chunkCount d = 2 ∧
    statsOf w1 = Some (2, 3) ∧
    statsOf (worldAfter (deleteDocument env (id d)) w1) = Some (0, 0).
Proof.
  cbn zeta. eexists _, _. split; [vm_compute; reflexivity|].
  repeat split; vm_compute; reflexivity.
Qed.

(* ===================================================================== *)
(** ** Registry and stored documents *)
(* ===================================================================== *)

(** C5. The registry is not consistent with the stored documents in every
    reachable state: after two ingestions within one millisecond both
    records carry the same id, and each counts fewer chunks (1 and 2) than
    the 3 stored chunks that carry that id. *)
Theorem registry_inconsistent_after_id_collision :
  twoIngestions = runOps (sampleEnv 10 sameMillisecond)
                    [OpAdd [textDoc "alpha"] (js "a.txt") None;
                     OpAdd [textDoc "beta one"; textDoc "beta two"] (js "b.txt") None]
                    freshWorld ∧
  registryConsistent freshWorld ∧
  chunkCount <$> metasOf twoIngestions = [1; 2] ∧
  (λ m, length (filter (λ d, docId d = id m) (storedOf twoIngestions)))
    <$> metasOf twoIngestions = [3; 3] ∧
  ¬ registryConsistent twoIngestions.
Proof.
  split; [reflexivity|]. split; [intros m Hin; inversion Hin|].
  assert (Hc : chunkCount <$> metasOf twoIngestions = [1; 2]) by (vm_compute; reflexivity).
  assert (Hn : (λ m, length (filter (λ d, docId d = id m) (storedOf twoIngestions)))
                 <$> metasOf twoIngestions = [3; 3]) by (vm_compute; reflexivity).
  split; [exact Hc|]. split; [exact Hn|].
  intros Hcons.
  destruct (metasOf twoIngestions) as [|m1 ms] eqn:Hm; [discriminate|].
  assert (Hin : m1 ∈ metasOf twoIngestions) by (rewrite Hm; left).
  specialize (Hcons m1 Hin).
  rewrite fmap_cons in Hc, Hn. injection Hc as Hc _. injection Hn as Hn _.
  rewrite Hcons, Hn in Hc. discriminate.
Qed.

Lemma filter_docId_same (i : jsstring) (ds : list Document) :
  filter (λ d, docId d = i) (mkStoredDocument i <$> ds) = mkStoredDocument i <$> ds.
Proof.
  apply filter_all. intros x Hx. apply list_elem_of_fmap in Hx as (d & -> & _). reflexivity.
Qed.

Lemma filter_docId_other (i j : jsstring) (ds : list Document) :
  j ≠ i → filter (λ d, docId d = i) (mkStoredDocument j <$> ds) = [].
Proof.
  intros Hne. apply filter_none. intros x Hx. apply list_elem_of_fmap in Hx as (d & -> & _).
  exact Hne.
Qed.

Lemma registryConsistent_extend (w w' : World) (i : jsstring) (ds : list Document) :
  registryConsistent w →
  i ∉ (id <$> metasOf w) →
  storedOf w' = storedOf w ++ (mkStoredDocument i <$> ds) →
  ∀ m, m ∈ metasOf w →
    chunkCount m = length (filter (λ d, docId d = id m) (storedOf w')).
Proof.
  intros Hcons Hfresh Hs m Hin. rewrite Hs, filter_app, filter_docId_other, app_nil_r.
  - by apply Hcons.
  - intros ->. apply Hfresh. by apply list_elem_of_fmap_2.
Qed.

Lemma registryConsistent_add (env : Env) (docs : list Document) (filename : jsstring)
    (fileType : option jsvalue) (w : World) :
  registryConsistent w →
  idUnused w (makeDocId (Date_now env (clockReads w))) →
  registryConsistent (worldAfter (addDocumentsToStore env docs filename fileType) w).
Proof.
  intros Hcons [Hm Hs]. unfold worldAfter.
  pose proof (addDocumentsToStore_spec env docs filename fileType w) as H. cbn zeta in H.
  destruct (addDocumentsToStore env docs filename fileType w) as [[m|e] w']; cbn [snd].
  - destruct H as (Hmeta & Hmetas & Hstored & _).
    intros m0 Hin. rewrite Hmetas in Hin. apply elem_of_app in Hin as [Hin|Hin].
    + eapply registryConsistent_extend; eauto.
    + apply list_elem_of_singleton in Hin as ->.
      rewrite Hstored, filter_app, Hmeta. cbn [id chunkCount].
      rewrite filter_docId_same, filter_none; [cbn; by rewrite !length_fmap|].
      intros s Hin Heq. apply Hs. rewrite <- Heq. by apply list_elem_of_fmap_2.
  - destruct H as (k & w1 & _ & _ & Hmetas & Hstored & _).
    intros m0 Hin. rewrite Hmetas in Hin. eapply registryConsistent_extend; eauto.
Qed.

Lemma registryConsistent_delete (env : Env) (docId' : jsstring) (w : World) :
  registryConsistent w →
  registryConsistent (worldAfter (deleteDocument env docId') w).
Proof.
  intros Hcons. pose proof (deleteDocument_spec env docId' w) as H. cbn zeta in H.
  destruct H as (Hm & Hs & _). intros m Hin. rewrite Hm in Hin.
  apply list_elem_of_filter in Hin as [Hne Hin]. rewrite Hs, (Hcons m Hin).
  rewrite list_filter_filter. f_equal. apply list_filter_iff. intros d. split.
  - intros Heq. split; [exact Heq|]. congruence.
  - by intros [? _].
Qed.

Lemma registryConsistent_clear (w : World) :
  registryConsistent (worldAfter clearKnowledgeBase w).
Proof. intros m Hin. inversion Hin. Qed.

Lemma registryConsistent_when_ids_fresh (env : Env) (ops : list Operation) (w : World) :
  registryConsistent w → idsFresh env ops w → registryConsistent (runOps env ops w).
Proof.
  revert w. induction ops as [|op ops IH]; intros w Hcons Hfresh; [exact Hcons|].
  destruct Hfresh as [Hop Hrest]. cbn [runOps foldl]. apply IH; [|exact Hrest].
  destruct op as [docs filename fileType|docId'|]; cbn [runOp].
  - by apply registryConsistent_add.
  - by apply registryConsistent_delete.
  - apply registryConsistent_clear.
Qed.

(* ===================================================================== *)
(** ** Ingestion and embedding failures *)
(* ===================================================================== *)

(** An ingestion whose second sub-batch cannot be embedded fails, and the
    ten chunks of the first sub-batch stay in [storedDocuments] and in the
    vector store, with no record in the registry. *)
Lemma failed_ingestion_keeps_first_batch :
  ∃ e w',
    addDocumentsToStore secondRequestFails elevenChunks (js "big.txt") None freshWorld
      = (Throw e, w') ∧
    storedOf freshWorld = [] ∧ length (storedOf w') = 10 ∧
    entriesOf freshWorld = [] ∧ length (entriesOf w') = 10 ∧
    metasOf w' = [].
Proof.
  eexists _, _. split; [vm_compute; reflexivity|].
  repeat split; vm_compute; reflexivity.
Qed.

(** C2, as the code has it. When [addDocumentsToStore] fails, it fails with
    the error of the embedding of one sub-batch [k]; the registry and the
    configuration are as before the call, and [storedDocuments] and the
    vector store hold, after what they held before, exactly the chunks of
    the sub-batches [0 .. k-1] (so nothing is added when the first sub-batch
    is the one that fails). *)
Theorem failed_ingestion_commits_earlier_batches (env : Env) (docs : list Document)
    (filename : jsstring) (fileType : option jsvalue) (w w' : World) (e : Error) :
  addDocumentsToStore env docs filename fileType w = (Throw e, w') →
  let stamp := docWithMeta (makeDocId (Date_now env (clockReads w))) filename
                           (detectedFileTypeOf env filename fileType) in
  ∃ k w1,
    k * batchSize < length docs ∧
    DashScopeEmbeddings.embedDocuments env
      (pageContent <$> slice docs (k * batchSize) (k * batchSize + batchSize)) w1
    = (Throw e, w') ∧
    metasOf w' = metasOf w ∧
    ragConfig (globals w') = ragConfig (globals w) ∧
    storedOf w' = storedOf w ++
      (mkStoredDocument (makeDocId (Date_now env (clockReads w)))
         <$> (stamp <$> take (k * batchSize) docs)) ∧
    entryDocsOf w' = entryDocsOf w ++ (stamp <$> take (k * batchSize) docs).
Proof.
  intros Hrun stamp.
  pose proof (addDocumentsToStore_spec env docs filename fileType w) as H.
  cbn zeta in H. rewrite Hrun in H.
  destruct H as (k & w1 & Hlt & Hemb & Hm & Hs & He & _ & Hr & _).
  exists k, w1. repeat split; assumption.
Qed.

Lemma failed_ingestion_commits_earlier_batches_witness :
  let w' := worldAfter (addDocumentsToStore secondRequestFails elevenChunks (js "big.txt") None)
                       freshWorld in
  let stamp := docWithMeta (makeDocId (Date_now secondRequestFails (clockReads freshWorld)))
                           (js "big.txt") (detectedFileTypeOf secondRequestFails (js "big.txt") None) in
  ∃ k w1,
    k * batchSize < length elevenChunks ∧
    DashScopeEmbeddings.embedDocuments secondRequestFails
      (pageContent <$> slice elevenChunks (k * batchSize) (k * batchSize + batchSize)) w1
    = (Throw (JsError (js "DashScope Embedding API error: quota")), w') ∧
    metasOf w' = metasOf freshWorld ∧
    ragConfig (globals w') = ragConfig (globals freshWorld) ∧
    storedOf w' = storedOf freshWorld ++
      (mkStoredDocument (makeDocId (Date_now secondRequestFails (clockReads freshWorld)))
         <$> (stamp <$> take (k * batchSize) elevenChunks)) ∧
    entryDocsOf w' = entryDocsOf freshWorld ++ (stamp <$> take (k * batchSize) elevenChunks).
Proof.
  intros w'.
  apply (failed_ingestion_commits_earlier_batches secondRequestFails elevenChunks
           (js "big.txt") None freshWorld w'
           (JsError (js "DashScope Embedding API error: quota"))).
  vm_compute. reflexivity.
Defined.

(* ===================================================================== *)
(** ** Order of batch embeddings *)
(* ===================================================================== *)



(** Ten texts go out as one request of ten, eleven as a request of ten
    followed by a request of one. *)
Example subBatches_of_ten :
  length <$> subBatches (take 10 elevenTexts) = [10].
Proof. vm_compute. reflexivity. Qed.

Example subBatches_of_eleven :
  length <$> subBatches elevenTexts = [10; 1].
Proof. vm_compute. reflexivity. Qed.

(* ===================================================================== *)
(** ** Rejection of empty content *)
(* ===================================================================== *)

(** The upload handler up to the extraction of the text: the file is
    accepted and saved, and the text is extracted. *)
Lemma upload_extracted (env : Env) (file : File) (w : World)
    (content fileType : jsstring) (rest : Response + jsstring * jsstring → M Response)
    (handler : Error → M Response) :
  saveUpload env (length (savedFiles w)) (name file) (bytes file) = Ok () →
  Upload.extract env (getFileExtension env (name file)) (name file) (bytes file)
  = Ok (inr (content, fileType)) →
  (Upload.saveFile env file;;
   extracted ← liftOutcome (Upload.extract env (getFileExtension env (name file)) (name file)
                              (bytes file));
   rest extracted) w
  = rest (inr (content, fileType)) (withSaved file w).
Proof.
  intros Hsave Hextract. rewrite bind_run. unfold Upload.saveFile at 1. rewrite Hsave.
  fold (withSaved file w). unfold liftOutcome. rewrite Hextract. reflexivity.
Qed.

Lemma upload_short_run (env : Env) (file : File) (w : World) (content fileType : jsstring) :
  DASHSCOPE_API_KEY env ≠ [] →
  getFileExtension env (name file) ∈ SUPPORTED_EXTENSIONS →
  saveUpload env (length (savedFiles w)) (name file) (bytes file) = Ok () →
  Upload.extract env (getFileExtension env (name file)) (name file) (bytes file)
  = Ok (inr (content, fileType)) →
  length (normalizeContent content) < 10 →
  Upload.POST env (Ok (Some file)) w = (Ok (emptyContentError fileType), withSaved file w).
Proof.
  intros Hkey Hext Hsave Hextract Hshort. unfold Upload.POST, tryCatch.
  rewrite bind_run. unfold liftOutcome at 1. cbn beta iota.
  destruct (DASHSCOPE_API_KEY env) as [|c key]; [congruence|].
  cbn zeta.
  destruct (decide (getFileExtension env (name file) ∈ SUPPORTED_EXTENSIONS)) as [_|Hn];
    [|contradiction].
  rewrite (upload_extracted env file w content fileType _ (λ e, mret (mkResponse (ErrorBody []) 0))
             Hsave Hextract).
  apply Nat.ltb_lt in Hshort. rewrite Hshort. reflexivity.
Qed.

(** C6. When the text extracted from an uploaded file is shorter than ten
    code units after normalization, the upload handler answers with the
    empty-content error (status 400): no request is sent to the embedding
    endpoint, and the globals — stored documents, vector store, registry,
    configuration — are unchanged. The world is as it was but for the file,
    which the handler had already written to the upload directory and
    leaves there. The text was extracted: the file was accepted (a
    credential is configured, the extension is supported), saving it
    succeeded and reading or parsing it gave [content]. *)
Theorem upload_rejects_short_content (env : Env) (file : File) (w : World)
    (content fileType : jsstring) :
  DASHSCOPE_API_KEY env ≠ [] →
  getFileExtension env (name file) ∈ SUPPORTED_EXTENSIONS →
  saveUpload env (length (savedFiles w)) (name file) (bytes file) = Ok () →
  Upload.extract env (getFileExtension env (name file)) (name file) (bytes file)
  = Ok (inr (content, fileType)) →
  length (normalizeContent content) < 10 →
  outcomeOf (Upload.POST env (Ok (Some file))) w = Ok (emptyContentError fileType) ∧
  embedRequests (worldAfter (Upload.POST env (Ok (Some file))) w) = embedRequests w ∧
  globals (worldAfter (Upload.POST env (Ok (Some file))) w) = globals w ∧
  worldAfter (Upload.POST env (Ok (Some file))) w = withSaved file w.
Proof.
  intros Hkey Hext Hsave Hextract Hshort.
  unfold outcomeOf, worldAfter.
  rewrite (upload_short_run env file w content fileType Hkey Hext Hsave Hextract Hshort).
  repeat split.
Qed.

Lemma upload_rejects_short_content_witness :
  let env := uploadDirEnv hiFile in
  outcomeOf (Upload.POST env (Ok (Some hiFile))) freshWorld
    = Ok (emptyContentError (js "TXT")) ∧
  embedRequests (worldAfter (Upload.POST env (Ok (Some hiFile))) freshWorld)
    = embedRequests freshWorld ∧
  globals (worldAfter (Upload.POST env (Ok (Some hiFile))) freshWorld) = globals freshWorld ∧
  worldAfter (Upload.POST env (Ok (Some hiFile))) freshWorld = withSaved hiFile freshWorld.
Proof.
  apply (upload_rejects_short_content (uploadDirEnv hiFile) hiFile freshWorld
           (js "hi") (js "TXT")).
  - discriminate.
  - apply (bool_decide_unpack _). vm_compute. exact I.
  - reflexivity.
  - vm_compute. reflexivity.
  - vm_compute. lia.
Defined.

(* ===================================================================== *)
(** ** Fallback to the whole document *)
(* ===================================================================== *)






(* ===================================================================== *)
(** ** [queryRag] on examples *)
(* ===================================================================== *)

Example parseRawAnswer_ex :
  parseRawAnswer
    (js "Paris." ++ newline ++ separator ++ newline
       ++ js "1. What about Rome?" ++ newline ++ js "- And Berlin?" ++ newline
       ++ js "• Madrid?" ++ newline ++ js "4. Lisbon?")
  = (js "Paris.", [js "What about Rome?"; js "And Berlin?"; js "Madrid?"]).
Proof. vm_compute. reflexivity. Qed.

Example parseRawAnswer_no_separator :
  parseRawAnswer (js "Paris.  ") = (js "Paris.  ", []).
Proof. vm_compute. reflexivity. Qed.

Example cleanQuestion_nested_marker : cleanQuestion (js "1. 2. why?") = js "2. why?".
Proof. vm_compute. reflexivity. Qed.

(** A cleaned line of 99 code units is kept, one of 100 is not. *)
Example keepQuestion_bound :
  filter keepQuestion [replicate 99 97%N; replicate 100 97%N] = [replicate 99 97%N].
Proof. vm_compute. reflexivity. Qed.

(* ===================================================================== *)
(** ** Query against a store that returns nothing *)
(* ===================================================================== *)

Lemma getRagConfig_run (w : World) :
  ∃ c w0, getRagConfig w = (Ok c, w0) ∧
    metasOf w0 = metasOf w ∧ storedOf w0 = storedOf w ∧
    embedRequests w0 = embedRequests w ∧ llmPrompts w0 = llmPrompts w.
Proof.
  unfold getRagConfig. rewrite bind_run. cbn [readGlobals].
  destruct (ragConfig (globals w)); eexists _, _; repeat split.
Qed.

(** Retrieval sends nothing to the chat model. *)
Lemma retrieveFor_keeps_prompts (env : Env) (question : jsstring) (customTopK : option Z)
    (w : World) :
  llmPrompts (worldAfter (retrieveFor env question customTopK) w) = llmPrompts w.
Proof.
  unfold worldAfter, retrieveFor.
  destruct (getRagConfig_run w) as (c & w0 & Hc & _ & _ & _ & L0).
  rewrite (bind_ok _ _ _ _ _ Hc). cbn zeta.
  destruct (getVectorStore_run w0) as (vs & w1 & Hv & _ & _ & _ & _ & _ & _ & L1 & _).
  rewrite (bind_ok _ _ _ _ _ Hv). rewrite bind_run.
  unfold retrieverInvoke, DashScopeEmbeddings.embedQuery. rewrite !bind_run.
  pose proof (callDashScopeEmbedding_frame env [question] w1) as (_ & L2 & _).
  unfold worldAfter in L2.
  destruct (DashScopeEmbeddings.callDashScopeEmbedding env [question] w1) as [[vectors|e] w2];
    cbn in L2 |- *; [|congruence].
  unfold liftOutcome.
  destruct (similaritySearch env vs (vectors !! 0) (default (topK c) customTopK));
    cbn; congruence.
Qed.

(** C4. When retrieval returns no document, [queryRag] returns the fixed
    answer with no chunks and no suggested questions, in the world that
    retrieval left; the chat model has received no prompt. *)
Theorem queryRag_without_documents (env : Env) (question : jsstring) (customTopK : option Z)
    (config : RagConfig) (w w1 : World) :
  retrieveFor env question customTopK w = (Ok (config, []), w1) →
  queryRag env question customTopK w = (Ok (mkRagResult NO_INFORMATION [] []), w1) ∧
  llmPrompts (worldAfter (queryRag env question customTopK) w) = llmPrompts w.
Proof.
  intros Hretrieve.
  assert (Hrun : queryRag env question customTopK w
                 = (Ok (mkRagResult NO_INFORMATION [] []), w1)).
  { unfold queryRag. rewrite (bind_ok _ _ _ _ _ Hretrieve). reflexivity. }
  split; [exact Hrun|].
  unfold worldAfter. rewrite Hrun. cbn [snd].
  pose proof (retrieveFor_keeps_prompts env question customTopK w) as H.
  unfold worldAfter in H. rewrite Hretrieve in H. exact H.
Qed.

Lemma queryRag_without_documents_witness :
  let env := sampleEnvWith alwaysAnswers sameMillisecond in
  let w1 := worldAfter (retrieveFor env (js "what is new?") None) freshWorld in
  queryRag env (js "what is new?") None freshWorld
    = (Ok (mkRagResult NO_INFORMATION [] []), w1) ∧
  llmPrompts (worldAfter (queryRag env (js "what is new?") None) freshWorld)
    = llmPrompts freshWorld.
Proof.
  apply (queryRag_without_documents (sampleEnvWith alwaysAnswers sameMillisecond)
           (js "what is new?") None DEFAULT_RAG_CONFIG freshWorld).
  vm_compute. reflexivity.
Defined.

(* ===================================================================== *)
(** ** Parsing of the raw answer *)
(* ===================================================================== *)

Lemma startsWith_true (p s : jsstring) :
  startsWith p s = true → s = p ++ drop (length p) s.
Proof.
  revert s. induction p as [|a p IH]; intros s H; [reflexivity|].
  destruct s as [|b s]; [discriminate|]. cbn in H.
  apply andb_true_iff in H as [Hab Hp]. apply N.eqb_eq in Hab as ->.
  cbn. f_equal. by apply IH.
Qed.

Lemma breakOn_unfold (sep s : jsstring) :
  breakOn sep s =
  if startsWith sep s then Some ([], drop (length sep) s) else
  match s with
  | [] => None
  | c :: t =>
    match breakOn sep t with
    | Some (b, a) => Some (c :: b, a)
    | None => None
    end
  end.
Proof. destruct s; reflexivity. Qed.

(** [breakOn] cuts at the first occurrence. *)
Lemma breakOn_first (sep s before after : jsstring) :
  breakOn sep s = Some (before, after) →
  s = before ++ sep ++ after ∧
  ∀ n, n < length before → startsWith sep (drop n s) = false.
Proof.
  revert before after. induction s as [|c t IH]; intros before after H;
    rewrite breakOn_unfold in H; destruct (startsWith sep _) eqn:Hs.
  - injection H as <- <-. split; [by apply startsWith_true|]. intros n Hn. cbn in Hn. lia.
  - discriminate.
  - injection H as <- <-. split; [by apply startsWith_true|]. intros n Hn. cbn in Hn. lia.
  - destruct (breakOn sep t) as [[b a]|]; [|discriminate].
    injection H as <- <-. destruct (IH b a eq_refl) as [-> Hfirst].
    split; [reflexivity|]. intros [|n] Hn; [exact Hs|].
    cbn [drop]. apply Hfirst. cbn in Hn. lia.
Qed.

Lemma includes_breakOn (sep s : jsstring) :
  includes sep s = true → is_Some (breakOn sep s).
Proof.
  induction s as [|c t IH]; intros H; rewrite breakOn_unfold.
  - cbn in H. rewrite orb_false_r in H. rewrite H. eauto.
  - cbn [includes] in H. destruct (startsWith sep (c :: t)); [eauto|].
    cbn in H. destruct (IH H) as [[b a] ->]. eauto.
Qed.

Lemma breakOn_shorter (sep s before after : jsstring) :
  sep ≠ [] → breakOn sep s = Some (before, after) → length after < length s.
Proof.
  intros Hsep Hbreak. destruct (breakOn_first _ _ _ _ Hbreak) as [-> _].
  rewrite !length_app. destruct sep; [congruence|]. cbn. lia.
Qed.

(** [split] never runs out of rounds: with a non-empty separator every
    number of rounds above the length of the string gives the same parts. *)
Lemma split_rounds_enough (sep s : jsstring) (r1 r2 : nat) :
  sep ≠ [] → length s < r1 → length s < r2 →
  split_rounds r1 sep s = split_rounds r2 sep s.
Proof.
  intros Hsep. revert s r2. induction r1 as [|r1 IH]; intros s r2 H1 H2; [lia|].
  destruct r2 as [|r2]; [lia|]. cbn [split_rounds].
  destruct (breakOn sep s) as [[b a]|] eqn:Hbreak; [|reflexivity].
  pose proof (breakOn_shorter _ _ _ _ Hsep Hbreak). f_equal. apply IH; lia.
Qed.

Lemma split_first (sep s before after : jsstring) :
  breakOn sep s = Some (before, after) → split sep s !! 0 = Some before.
Proof. intros H. unfold split. cbn [split_rounds]. rewrite H. reflexivity. Qed.

(** What the two replacements remove: a run of digits with its dot, or one
    dash or bullet, and the white space after it. *)
Lemma dropWhile_stop (p : N → bool) (xs rest : jsstring) :
  Forall (λ c, p c = true) xs →
  (∀ c, head rest = Some c → p c = false) →
  dropWhile p (xs ++ rest) = rest.
Proof.
  intros Hxs Hrest. induction Hxs as [|c xs Hc _ IH]; cbn.
  - destruct rest as [|c rest]; [reflexivity|]. cbn. by rewrite (Hrest c eq_refl).
  - rewrite Hc. exact IH.
Qed.

Lemma takeWhile_stop (p : N → bool) (xs rest : jsstring) :
  Forall (λ c, p c = true) xs →
  (∀ c, head rest = Some c → p c = false) →
  takeWhile p (xs ++ rest) = xs.
Proof.
  intros Hxs Hrest. induction Hxs as [|c xs Hc _ IH]; cbn.
  - destruct rest as [|c rest]; [reflexivity|]. cbn. by rewrite (Hrest c eq_refl).
  - rewrite Hc. by rewrite IH.
Qed.

Lemma stripNumericMarker_removes (digits blanks rest : jsstring) :
  digits ≠ [] →
  Forall (λ c, isDigit c = true) digits →
  Forall (λ c, isWhiteSpace c = true) blanks →
  (∀ c, head rest = Some c → isWhiteSpace c = false) →
  stripNumericMarker (digits ++ [46%N] ++ blanks ++ rest) = rest.
Proof.
  intros Hne Hd Hb Hrest. unfold stripNumericMarker.
  rewrite takeWhile_stop, dropWhile_stop; try assumption;
    try (intros c [= <-]; reflexivity).
  destruct digits; [congruence|]. cbn. by apply dropWhile_stop.
Qed.

Lemma stripBulletMarker_removes (marker : N) (blanks rest : jsstring) :
  marker = 45%N ∨ marker = 8226%N →
  Forall (λ c, isWhiteSpace c = true) blanks →
  (∀ c, head rest = Some c → isWhiteSpace c = false) →
  stripBulletMarker (marker :: blanks ++ rest) = rest.
Proof.
  intros Hm Hb Hrest. unfold stripBulletMarker.
  destruct Hm as [-> | ->]; cbn; by apply dropWhile_stop.
Qed.

Lemma startsWith_prefix (p rest : jsstring) : startsWith p (p ++ rest) = true.
Proof. induction p as [|a p IH]; [reflexivity|]. cbn. by rewrite N.eqb_refl, IH. Qed.

Lemma includes_occurrence (p s : jsstring) :
  includes p s = true → ∃ n rest, drop n s = p ++ rest.
Proof.
  induction s as [|c t IH]; cbn [includes]; intros H.
  - rewrite orb_false_r in H. exists 0, (drop (length p) []). by apply startsWith_true.
  - apply orb_true_iff in H as [H|H].
    + exists 0, (drop (length p) (c :: t)). by apply startsWith_true.
    + destruct (IH H) as (n & rest & Hn). by exists (S n), rest.
Qed.

Lemma dropWhile_suffix (p : N → bool) (s : jsstring) : ∃ pre, s = pre ++ dropWhile p s.
Proof.
  induction s as [|c s [pre IH]]; [by exists []|]. cbn.
  destruct (p c); [exists (c :: pre); cbn; by rewrite <- IH|by exists []].
Qed.

Lemma trim_infix (s : jsstring) : ∃ pre post, s = pre ++ trim s ++ post.
Proof.
  unfold trim, trimEnd, trimStart.
  destruct (dropWhile_suffix isWhiteSpace s) as [pre Hpre].
  destruct (dropWhile_suffix isWhiteSpace (rev (dropWhile isWhiteSpace s))) as [post Hpost].
  exists pre, (rev post). rewrite Hpre at 1. f_equal.
  rewrite <- rev_app_distr, <- Hpost. by rewrite rev_involutive.
Qed.

(** No part of the text before the first occurrence of a separator holds
    the separator. *)
Lemma no_occurrence_before_first (sep s before after pre mid post : jsstring) :
  sep ≠ [] → breakOn sep s = Some (before, after) →
  before = pre ++ mid ++ post → includes sep mid = false.
Proof.
  intros Hsep Hbreak Hbefore.
  destruct (breakOn_first _ _ _ _ Hbreak) as [Hs Hfirst].
  destruct (includes sep mid) eqn:Hinc; [exfalso|reflexivity].
  destruct (includes_occurrence _ _ Hinc) as (n & rest & Hn).
  assert (Hmid : ∃ t, mid = t ++ sep ++ rest)
    by (exists (take n mid); by rewrite <- Hn, take_drop).
  destruct Hmid as [t ->]. subst before.
  assert (Hlen : length (pre ++ t) < length (pre ++ (t ++ sep ++ rest) ++ post)).
  { rewrite !length_app. destruct sep; [congruence|]. cbn [length]. lia. }
  specialize (Hfirst _ Hlen). rewrite Hs in Hfirst.
  replace ((pre ++ (t ++ sep ++ rest) ++ post) ++ sep ++ after)
    with ((pre ++ t) ++ sep ++ (rest ++ post ++ sep ++ after)) in Hfirst
    by (by rewrite <- !app_assoc).
  rewrite drop_app_length, startsWith_prefix in Hfirst. discriminate.
Qed.

(** *** The string methods meet the specification *)

Lemma takeWhile_dropWhile (p : N → bool) (s : jsstring) :
  s = takeWhile p s ++ dropWhile p s.
Proof. induction s as [|c s IH]; [reflexivity|]. cbn. destruct (p c); cbn; congruence. Qed.

Lemma takeWhile_all (p : N → bool) (s : jsstring) :
  Forall (λ c, p c = true) (takeWhile p s).
Proof.
  induction s as [|c s IH]; cbn; [constructor|].
  destruct (p c) eqn:Hc; by constructor.
Qed.

Lemma dropWhile_head (p : N → bool) (s : jsstring) (c : N) :
  head (dropWhile p s) = Some c → p c = false.
Proof.
  induction s as [|d s IH]; cbn; [discriminate|].
  destruct (p d) eqn:Hd; [exact IH|]. cbn. by intros [= <-].
Qed.

Lemma dropWhile_not_startsBlank (s : jsstring) : ¬ startsBlank (dropWhile isWhiteSpace s).
Proof.
  intros (c & Hc & Hws). apply dropWhile_head in Hc. congruence.
Qed.

Lemma trim_Trimmed (s : jsstring) : Trimmed s (trim s).
Proof.
  unfold trim, trimEnd, trimStart.
  set (t0 := dropWhile isWhiteSpace s).
  set (u := dropWhile isWhiteSpace (rev t0)).
  assert (Ht0 : t0 = rev u ++ rev (takeWhile isWhiteSpace (rev t0))).
  { rewrite <- rev_app_distr. fold u.
    unfold u. rewrite <- takeWhile_dropWhile. by rewrite rev_involutive. }
  exists (takeWhile isWhiteSpace s), (rev (takeWhile isWhiteSpace (rev t0))).
  split; [rewrite <- Ht0; apply takeWhile_dropWhile|].
  split; [apply takeWhile_all|].
  split; [apply Forall_forall; intros c Hc; apply list_elem_of_In, in_rev, list_elem_of_In in Hc;
          by apply (proj1 (Forall_forall _ _) (takeWhile_all isWhiteSpace (rev t0)))|].
  split.
  - intros (c & Hc & Hws).
    apply (dropWhile_not_startsBlank s). fold t0. exists c. split; [|exact Hws].
    rewrite Ht0. destruct (rev u); [discriminate Hc|exact Hc].
  - intros (c & Hc & Hws).
    apply (dropWhile_not_startsBlank (rev t0)). fold u. exists c. split; [|exact Hws].
    destruct u as [|d u']; [discriminate Hc|].
    cbn [rev] in Hc. rewrite last_snoc in Hc. exact Hc.
Qed.

Lemma numeric_marker_removed_from (s digits blanks rest : jsstring) :
  s = digits ++ [46%N] ++ blanks ++ rest →
  digits ≠ [] →
  Forall (λ c, isDigit c = true) digits →
  Forall (λ c, isWhiteSpace c = true) blanks →
  ¬ startsBlank rest →
  WithoutNumericMarker s rest.
Proof. intros ->. apply numeric_marker_removed. Qed.

Lemma stripNumericMarker_spec (s : jsstring) : WithoutNumericMarker s (stripNumericMarker s).
Proof.
  unfold stripNumericMarker.
  pose proof (takeWhile_dropWhile isDigit s) as Hs.
  pose proof (takeWhile_all isDigit s) as Hdigits.
  assert (Hmarked : ∀ digits rest,
            digits ≠ [] → Forall (λ c, isDigit c = true) digits →
            s = digits ++ [46%N] ++ rest →
            takeWhile isDigit s = digits ∧ dropWhile isDigit s = 46%N :: rest).
  { intros digits rest _ Hd ->. split.
    - apply (takeWhile_stop isDigit digits ([46%N] ++ rest) Hd). by intros c [= <-].
    - apply (dropWhile_stop isDigit digits ([46%N] ++ rest) Hd). by intros c [= <-]. }
  destruct (takeWhile isDigit s) as [|d ds].
  { apply numeric_marker_absent. intros (digits & rest & Hne & Hd & Heq).
    destruct (Hmarked digits rest Hne Hd Heq) as [<- _]. by apply Hne. }
  destruct (dropWhile isDigit s) as [|c r].
  { apply numeric_marker_absent. intros (digits & rest & Hne & Hd & Heq).
    destruct (Hmarked digits rest Hne Hd Heq) as [_ Hdrop]. discriminate Hdrop. }
  destruct (decide (c = 46%N)) as [->|Hc].
  - apply (numeric_marker_removed_from s (d :: ds) (takeWhile isWhiteSpace r)).
    + rewrite <- takeWhile_dropWhile. exact Hs.
    + discriminate.
    + exact Hdigits.
    + apply takeWhile_all.
    + apply dropWhile_not_startsBlank.
  - assert (Hsame : match c :: r with 46%N :: r0 => dropWhile isWhiteSpace r0 | _ => s end = s).
    { destruct c as [|p]; [reflexivity|].
      do 6 (destruct p as [p|p|]; try reflexivity). all: try (by contradiction Hc). }
    rewrite Hsame. apply numeric_marker_absent. intros (digits & rest & Hne & Hd & Heq).
    destruct (Hmarked digits rest Hne Hd Heq) as [_ Hdrop]. injection Hdrop as -> _.
    by apply Hc.
Qed.

Lemma stripBulletMarker_spec (s : jsstring) : WithoutBulletMarker s (stripBulletMarker s).
Proof.
  unfold stripBulletMarker. destruct s as [|c r].
  { apply bullet_marker_absent. intros (c & rest & _ & Heq). discriminate Heq. }
  destruct ((c =? 45)%N || (c =? 8226)%N) eqn:Hc.
  - apply orb_true_iff in Hc.
    rewrite (takeWhile_dropWhile isWhiteSpace r) at 1.
    apply bullet_marker_removed.
    + destruct Hc as [Hc|Hc]; apply N.eqb_eq in Hc; auto.
    + apply takeWhile_all.
    + apply dropWhile_not_startsBlank.
  - apply orb_false_iff in Hc as [H1 H2]. apply N.eqb_neq in H1, H2.
    apply bullet_marker_absent. intros (c' & rest & Hmark & [= -> _]).
    destruct Hmark; contradiction.
Qed.

Lemma cleanQuestion_CleanedLine (line : jsstring) : CleanedLine line (cleanQuestion line).
Proof.
  unfold cleanQuestion. eexists _, _.
  split; [apply stripNumericMarker_spec|]. split; [apply stripBulletMarker_spec|].
  apply trim_Trimmed.
Qed.

(** *** [split] *)

Lemma breakOn_None (sep s : jsstring) : breakOn sep s = None → includes sep s = false.
Proof.
  induction s as [|c t IH]; rewrite breakOn_unfold; cbn [includes];
    destruct (startsWith sep _); try discriminate; [reflexivity|].
  destruct (breakOn sep t) as [[b a]|]; [discriminate|]. intros _. by apply IH.
Qed.

Lemma includes_none (sep s : jsstring) (n : nat) :
  includes sep s = false → startsWith sep (drop n s) = false.
Proof.
  revert n. induction s as [|c t IH]; intros n H; cbn [includes] in H.
  - rewrite drop_nil. by apply orb_false_iff in H as [H _].
  - apply orb_false_iff in H as [H1 H2]. destruct n as [|n]; [exact H1|]. by apply IH.
Qed.

Lemma includes_single (c : N) (s : jsstring) : includes [c] s = false → c ∉ s.
Proof.
  induction s as [|d t IH]; intros H; [apply not_elem_of_nil|].
  cbn [includes startsWith] in H. apply orb_false_iff in H as [H1 H2].
  rewrite andb_true_r in H1. apply N.eqb_neq in H1.
  apply not_elem_of_cons. split; [exact H1|by apply IH].
Qed.

Lemma join_cons (sep p : jsstring) (rest : list jsstring) :
  rest ≠ [] → join sep (p :: rest) = p ++ sep ++ join sep rest.
Proof. destruct rest; [congruence|reflexivity]. Qed.

Lemma split_rounds_spec (sep : jsstring) (rounds : nat) (s : jsstring) :
  sep ≠ [] → length s < rounds →
  split_rounds rounds sep s ≠ [] ∧
  join sep (split_rounds rounds sep s) = s ∧
  Forall (λ part, includes sep part = false) (split_rounds rounds sep s).
Proof.
  intros Hsep. revert s. induction rounds as [|r IH]; intros s Hr; [lia|].
  cbn [split_rounds]. destruct (breakOn sep s) as [[b a]|] eqn:Hbreak.
  - pose proof (breakOn_shorter _ _ _ _ Hsep Hbreak) as Hshort.
    destruct (IH a ltac:(lia)) as (Hne & Hjoin & Hparts).
    destruct (breakOn_first _ _ _ _ Hbreak) as [Hs _].
    split; [discriminate|]. split.
    + rewrite join_cons by exact Hne. by rewrite Hjoin.
    + constructor; [|exact Hparts].
      apply (no_occurrence_before_first sep s b a [] b []); [exact Hsep|exact Hbreak|].
      by rewrite app_nil_r.
  - split; [discriminate|]. split; [reflexivity|].
    constructor; [by apply breakOn_None|constructor].
Qed.

Lemma split_LinesOf (block : jsstring) : LinesOf block (split newline block).
Proof.
  destruct (split_rounds_spec newline (S (length block)) block) as (Hne & Hjoin & Hparts);
    [discriminate|lia|].
  split; [exact Hne|]. split; [exact Hjoin|].
  eapply Forall_impl; [exact Hparts|]. intros line. apply includes_single.
Qed.

Lemma split_second (s before after : jsstring) :
  breakOn separator s = Some (before, after) →
  ∃ middle, split separator s !! 1 = Some middle ∧ UpToSeparator after middle.
Proof.
  intros Hbreak. unfold split. cbn [split_rounds]. rewrite Hbreak. cbn [lookup list_lookup].
  assert (Hlen : 0 < length s).
  { destruct (breakOn_first _ _ _ _ Hbreak) as [-> _]. rewrite !length_app.
    change (length separator) with 25. lia. }
  destruct (length s) as [|r]; [lia|]. cbn [split_rounds].
  destruct (breakOn separator after) as [[middle tail]|] eqn:Hnext.
  - exists middle. split; [reflexivity|]. right. exists tail.
    by apply breakOn_first.
  - exists after. split; [reflexivity|]. left. split; [reflexivity|].
    intros n. by apply includes_none, breakOn_None.
Qed.

(** C8. Let retrieval return at least one document and the chat model
    answer [rawAnswer]. Then [queryRag] returns normally, and
    - if [rawAnswer] contains the separator, the answer is the text before
      its first occurrence without the white space at its ends; the lines
      are those of the text between the first separator and the next one
      (or the end), without the white space at its ends; every line is
      cleaned — a numeric marker, digits and a dot with the white space
      after them, is removed at its very start, then a dash or bullet with
      the white space after it at the very start of what is left, then the
      white space at the two ends — and the suggested questions are the
      first three, in order, of the cleaned lines that have more than 0
      and fewer than 100 code units, so there are at most three;
    - if it does not, the answer is [rawAnswer] and there are no suggested
      questions.
    A marker is removed only where the line begins: behind a bullet or
    behind white space a numeric marker stays, and the length is that of
    the cleaned line. *)
Theorem queryRag_parses_suggestions (env : Env) (question : jsstring) (customTopK : option Z)
    (config : RagConfig) (docs : list Document) (rawAnswer : jsstring) (w w1 : World) :
  retrieveFor env question customTopK w = (Ok (config, docs), w1) →
  docs ≠ [] →
  chatModel env (model config) (temperature config) (length (llmPrompts w1))
            (buildPrompt docs question) = Ok rawAnswer →
  ∃ result w2,
    queryRag env question customTopK w = (Ok result, w2) ∧
    (includes separator rawAnswer = true →
       ∃ before after middle block lines cleaned,
         rawAnswer = before ++ separator ++ after ∧
         (∀ n, n < length before → startsWith separator (drop n rawAnswer) = false) ∧
         Trimmed before (answer result) ∧
         UpToSeparator after middle ∧
         Trimmed middle block ∧
         LinesOf block lines ∧
         Forall2 CleanedLine lines cleaned ∧
         suggestedQuestions result
         = take 3 (filter (λ q, 0 < length q ∧ length q < 100) cleaned) ∧
         length (suggestedQuestions result) ≤ 3) ∧
    (includes separator rawAnswer = false →
       answer result = rawAnswer ∧ suggestedQuestions result = []).
Proof.
  intros Hretrieve Hdocs Hmodel.
  assert (Hlen : (length docs =? 0) = false) by (destruct docs; [congruence|reflexivity]).
  destruct (parseRawAnswer rawAnswer) as [ans qs] eqn:Hparse.
  exists (mkRagResult ans ((λ d, mkRetrievedChunk (pageContent d) (sourceOf d)) <$> docs) qs).
  eexists. split.
  - unfold queryRag. rewrite (bind_ok _ _ _ _ _ Hretrieve). cbn zeta. rewrite Hlen.
    rewrite bind_run. unfold invokeModel. rewrite Hmodel, Hparse. reflexivity.
  - cbn [answer suggestedQuestions]. unfold parseRawAnswer in Hparse. split.
    + intros Hinc. rewrite Hinc in Hparse. cbn zeta in Hparse. injection Hparse as <- <-.
      destruct (includes_breakOn _ _ Hinc) as [[before after] Hbreak].
      destruct (breakOn_first _ _ _ _ Hbreak) as [Heq Hfirst].
      destruct (split_second _ _ _ Hbreak) as (middle & Hsecond & Hmiddle).
      unfold questionLines. cbn zeta. rewrite Hsecond, (split_first _ _ _ _ Hbreak).
      cbn [default].
      exists before, after, middle, (trim middle), (split newline (trim middle)),
        (cleanQuestion <$> split newline (trim middle)).
      split; [exact Heq|]. split; [exact Hfirst|]. split; [apply trim_Trimmed|].
      split; [exact Hmiddle|]. split; [apply trim_Trimmed|].
      split; [apply split_LinesOf|].
      split; [apply Forall2_fmap_r, Forall_Forall2_diag, Forall_forall; intros line _;
              apply cleanQuestion_CleanedLine|].
      split; [f_equal; by apply list_filter_iff|].
      rewrite length_take. lia.
    + intros Hinc. rewrite Hinc in Hparse. injection Hparse as <- <-. by split.
Qed.

Lemma queryRag_parses_suggestions_witness :
  ∃ result w2,
    queryRag chattyEnv (js "capital?") None oneChunkWorld = (Ok result, w2) ∧
    (includes separator sampleRawAnswer = true →
       ∃ before after middle block lines cleaned,
         sampleRawAnswer = before ++ separator ++ after ∧
         (∀ n, n < length before → startsWith separator (drop n sampleRawAnswer) = false) ∧
         Trimmed before (answer result) ∧
         UpToSeparator after middle ∧
         Trimmed middle block ∧
         LinesOf block lines ∧
         Forall2 CleanedLine lines cleaned ∧
         suggestedQuestions result
         = take 3 (filter (λ q, 0 < length q ∧ length q < 100) cleaned) ∧
         length (suggestedQuestions result) ≤ 3) ∧
    (includes separator sampleRawAnswer = false →
       answer result = sampleRawAnswer ∧ suggestedQuestions result = []).
Proof.
  apply (queryRag_parses_suggestions chattyEnv (js "capital?") None DEFAULT_RAG_CONFIG
           oneChunk sampleRawAnswer oneChunkWorld
           (worldAfter (retrieveFor chattyEnv (js "capital?") None) oneChunkWorld)).
  - vm_compute. reflexivity.
  - discriminate.
  - reflexivity.
Defined.

(** On that answer the two questions come out without their markers. *)
Example queryRag_sample :
  outcomeOf (queryRag chattyEnv (js "capital?") None) oneChunkWorld
  = Ok (mkRagResult (js "Paris.")
          [mkRetrievedChunk (js "Paris is the capital of France.") (JStr (js "geo.txt"))]
          [js "What about Rome?"; js "And Berlin?"]).
Proof. vm_compute. reflexivity. Qed.

(** Not every suggested question has its leading numeric marker removed.
    For the line [- 1. first] the question
    returned is [1. first], which begins with a numeric marker; and the
    indented line [  2. two] gives [2. two]. *)
Lemma numeric_marker_left_in_suggestion :
  (∃ w',
     queryRag (answeringEnv bulletThenNumber) (js "capital?") None oneChunkWorld
     = (Ok (mkRagResult (js "A.")
              [mkRetrievedChunk (js "Paris is the capital of France.") (JStr (js "geo.txt"))]
              [js "1. first"]), w')) ∧
  numericMarked (js "1. first") ∧
  (∃ w',
     queryRag (answeringEnv indentedNumber) (js "capital?") None oneChunkWorld
     = (Ok (mkRagResult (js "A.")
              [mkRetrievedChunk (js "Paris is the capital of France.") (JStr (js "geo.txt"))]
              [js "one"; js "2. two"]), w')) ∧
  numericMarked (js "2. two").
Proof.
  split; [eexists; vm_compute; reflexivity|].
  split; [exists [49%N], (js " first"); split; [discriminate|];
          split; [repeat constructor|vm_compute; reflexivity]|].
  split; [eexists; vm_compute; reflexivity|].
  exists [50%N], (js " two"). split; [discriminate|].
  split; [repeat constructor|vm_compute; reflexivity].
Qed.

(** A line of more than 100 code units is kept when what is left of it
    after cleaning is shorter: the 120 blanks behind the marker go with it. *)
Example long_line_kept :
  let line := js "1. " ++ replicate 120 32%N ++ js "two" in
  100 < length line ∧
  outcomeOf (queryRag (answeringEnv (js "A." ++ separator ++ js "one" ++ newline ++ line
                                       ++ newline ++ js "three"))
               (js "capital?") None) oneChunkWorld
  = Ok (mkRagResult (js "A.")
          [mkRetrievedChunk (js "Paris is the capital of France.") (JStr (js "geo.txt"))]
          [js "one"; js "two"; js "three"]).
Proof. split; [vm_compute; lia|vm_compute; reflexivity]. Qed.

(* ===================================================================== *)
(** ** Embedding requests: credential, failures, limits *)
(* ===================================================================== *)

Lemma loopStarts_pos (n step : nat) :
  0 < n → 0 < step → ∃ rest, loopStarts n step = 0 :: rest.
Proof.
  intros Hn Hstep. unfold loopStarts.
  destruct ((n + step - 1) / step) as [|m] eqn:Hm.
  - apply Nat.div_small_iff in Hm; lia.
  - cbn [seq fmap list_fmap]. eauto.
Qed.

Lemma forLoop_first_throw {A St} (x : A) (rest : list A) (body : St → A → M St) (s : St)
    (w w' : World) (e : Error) :
  body s x w = (Throw e, w') → forLoop (x :: rest) body s w = (Throw e, w').
Proof. intros H. cbn [forLoop]. by rewrite (bind_throw _ _ _ _ _ H). Qed.

Lemma callDashScopeEmbedding_missing_key (env : Env) (texts : list jsstring) (w : World) :
  DASHSCOPE_API_KEY env = [] →
  DashScopeEmbeddings.callDashScopeEmbedding env texts w = (Throw missingKeyError, w).
Proof. intros Hkey. unfold DashScopeEmbeddings.callDashScopeEmbedding. by rewrite Hkey. Qed.

Lemma embedDocuments_missing_key (env : Env) (documents : list jsstring) (w : World) :
  DASHSCOPE_API_KEY env = [] → documents ≠ [] →
  DashScopeEmbeddings.embedDocuments env documents w = (Throw missingKeyError, w).
Proof.
  intros Hkey Hne. unfold DashScopeEmbeddings.embedDocuments.
  destruct (loopStarts_pos (length documents) DashScopeEmbeddings.batchSize) as [rest ->].
  - destruct documents; [congruence|cbn; lia].
  - unfold DashScopeEmbeddings.batchSize. lia.
  - apply forLoop_first_throw. rewrite bind_run.
    by rewrite callDashScopeEmbedding_missing_key.
Qed.

(** X1. Without a credential nothing is embedded and nothing is sent: for
    every non-empty list of texts [embedDocuments] throws the
    [DASHSCOPE_API_KEY is required for embeddings] error, and
    [addDocumentsToStore] of a non-empty list of chunks fails with the same
    error; in both cases no request reaches the endpoint, and after the
    failed ingestion the stored documents, the indexed entries and the
    registry hold what they held before. *)
Theorem missing_key_blocks_embedding (env : Env) (documents : list jsstring)
    (docs : list Document) (filename : jsstring) (fileType : option jsvalue) (w : World) :
  DASHSCOPE_API_KEY env = [] →
  documents ≠ [] →
  docs ≠ [] →
  DashScopeEmbeddings.embedDocuments env documents w = (Throw missingKeyError, w) ∧
  outcomeOf (addDocumentsToStore env docs filename fileType) w = Throw missingKeyError ∧
  let w' := worldAfter (addDocumentsToStore env docs filename fileType) w in
  embedRequests w' = embedRequests w ∧
  storedOf w' = storedOf w ∧ entryDocsOf w' = entryDocsOf w ∧ metasOf w' = metasOf w.
Proof.
  intros Hkey Hne Hdocs. split; [by apply embedDocuments_missing_key|].
  unfold outcomeOf, worldAfter, addDocumentsToStore.
  destruct (getVectorStore_run w) as (vs & w0 & Hrun & _ & He & Hs & Hm & _ & Hq & _ & _).
  rewrite (bind_ok _ _ _ _ _ Hrun). rewrite bind_run. cbn [dateNow]. cbn zeta.
  rewrite bind_run.
  destruct (loopStarts_pos (length docs) batchSize) as [rest ->].
  { destruct docs; [congruence|cbn; lia]. }
  { unfold batchSize. lia. }
  match goal with |- context [forLoop (0 :: rest) ?b ?s ?w1] =>
    assert (Hloop : forLoop (0 :: rest) b s w1 = (Throw missingKeyError, w1))
  end.
  { apply forLoop_first_throw. cbn zeta. rewrite tryCatch_rethrow, bind_run.
    rewrite embedDocuments_missing_key; [reflexivity|exact Hkey|].
    destruct docs as [|d docs]; [congruence|]. discriminate. }
  rewrite Hloop. cbn [fst snd].
  unfold storedOf, entryDocsOf, entriesOf, metasOf in *. cbn. repeat split; assumption.
Qed.

Lemma missing_key_blocks_embedding_witness :
  DashScopeEmbeddings.embedDocuments noKeyEnv elevenTexts freshWorld
    = (Throw missingKeyError, freshWorld) ∧
  outcomeOf (addDocumentsToStore noKeyEnv elevenChunks (js "big.txt") None) freshWorld
    = Throw missingKeyError ∧
  let w' := worldAfter (addDocumentsToStore noKeyEnv elevenChunks (js "big.txt") None)
                       freshWorld in
  embedRequests w' = embedRequests freshWorld ∧
  storedOf w' = storedOf freshWorld ∧ entryDocsOf w' = entryDocsOf freshWorld ∧
  metasOf w' = metasOf freshWorld.
Proof.
  apply (missing_key_blocks_embedding noKeyEnv elevenTexts elevenChunks (js "big.txt") None
           freshWorld).
  - reflexivity.
  - discriminate.
  - discriminate.
Defined.

Lemma processText_length (text : jsstring) :
  length (DashScopeEmbeddings.processText text) ≤ 2048.
Proof.
  unfold DashScopeEmbeddings.processText, substring0. cbn zeta.
  destruct (2048 <? length (trim text)) eqn:H.
  - rewrite length_take. lia.
  - apply Nat.ltb_ge in H. exact H.
Qed.

Lemma requestsFor_withinLimits (documents : list jsstring) :
  Forall withinLimits (requestsFor documents).
Proof.
  unfold requestsFor. apply Forall_fmap.
  eapply Forall_impl; [apply subBatches_bounded|].
  intros batch Hb. split.
  - rewrite length_fmap. exact Hb.
  - apply Forall_fmap, Forall_forall. intros text _. apply processText_length.
Qed.

Lemma requestsFor_lookup (documents : list jsstring) (k x : nat) :
  loopStarts (length documents) DashScopeEmbeddings.batchSize !! k = Some x →
  requestsFor documents !! k
  = Some (DashScopeEmbeddings.processText
            <$> slice documents x (x + DashScopeEmbeddings.batchSize)).
Proof.
  intros Hk. unfold requestsFor, subBatches. by rewrite !list_lookup_fmap, Hk.
Qed.

(** What [embedDocuments] sends, whatever the endpoint answers: a prefix of
    its requests, all of them when it returns normally. *)
Lemma embedDocuments_requests (env : Env) (documents : list jsstring) (w : World) :
  ∃ n,
    embedRequests (worldAfter (DashScopeEmbeddings.embedDocuments env documents) w)
    = embedRequests w ++ take n (requestsFor documents) ∧
    (∀ results, outcomeOf (DashScopeEmbeddings.embedDocuments env documents) w = Ok results →
                n = length (requestsFor documents)).
Proof.
  unfold worldAfter, outcomeOf, DashScopeEmbeddings.embedDocuments.
  set (starts := loopStarts (length documents) DashScopeEmbeddings.batchSize).
  set (I := λ (k : nat) (_ : list Vector) (w' : World),
         embedRequests w' = embedRequests w ++ take k (requestsFor documents)).
  set (E := λ (_ : Error) (w' : World),
         ∃ n, embedRequests w' = embedRequests w ++ take n (requestsFor documents)).
  assert (Hbase : I 0 [] w) by (unfold I; cbn; by rewrite app_nil_r).
  match goal with |- context [forLoop starts ?b ?s w] =>
    pose proof (forLoop_rule I E starts b s w Hbase) as H
  end.
  lapply H; clear H.
  - intros H. destruct (forLoop starts _ [] w) as [[results|e] w']; cbn [fst snd].
    + exists (length starts). split; [exact H|]. intros _ _.
      unfold requestsFor, subBatches. by rewrite !length_fmap.
    + destruct H as [n Hn]. exists n. split; [exact Hn|]. intros results [=].
  - intros k x results w1 Hk Hlog. rewrite bind_run.
    unfold DashScopeEmbeddings.callDashScopeEmbedding.
    destruct (DASHSCOPE_API_KEY env) as [|c key].
    + exists k. exact Hlog.
    + rewrite tryCatch_rethrow. unfold DashScopeEmbeddings.postEmbeddings.
      assert (Hnext : embedRequests w1 ++
                [DashScopeEmbeddings.processText
                   <$> slice documents x (x + DashScopeEmbeddings.batchSize)]
              = embedRequests w ++ take (S k) (requestsFor documents)).
      { rewrite (take_S_r _ _ _ (requestsFor_lookup _ _ _ Hk)), Hlog.
        by rewrite app_assoc. }
      destruct (dashscope env _ _) as [vectors|e]; cbn.
      * exact Hnext.
      * exists (S k). exact Hnext.
Qed.

Lemma embedDocuments_keeps_limits (env : Env) (documents : list jsstring) (w : World) :
  requestsWithinLimits w →
  requestsWithinLimits (worldAfter (DashScopeEmbeddings.embedDocuments env documents) w).
Proof.
  intros Hw. destruct (embedDocuments_requests env documents w) as (n & Hlog & _).
  unfold requestsWithinLimits. rewrite Hlog. apply Forall_app. split; [exact Hw|].
  apply Forall_take, requestsFor_withinLimits.
Qed.

(** The parts of an ingestion and of a deletion other than [embedDocuments]
    send nothing. *)
Lemma commit_loop_keeps_requests (docId filename : jsstring) (detectedFileType : jsvalue)
    (batch : list Document) (vectors : list Vector) (w : World) :
  embedRequests
    (worldAfter
       (forLoop (seq 0 (length batch))
          (λ (_ : ()) j,
             match batch !! j with
             | None => throw typeError
             | Some batch_j =>
               let docWithMeta := docWithMeta docId filename detectedFileType batch_j in
               addVectorsToInstance [vectors !! j] [docWithMeta];;
               pushStoredDocument (mkStoredDocument docId docWithMeta)
             end) ()) w)
  = embedRequests w.
Proof.
  unfold worldAfter.
  match goal with |- context [forLoop ?l ?b ?s w] =>
    pose proof (forLoop_rule (λ _ _ w', embedRequests w' = embedRequests w)
                             (λ _ w', embedRequests w' = embedRequests w) l b s w eq_refl) as H
  end.
  lapply H; clear H.
  - intros H. by destruct (forLoop _ _ () w) as [[[]|e] w'].
  - intros k x [] w1 _ Hw1. destruct (batch !! x) as [d|]; [|exact Hw1]. exact Hw1.
Qed.

Lemma addDocumentsToStore_keeps_limits (env : Env) (docs : list Document)
    (filename : jsstring) (fileType : option jsvalue) (w : World) :
  requestsWithinLimits w →
  requestsWithinLimits (worldAfter (addDocumentsToStore env docs filename fileType) w).
Proof.
  intros Hw. unfold worldAfter, addDocumentsToStore.
  destruct (getVectorStore_run w) as (vs & w0 & Hrun & _ & _ & _ & _ & _ & Hq & _ & _).
  rewrite (bind_ok _ _ _ _ _ Hrun). rewrite bind_run. cbn [dateNow]. cbn zeta.
  rewrite bind_run.
  match goal with |- context [forLoop ?l ?b ?s ?w1] =>
    pose proof (forLoop_rule (λ _ _ w', requestsWithinLimits w')
                             (λ _ w', requestsWithinLimits w') l b s w1) as H
  end.
  lapply H; clear H; [intros H; lapply H; clear H|].
  - intros H. match type of H with match ?r with _ => _ end => destruct r as [[[]|e] w2] end;
      [|exact H].
    unfold mbind, M_bind, mret, M_ret, dateNow, pushDocumentMeta, readGlobals, writeGlobals.
    exact H.
  - intros k x [] w1 _ Hw1. cbn zeta. rewrite tryCatch_rethrow, bind_run.
    pose proof (embedDocuments_keeps_limits env
                  (pageContent <$> slice docs x (x + batchSize)) w1 Hw1) as He.
    unfold worldAfter in He.
    destruct (DashScopeEmbeddings.embedDocuments env _ w1) as [[vectors|e] w2]; [|exact He].
    cbn [snd] in He.
    pose proof (commit_loop_keeps_requests (makeDocId (Date_now env (clockReads w0))) filename
                  (detectedFileTypeOf env filename fileType) (slice docs x (x + batchSize))
                  vectors w2) as Hc.
    unfold worldAfter in Hc. cbn zeta in Hc.
    destruct (forLoop _ _ () w2) as [[[]|e] w3]; cbn [snd] in Hc;
      unfold requestsWithinLimits; by rewrite Hc.
  - unfold requestsWithinLimits. cbn. by rewrite Hq.
Qed.

Lemma deleteDocument_keeps_limits (env : Env) (docId' : jsstring) (w : World) :
  requestsWithinLimits w →
  requestsWithinLimits (worldAfter (deleteDocument env docId') w).
Proof.
  intros Hw. unfold worldAfter. rewrite deleteDocument_unfold. cbn zeta.
  set (remaining := filter (λ d, docId d ≠ docId') (storedOf w)).
  set (w1 := mkWorld _ _ _ _ _).
  assert (Hw1 : requestsWithinLimits w1) by exact Hw.
  destruct (0 <? length remaining); [|exact Hw1].
  unfold rebuildLoop.
  match goal with |- context [forLoop ?l ?b ?s w1] =>
    pose proof (forLoop_rule (λ _ _ w', requestsWithinLimits w')
                             (λ _ w', requestsWithinLimits w') l b s w1 Hw1) as H
  end.
  lapply H; clear H.
  - intros H. by destruct (forLoop _ _ newMemoryVectorStore w1) as [[vs'|e] w2].
  - intros k x vs1 w2 _ Hw2. cbn zeta. rewrite bind_run.
    pose proof (embedDocuments_keeps_limits env
                  ((λ d, pageContent (doc d)) <$> slice remaining x (x + batchSize)) w2 Hw2)
      as He.
    unfold worldAfter in He.
    destruct (DashScopeEmbeddings.embedDocuments env _ w2) as [[vectors|e] w3]; [|exact He].
    destruct (rebuild_batch (slice remaining x (x + batchSize)) vectors vs1 w3)
      as (vs2 & -> & _).
    exact He.
Qed.

Lemma retrieveFor_keeps_limits (env : Env) (question : jsstring) (customTopK : option Z)
    (w : World) :
  requestsWithinLimits w →
  requestsWithinLimits (worldAfter (retrieveFor env question customTopK) w).
Proof.
  intros Hw. unfold worldAfter, retrieveFor.
  destruct (getRagConfig_run w) as (c & w0 & Hc & _ & _ & Hq0 & _).
  rewrite (bind_ok _ _ _ _ _ Hc). cbn zeta.
  destruct (getVectorStore_run w0) as (vs & w1 & Hv & _ & _ & _ & _ & _ & Hq1 & _ & _).
  rewrite (bind_ok _ _ _ _ _ Hv). rewrite bind_run.
  unfold retrieverInvoke, DashScopeEmbeddings.embedQuery. rewrite !bind_run.
  assert (Hw1 : requestsWithinLimits w1)
    by (unfold requestsWithinLimits; by rewrite Hq1, Hq0).
  unfold DashScopeEmbeddings.callDashScopeEmbedding.
  destruct (DASHSCOPE_API_KEY env) as [|ch key]; [exact Hw1|].
  rewrite tryCatch_rethrow. unfold DashScopeEmbeddings.postEmbeddings.
  assert (Hnew : requestsWithinLimits
                   (mkWorld (globals w1)
                      (embedRequests w1 ++ [DashScopeEmbeddings.processText <$> [question]])
                      (llmPrompts w1) (clockReads w1) (savedFiles w1))).
  { unfold requestsWithinLimits. cbn [embedRequests]. apply Forall_app. split; [exact Hw1|].
    apply Forall_singleton. split; [cbn; lia|].
    apply Forall_singleton, processText_length. }
  destruct (dashscope env _ _) as [vectors|e]; [|exact Hnew].
  unfold liftOutcome. cbn.
  destruct (similaritySearch env vs (vectors !! 0) (default (topK c) customTopK)); exact Hnew.
Qed.

Lemma queryRag_keeps_limits (env : Env) (question : jsstring) (customTopK : option Z)
    (w : World) :
  requestsWithinLimits w →
  requestsWithinLimits (worldAfter (queryRag env question customTopK) w).
Proof.
  intros Hw. pose proof (retrieveFor_keeps_limits env question customTopK w Hw) as H.
  unfold worldAfter, queryRag in *. rewrite bind_run.
  destruct (retrieveFor env question customTopK w) as [[[config docs]|e] w1]; [|exact H].
  cbn [snd] in H. cbn zeta. destruct (length docs =? 0); [exact H|].
  rewrite bind_run. unfold invokeModel.
  destruct (chatModel env _ _ _ _) as [raw|e]; [|exact H].
  destruct (parseRawAnswer raw). exact H.
Qed.

(** X2. The limits of the embedding endpoint are never exceeded: starting
    from a world in which every request had at most ten texts of at most
    2048 code units each (the fresh world in particular), after any sequence
    of ingestions, deletions and clearings followed by a query, whatever
    their inputs and whatever the endpoint answered, every request that was
    sent still respects both limits. *)
Theorem requests_always_within_limits (env : Env) (ops : list Operation)
    (question : jsstring) (customTopK : option Z) (w : World) :
  requestsWithinLimits w →
  requestsWithinLimits (runOps env ops w) ∧
  requestsWithinLimits (worldAfter (queryRag env question customTopK) (runOps env ops w)).
Proof.
  intros Hw.
  assert (Hops : requestsWithinLimits (runOps env ops w)).
  { revert w Hw. induction ops as [|op ops IH]; intros w Hw; [exact Hw|].
    cbn [runOps foldl]. apply IH.
    destruct op as [docs filename fileType|docId'|]; cbn [runOp].
    - by apply addDocumentsToStore_keeps_limits.
    - by apply deleteDocument_keeps_limits.
    - exact Hw. }
  split; [exact Hops|]. by apply queryRag_keeps_limits.
Qed.

Lemma requests_always_within_limits_witness :
  let ops := [OpAdd elevenChunks (js "big.txt") None; OpDelete (js "doc_1700000000000");
              OpClear] in
  requestsWithinLimits (runOps secondRequestFails ops freshWorld) ∧
  requestsWithinLimits
    (worldAfter (queryRag secondRequestFails (js "capital?") None)
                (runOps secondRequestFails ops freshWorld)).
Proof.
  intros ops.
  apply (requests_always_within_limits secondRequestFails ops (js "capital?") None freshWorld).
  apply Forall_nil. exact I.
Defined.

(** X3. [embedDocuments] gives up at the first sub-batch that the endpoint
    rejects: when the requests before the [k]-th are answered and the [k]-th
    is rejected with [e], the call throws [e] — no vector of the answered
    sub-batches is returned — and the requests sent are exactly the first
    [k + 1]; the sub-batches after the failing one are never sent. *)
Theorem embedDocuments_stops_at_first_failure (env : Env) (documents : list jsstring)
    (w : World) (k : nat) (request : list jsstring) (e : Error) :
  DASHSCOPE_API_KEY env ≠ [] →
  requestsFor documents !! k = Some request →
  (∀ i earlier, i < k → requestsFor documents !! i = Some earlier →
     ∃ vectors, dashscope env (length (embedRequests w) + i) earlier = Ok vectors) →
  dashscope env (length (embedRequests w) + k) request = Throw e →
  DashScopeEmbeddings.embedDocuments env documents w
  = (Throw e,
     mkWorld (globals w) (embedRequests w ++ take (S k) (requestsFor documents))
             (llmPrompts w) (clockReads w) (savedFiles w)).
Proof.
  intros Hkey Hreq Hok Hfail. unfold DashScopeEmbeddings.embedDocuments.
  set (starts := loopStarts (length documents) DashScopeEmbeddings.batchSize).
  set (target := mkWorld (globals w) (embedRequests w ++ take (S k) (requestsFor documents))
                         (llmPrompts w) (clockReads w) (savedFiles w)).
  set (I := λ (j : nat) (_ : list Vector) (w' : World),
         j ≤ k ∧
         w' = mkWorld (globals w) (embedRequests w ++ take j (requestsFor documents))
                      (llmPrompts w) (clockReads w) (savedFiles w)).
  set (E := λ (e' : Error) (w' : World), e' = e ∧ w' = target).
  assert (Hlen : k < length starts).
  { apply lookup_lt_Some in Hreq. unfold requestsFor, subBatches in Hreq.
    by rewrite !length_fmap in Hreq. }
  assert (Hbase : I 0 [] w).
  { split; [lia|]. cbn. rewrite app_nil_r. by destruct w. }
  match goal with |- forLoop starts ?b ?s w = _ =>
    pose proof (forLoop_rule I E starts b s w Hbase) as H
  end.
  lapply H; clear H.
  - intros H. destruct (forLoop starts _ [] w) as [[results|e'] w'].
    + destruct H as [H _]. lia.
    + destruct H as [-> ->]. reflexivity.
  - intros j x results w1 Hj [Hjk ->].
    pose proof (requestsFor_lookup _ _ _ Hj) as Hrj.
    rewrite bind_run, callDashScopeEmbedding_run by exact Hkey.
    cbn [embedRequests globals llmPrompts clockReads].
    assert (Hbase_j : length (embedRequests w ++ take j (requestsFor documents))
                      = length (embedRequests w) + j).
    { rewrite length_app, length_take. apply lookup_lt_Some in Hrj. lia. }
    rewrite Hbase_j.
    assert (Hnext : embedRequests w ++ take j (requestsFor documents)
                    ++ [DashScopeEmbeddings.processText
                          <$> slice documents x (x + DashScopeEmbeddings.batchSize)]
                    = embedRequests w ++ take (S j) (requestsFor documents)).
    { by rewrite (take_S_r _ _ _ Hrj). }
    rewrite <- app_assoc, Hnext.
    destruct (decide (j = k)) as [->|Hne].
    + rewrite Hrj in Hreq. injection Hreq as <-. rewrite Hfail. split; reflexivity.
    + destruct (Hok j _ ltac:(lia) Hrj) as [vectors ->]. split; [lia|reflexivity].
Qed.

Lemma embedDocuments_stops_at_first_failure_witness :
  DashScopeEmbeddings.embedDocuments secondRequestFails (elevenTexts ++ elevenTexts) freshWorld
  = (Throw (JsError (js "DashScope Embedding API error: quota")),
     mkWorld (globals freshWorld)
             (embedRequests freshWorld
                ++ take 2 (requestsFor (elevenTexts ++ elevenTexts)))
             (llmPrompts freshWorld) (clockReads freshWorld) (savedFiles freshWorld)).
Proof.
  apply (embedDocuments_stops_at_first_failure secondRequestFails (elevenTexts ++ elevenTexts)
           freshWorld 1
           (DashScopeEmbeddings.processText <$> slice (elevenTexts ++ elevenTexts) 10 20)).
  - discriminate.
  - vm_compute. reflexivity.
  - intros i earlier Hi _. assert (i = 0) as -> by lia. eexists. reflexivity.
  - reflexivity.
Defined.

(* ===================================================================== *)
(** ** Configuration *)
(* ===================================================================== *)

Lemma getRagConfig_configOf (w : World) :
  outcomeOf getRagConfig w = Ok (configOf w) ∧
  configOf (worldAfter getRagConfig w) = configOf w.
Proof.
  unfold outcomeOf, worldAfter, getRagConfig, configOf. rewrite bind_run. cbn [readGlobals].
  destruct (ragConfig (globals w)) as [c|] eqn:Hc; split; try reflexivity.
  unfold mret, M_ret. cbn. by rewrite Hc.
Qed.

Lemma runOp_keeps_config (env : Env) (op : Operation) (w : World) :
  ragConfig (globals (runOp env op w)) = ragConfig (globals w).
Proof.
  destruct op as [docs filename fileType|docId'|]; cbn [runOp].
  - pose proof (addDocumentsToStore_spec env docs filename fileType w) as H. cbn zeta in H.
    unfold worldAfter.
    destruct (addDocumentsToStore env docs filename fileType w) as [[m|e] w']; cbn [snd].
    + by destruct H as (_ & _ & _ & _ & _ & Hr & _).
    + by destruct H as (k & w1 & _ & _ & _ & _ & _ & _ & Hr & _).
  - pose proof (deleteDocument_spec env docId' w) as H. cbn zeta in H.
    by destruct H as (_ & _ & Hr & _).
  - reflexivity.
Qed.

Lemma runOps_keeps_config (env : Env) (ops : list Operation) (w : World) :
  ragConfig (globals (runOps env ops w)) = ragConfig (globals w).
Proof.
  revert w. induction ops as [|op ops IH]; intros w; [reflexivity|].
  cbn [runOps foldl]. fold (runOps env ops (runOp env op w)).
  by rewrite IH, runOp_keeps_config.
Qed.

(** X4. [setRagConfig] returns and stores the configuration in force merged
    with the given fields — given fields replace, the others are kept, no
    value is checked against a range — and touches nothing else; from then
    on [getRagConfig] returns exactly that configuration, also after any
    sequence of ingestions, deletions and clearings of the knowledge base. *)
Theorem setRagConfig_persists (env : Env) (partial : PartialRagConfig)
    (ops : list Operation) (w : World) :
  let merged := mergeConfig (configOf w) partial in
  let w1 := worldAfter (setRagConfig partial) w in
  outcomeOf (setRagConfig partial) w = Ok merged ∧
  metasOf w1 = metasOf w ∧ storedOf w1 = storedOf w ∧ entriesOf w1 = entriesOf w ∧
  embedRequests w1 = embedRequests w ∧
  outcomeOf getRagConfig w1 = Ok merged ∧
  outcomeOf getRagConfig (runOps env ops w1) = Ok merged.
Proof.
  cbn zeta.
  assert (Hset : setRagConfig partial w
                 = (Ok (mergeConfig (configOf w) partial),
                    mkWorld (mkGlobals (vectorStoreInstance (globals w))
                                       (storedDocuments (globals w))
                                       (documentMetas (globals w))
                                       (Some (mergeConfig (configOf w) partial)))
                            (embedRequests w) (llmPrompts w) (clockReads w) (savedFiles w))).
  { unfold setRagConfig, getRagConfig, configOf. rewrite !bind_run. cbn [readGlobals].
    destruct (ragConfig (globals w)); reflexivity. }
  unfold outcomeOf, worldAfter. rewrite Hset. cbn [fst snd].
  repeat split.
  pose proof (getRagConfig_configOf
                (runOps env ops
                   (mkWorld (mkGlobals (vectorStoreInstance (globals w))
                                       (storedDocuments (globals w))
                                       (documentMetas (globals w))
                                       (Some (mergeConfig (configOf w) partial)))
                            (embedRequests w) (llmPrompts w) (clockReads w) (savedFiles w)))) as [H _].
  unfold outcomeOf in H. rewrite H. unfold configOf. by rewrite runOps_keeps_config.
Qed.

Example setRagConfig_sample :
  outcomeOf (setRagConfig samplePartial) freshWorld
  = Ok (mkRagConfig 50 500 100 (js "qwen-plus") (3 # 10)).
Proof. vm_compute. reflexivity. Qed.

(* ===================================================================== *)
(** ** Ingestion that succeeds, ingestion of nothing *)
(* ===================================================================== *)

Lemma embedDocuments_ok_when_answered (env : Env) (documents : list jsstring) (w : World) :
  DASHSCOPE_API_KEY env ≠ [] →
  (∀ k (input : list jsstring), length input ≤ 10 → ∃ vectors, dashscope env k input = Ok vectors) →
  ∃ results w', DashScopeEmbeddings.embedDocuments env documents w = (Ok results, w').
Proof.
  intros Hkey Hapi. unfold DashScopeEmbeddings.embedDocuments.
  match goal with |- ∃ results w', forLoop ?l ?b ?s w = _ =>
    pose proof (forLoop_rule (λ _ _ _, True) (λ _ _, False) l b s w I) as H
  end.
  lapply H; clear H.
  - intros H. destruct (forLoop _ _ [] w) as [[results|e] w']; [eauto|contradiction].
  - intros k x results w1 _ _.
    rewrite bind_run, callDashScopeEmbedding_run by exact Hkey.
    destruct (Hapi (length (embedRequests w1))
                (DashScopeEmbeddings.processText
                   <$> slice documents x (x + DashScopeEmbeddings.batchSize))) as [vectors ->].
    + rewrite length_fmap. apply slice_length_le.
    + exact I.
Qed.

(** X5. With a credential and an endpoint that answers every request of at
    most ten texts, [addDocumentsToStore] returns normally for every list of
    chunks: the record it returns carries the file name, the file type and
    the number of chunks, [documentCount] grows by one and [totalChunks] by
    that number, and the texts of the chunks are appended, in order, to the
    stored documents and to the index. *)
Theorem ingestion_succeeds_when_endpoint_answers (env : Env) (docs : list Document)
    (source : jsstring) (givenType : option jsvalue) (w : World) :
  DASHSCOPE_API_KEY env ≠ [] →
  (∀ k (input : list jsstring), length input ≤ 10 → ∃ vectors, dashscope env k input = Ok vectors) →
  ∃ m w',
    addDocumentsToStore env docs source givenType w = (Ok m, w') ∧
    chunkCount m = length docs ∧
    filename m = source ∧
    fileType m = detectedFileTypeOf env source givenType ∧
    statsOf w' = Some (length (metasOf w) + 1, countChunks (metasOf w) + length docs) ∧
    (λ s, pageContent (doc s)) <$> storedOf w'
      = ((λ s, pageContent (doc s)) <$> storedOf w) ++ (pageContent <$> docs) ∧
    mv_content <$> entriesOf w' = (mv_content <$> entriesOf w) ++ (pageContent <$> docs).
Proof.
  intros Hkey Hapi.
  pose proof (addDocumentsToStore_spec env docs source givenType w) as H. cbn zeta in H.
  destruct (addDocumentsToStore env docs source givenType w) as [[m|e] w'].
  - exists m, w'. destruct H as (Hm & Hmetas & Hstored & Hentries & _).
    split; [reflexivity|]. subst m. cbn [chunkCount filename fileType].
    repeat split.
    + rewrite statsOf_metas, Hmetas, length_app, countChunks_app.
      apply f_equal. apply f_equal2; cbn; lia.
    + rewrite Hstored, fmap_app, <- !list_fmap_compose. reflexivity.
    + apply (f_equal (fmap pageContent)) in Hentries.
      unfold entryDocsOf in Hentries.
      rewrite fmap_app, <- !list_fmap_compose in Hentries. exact Hentries.
  - exfalso. destruct H as (k & w1 & _ & Hemb & _).
    destruct (embedDocuments_ok_when_answered env
                (pageContent <$> slice docs (k * batchSize) (k * batchSize + batchSize))
                w1 Hkey Hapi) as (r & w2 & Hok).
    rewrite Hok in Hemb. discriminate.
Qed.

Lemma ingestion_succeeds_when_endpoint_answers_witness :
  ∃ m w',
    addDocumentsToStore (sampleEnvWith alwaysAnswers sameMillisecond) elevenChunks
                        (js "big.txt") None freshWorld = (Ok m, w') ∧
    chunkCount m = length elevenChunks ∧
    filename m = js "big.txt" ∧
    fileType m = detectedFileTypeOf (sampleEnvWith alwaysAnswers sameMillisecond) (js "big.txt") None ∧
    statsOf w' = Some (length (metasOf freshWorld) + 1,
                       countChunks (metasOf freshWorld) + length elevenChunks) ∧
    (λ s, pageContent (doc s)) <$> storedOf w'
      = ((λ s, pageContent (doc s)) <$> storedOf freshWorld) ++ (pageContent <$> elevenChunks) ∧
    mv_content <$> entriesOf w'
      = (mv_content <$> entriesOf freshWorld) ++ (pageContent <$> elevenChunks).
Proof.
  apply (ingestion_succeeds_when_endpoint_answers (sampleEnvWith alwaysAnswers sameMillisecond)
           elevenChunks (js "big.txt") None freshWorld).
  - discriminate.
  - intros k input _. eexists. reflexivity.
Defined.

(** X6. Ingesting an empty list of chunks is not refused by
    [addDocumentsToStore]: for every environment (with or without
    credential) and every world it returns normally, sends no request,
    stores no chunk, and registers a record with [chunkCount] 0. *)
Theorem ingestion_of_nothing_registers_empty_document (env : Env) (filename : jsstring)
    (fileType : option jsvalue) (w : World) :
  ∃ m w',
    addDocumentsToStore env [] filename fileType w = (Ok m, w') ∧
    chunkCount m = 0 ∧
    metasOf w' = metasOf w ++ [m] ∧
    storedOf w' = storedOf w ∧
    entriesOf w' = entriesOf w ∧
    embedRequests w' = embedRequests w.
Proof.
  unfold addDocumentsToStore, getVectorStore. rewrite !bind_run. cbn [readGlobals].
  change (loopStarts (length []) batchSize) with (@nil nat).
  unfold metasOf, storedOf, entriesOf.
  destruct (vectorStoreInstance (globals w)) as [vs|] eqn:Hvs.
  - eexists _, _. split; [reflexivity|]. cbn. rewrite Hvs. repeat split.
  - eexists _, _. split; [reflexivity|]. cbn.
    destruct (storedDocuments (globals w)), (documentMetas (globals w)); repeat split.
Qed.

(* ===================================================================== *)
(** ** Deletion: the rebuild of the index *)
(* ===================================================================== *)

Lemma subBatches_small (texts : list jsstring) :
  0 < length texts → length texts ≤ 10 → subBatches texts = [texts].
Proof.
  intros Hpos Hle. unfold subBatches, loopStarts, DashScopeEmbeddings.batchSize.
  assert ((length texts + 10 - 1) / 10 = 1) as ->.
  { symmetry. apply (Nat.div_unique _ 10 1 (length texts - 1)); lia. }
  cbn [seq fmap list_fmap]. rewrite slice_take_drop.
  rewrite take_ge by (rewrite length_drop; lia). reflexivity.
Qed.

Lemma slice_fmap {A B} (f : A → B) (xs : list A) (i j : nat) :
  slice (f <$> xs) i j = f <$> slice xs i j.
Proof. unfold slice. by rewrite fmap_take, fmap_drop. Qed.

Lemma slice_nonempty {A} (xs : list A) (i n : nat) :
  i < length xs → 0 < n → 0 < length (slice xs i (i + n)).
Proof. intros Hi Hn. rewrite slice_take_drop, length_take, length_drop. lia. Qed.

Lemma rebuild_batch_exact (embed : jsstring → Vector) (batch : list StoredDocument)
    (vs : MemoryVectorStore) (w : World) :
  ∃ vs',
    forLoop (seq 0 (length batch))
      (λ newVectorStore j,
         match batch !! j with
         | None => throw typeError
         | Some batch_j =>
           mret (addVectors newVectorStore [(embed <$> textsOf batch) !! j] [doc batch_j])
         end) vs w = (Ok vs', w) ∧
    memoryVectors vs' = memoryVectors vs ++ (rebuiltEntry embed <$> batch).
Proof.
  set (I := λ (k : nat) (vs' : MemoryVectorStore) (w' : World),
         w' = w ∧ memoryVectors vs' = memoryVectors vs ++ (rebuiltEntry embed <$> take k batch)).
  assert (Hbase : I 0 vs w) by (split; [done|by rewrite app_nil_r]).
  match goal with |- ∃ vs', forLoop ?l ?b ?s w = _ ∧ _ =>
    pose proof (forLoop_rule I (λ _ _, False) l b s w Hbase) as H
  end.
  lapply H; clear H.
  - intros H. destruct (forLoop _ _ vs w) as [[vs'|e] w']; [|contradiction].
    destruct H as [-> H]. exists vs'. split; [reflexivity|].
    by rewrite length_seq, firstn_all in H.
  - intros k x vs1 w1 Hk [-> Hd]. apply lookup_seq in Hk as [-> Hlt].
    cbn [Nat.add] in Hlt |- *.
    destruct (lookup_lt_is_Some_2 batch k Hlt) as [d Hk]. rewrite Hk.
    unfold textsOf. rewrite !list_lookup_fmap, Hk. cbn.
    split; [done|]. unfold addVectors. cbn [memoryVectors zip_with].
    rewrite Hd, (take_S_r _ _ _ Hk), fmap_app, app_assoc. reflexivity.
Qed.

(** The rebuild with an endpoint that answers: the index is made anew from
    the texts, one request per batch of ten. *)
Lemma rebuildLoop_run (env : Env) (embed1 : jsstring → Vector)
    (remaining : list StoredDocument) (w : World) :
  DASHSCOPE_API_KEY env ≠ [] →
  (∀ k (input : list jsstring),
     length input ≤ 10 → dashscope env k input = Ok (embed1 <$> input)) →
  ∃ vs',
    rebuildLoop env remaining w
    = (Ok vs',
       mkWorld (globals w) (embedRequests w ++ requestsFor (textsOf remaining))
               (llmPrompts w) (clockReads w) (savedFiles w)) ∧
    memoryVectors vs'
    = rebuiltEntry (λ text, embed1 (DashScopeEmbeddings.processText text)) <$> remaining.
Proof.
  intros Hkey Hapi. unfold rebuildLoop.
  set (embed := λ text, embed1 (DashScopeEmbeddings.processText text)).
  set (I := λ (k : nat) (vs' : MemoryVectorStore) (w' : World),
         memoryVectors vs' = rebuiltEntry embed <$> take (k * batchSize) remaining ∧
         w' = mkWorld (globals w)
                (embedRequests w ++ take k (requestsFor (textsOf remaining)))
                (llmPrompts w) (clockReads w) (savedFiles w)).
  assert (Hbase : I 0 newMemoryVectorStore w).
  { split; [reflexivity|]. cbn. rewrite app_nil_r. by destruct w. }
  match goal with |- ∃ vs', forLoop ?l ?b ?s w = _ ∧ _ =>
    pose proof (forLoop_rule I (λ _ _, False) l b s w Hbase) as H
  end.
  lapply H; clear H.
  - intros H. destruct (forLoop _ _ newMemoryVectorStore w) as [[vs'|e] w']; [|contradiction].
    destruct H as [Hvs ->]. exists vs'. split.
    + f_equal. f_equal. f_equal. apply take_ge.
      unfold requestsFor, subBatches, textsOf. rewrite !length_fmap. reflexivity.
    + rewrite Hvs. f_equal. apply loopStarts_cover. unfold batchSize. lia.
  - intros k x vs1 w1 Hk [Hvs ->].
    assert (Hk' : loopStarts (length (textsOf remaining)) DashScopeEmbeddings.batchSize !! k
                  = Some x) by (unfold textsOf; by rewrite length_fmap).
    pose proof (requestsFor_lookup _ _ _ Hk') as Hreq.
    apply loopStarts_lookup in Hk as [-> Hlt].
    cbn zeta. rewrite bind_run.
    set (batch := slice remaining (k * batchSize) (k * batchSize + batchSize)).
    fold (textsOf batch).
    rewrite (embedDocuments_run env embed1 (textsOf batch) _ Hkey Hapi).
    fold embed.
    destruct (rebuild_batch_exact embed batch vs1
                (mkWorld (globals w)
                   (embedRequests w ++ take k (requestsFor (textsOf remaining))
                      ++ (fmap (M:=list) DashScopeEmbeddings.processText
                            <$> subBatches (textsOf batch)))
                   (llmPrompts w) (clockReads w) (savedFiles w))) as (vs2 & Hrun & Hvs2).
    cbn [globals embedRequests llmPrompts clockReads savedFiles]. rewrite <- app_assoc, Hrun.
    split.
    + rewrite Hvs2, Hvs, <- fmap_app. f_equal. apply take_slice_next.
    + f_equal. f_equal. rewrite (take_S_r _ _ _ Hreq). f_equal.
      rewrite subBatches_small.
      * cbn [fmap list_fmap]. f_equal. unfold textsOf, batch.
        by rewrite slice_fmap.
      * unfold textsOf, batch. rewrite length_fmap. apply slice_nonempty; [exact Hlt|].
        unfold batchSize. lia.
      * unfold textsOf, batch. rewrite length_fmap. apply slice_length_le.
Qed.

(** A deletion with an endpoint that answers. *)
Lemma deleteDocument_answered (env : Env) (embed1 : jsstring → Vector)
    (docId' : jsstring) (w : World) :
  DASHSCOPE_API_KEY env ≠ [] →
  (∀ k (input : list jsstring),
     length input ≤ 10 → dashscope env k input = Ok (embed1 <$> input)) →
  let w' := worldAfter (deleteDocument env docId') w in
  outcomeOf (deleteDocument env docId') w
    = Ok (mkDeleteResult true (length (survivors docId' w))) ∧
  storedOf w' = survivors docId' w ∧
  embedRequests w' = embedRequests w ++ requestsFor (textsOf (survivors docId' w)) ∧
  entriesOf w'
    = rebuiltEntry (λ text, embed1 (DashScopeEmbeddings.processText text))
        <$> survivors docId' w.
Proof.
  intros Hkey Hapi. unfold worldAfter, outcomeOf. rewrite deleteDocument_unfold. cbn zeta.
  fold (survivors docId' w).
  set (remaining := survivors docId' w).
  set (w1 := mkWorld _ _ _ _ _).
  destruct (0 <? length remaining) eqn:Hlen.
  - destruct (rebuildLoop_run env embed1 remaining w1 Hkey Hapi) as (vs' & -> & Hvs).
    cbn. repeat split. exact Hvs.
  - apply Nat.ltb_ge in Hlen. destruct remaining as [|d ds]; [|cbn in Hlen; lia].
    cbn. repeat split. by rewrite app_nil_r.
Qed.

(** X7. Deleting a document rebuilds the whole index by embedding every
    surviving chunk again: with a credential and an endpoint that answers,
    [deleteDocument] returns [success] with the number of survivors, the
    requests it sends are those of [embedDocuments] on the texts of all
    survivors (one per ten survivors), and the new index holds, in order,
    exactly one entry per survivor with the embedding just computed. *)
Theorem deleteDocument_reembeds_survivors (env : Env) (embed1 : jsstring → Vector)
    (docId' : jsstring) (w : World) :
  DASHSCOPE_API_KEY env ≠ [] →
  (∀ k (input : list jsstring),
     length input ≤ 10 → dashscope env k input = Ok (embed1 <$> input)) →
  let w' := worldAfter (deleteDocument env docId') w in
  outcomeOf (deleteDocument env docId') w
    = Ok (mkDeleteResult true (length (survivors docId' w))) ∧
  storedOf w' = survivors docId' w ∧
  embedRequests w' = embedRequests w ++ requestsFor (textsOf (survivors docId' w)) ∧
  entriesOf w'
    = rebuiltEntry (λ text, embed1 (DashScopeEmbeddings.processText text))
        <$> survivors docId' w.
Proof. exact (deleteDocument_answered env embed1 docId' w). Qed.

Lemma deleteDocument_reembeds_survivors_witness :
  let env := sampleEnvWith alwaysAnswers sameMillisecond in
  let w' := worldAfter (deleteDocument env (js "doc_0")) twoIngestions in
  outcomeOf (deleteDocument env (js "doc_0")) twoIngestions
    = Ok (mkDeleteResult true (length (survivors (js "doc_0") twoIngestions))) ∧
  storedOf w' = survivors (js "doc_0") twoIngestions ∧
  embedRequests w'
    = embedRequests twoIngestions ++ requestsFor (textsOf (survivors (js "doc_0") twoIngestions)) ∧
  entriesOf w'
    = rebuiltEntry (λ text, sampleEmbedding (DashScopeEmbeddings.processText text))
        <$> survivors (js "doc_0") twoIngestions.
Proof.
  apply (deleteDocument_reembeds_survivors (sampleEnvWith alwaysAnswers sameMillisecond)
           sampleEmbedding (js "doc_0") twoIngestions).
  - discriminate.
  - intros k input _. reflexivity.
Defined.

Lemma survivors_all (i : jsstring) (w : World) :
  (i ∉ docId <$> storedOf w) → survivors i w = storedOf w.
Proof.
  intros Hi. unfold survivors. apply filter_all. intros d Hd Heq. apply Hi.
  rewrite <- Heq. by apply list_elem_of_fmap_2.
Qed.

(** X8. Deleting an id that no record and no stored chunk carries is
    answered as a success and changes neither the registry nor the stored
    documents, but it is not free: with a credential and an endpoint that
    answers, every stored chunk is embedded again, in [ceil(n / 10)]
    requests for [n] stored chunks. *)
Theorem deleting_unknown_id_reembeds_everything (env : Env) (embed1 : jsstring → Vector)
    (docId' : jsstring) (w : World) :
  DASHSCOPE_API_KEY env ≠ [] →
  (∀ k (input : list jsstring),
     length input ≤ 10 → dashscope env k input = Ok (embed1 <$> input)) →
  idUnused w docId' →
  let w' := worldAfter (deleteDocument env docId') w in
  outcomeOf (deleteDocument env docId') w = Ok (mkDeleteResult true (length (storedOf w))) ∧
  metasOf w' = metasOf w ∧
  storedOf w' = storedOf w ∧
  embedRequests w' = embedRequests w ++ requestsFor (textsOf (storedOf w)) ∧
  length (requestsFor (textsOf (storedOf w))) = (length (storedOf w) + 9) / 10.
Proof.
  intros Hkey Hapi [Hmeta Hstored]. cbn zeta.
  pose proof (deleteDocument_answered env embed1 docId' w Hkey Hapi) as H. cbn zeta in H.
  rewrite (survivors_all _ _ Hstored) in H. destruct H as (Hout & Hs & Hq & _).
  pose proof (deleteDocument_spec env docId' w) as Hspec. cbn zeta in Hspec.
  destruct Hspec as (Hm & _).
  repeat split; try assumption.
  - rewrite Hm. apply filter_all. intros m Hin Heq. apply Hmeta.
    rewrite <- Heq. by apply list_elem_of_fmap_2.
  - unfold requestsFor, textsOf. by rewrite length_fmap, subBatches_count, length_fmap.
Qed.

Lemma deleting_unknown_id_reembeds_everything_witness :
  let env := sampleEnvWith alwaysAnswers sameMillisecond in
  let w' := worldAfter (deleteDocument env (js "doc_0")) twoIngestions in
  outcomeOf (deleteDocument env (js "doc_0")) twoIngestions
    = Ok (mkDeleteResult true (length (storedOf twoIngestions))) ∧
  metasOf w' = metasOf twoIngestions ∧
  storedOf w' = storedOf twoIngestions ∧
  embedRequests w' = embedRequests twoIngestions ++ requestsFor (textsOf (storedOf twoIngestions)) ∧
  length (requestsFor (textsOf (storedOf twoIngestions)))
    = (length (storedOf twoIngestions) + 9) / 10.
Proof.
  apply (deleting_unknown_id_reembeds_everything (sampleEnvWith alwaysAnswers sameMillisecond)
           sampleEmbedding (js "doc_0") twoIngestions).
  - discriminate.
  - intros k input _. reflexivity.
  - split; apply (bool_decide_unpack _); vm_compute; exact I.
Defined.

(** X9. A deletion whose rebuild fails leaves a stale index: when
    [deleteDocument] throws, the records and the stored chunks of the
    document are already gone, but [vectorStoreInstance] is the instance of
    before the call, so the index still holds the entries of the deleted
    document. *)
Theorem failed_deletion_leaves_stale_index (env : Env) (docId' : jsstring) (w w' : World)
    (e : Error) :
  deleteDocument env docId' w = (Throw e, w') →
  metasOf w' = filter (λ m, id m ≠ docId') (metasOf w) ∧
  storedOf w' = survivors docId' w ∧
  vectorStoreInstance (globals w') = vectorStoreInstance (globals w) ∧
  entriesOf w' = entriesOf w.
Proof.
  intros Hrun. pose proof (deleteDocument_spec env docId' w) as H. cbn zeta in H.
  unfold worldAfter, outcomeOf in H. rewrite Hrun in H. cbn [fst snd] in H.
  destruct H as (Hm & Hs & _ & _ & _ & Hv). repeat split; try assumption.
  unfold entriesOf. by rewrite Hv.
Qed.

Lemma failed_deletion_leaves_stale_index_witness :
  let w' := worldAfter (deleteDocument thirdRequestFails (js "doc_1700000000000")) twoDocuments in
  metasOf w' = filter (λ m, id m ≠ js "doc_1700000000000") (metasOf twoDocuments) ∧
  storedOf w' = survivors (js "doc_1700000000000") twoDocuments ∧
  vectorStoreInstance (globals w') = vectorStoreInstance (globals twoDocuments) ∧
  entriesOf w' = entriesOf twoDocuments.
Proof.
  intros w'.
  apply (failed_deletion_leaves_stale_index thirdRequestFails (js "doc_1700000000000")
           twoDocuments w' (JsError (js "DashScope Embedding API error: quota"))).
  vm_compute. reflexivity.
Defined.

(** After that failed deletion one chunk is stored and two are indexed. *)
Example stale_index_sample :
  let w' := worldAfter (deleteDocument thirdRequestFails (js "doc_1700000000000")) twoDocuments in
  pageContent <$> (doc <$> storedOf w') = [js "beta"] ∧
  mv_content <$> entriesOf w' = [js "alpha"; js "beta"].
Proof. vm_compute. split; reflexivity. Qed.

(* ===================================================================== *)
(** ** Invariants of the store *)
(* ===================================================================== *)

Lemma doc_of_stored (i : jsstring) (ds : list Document) :
  doc <$> (mkStoredDocument i <$> ds) = ds.
Proof. rewrite <- list_fmap_compose. apply list_fmap_id. Qed.

Lemma indexMirrorsStore_op (env : Env) (op : Operation) (w : World) :
  indexMirrorsStore w →
  match op with
  | OpDelete docId' =>
    match outcomeOf (deleteDocument env docId') w with
    | Ok _ => True
    | Throw _ => False
    end
  | _ => True
  end →
  indexMirrorsStore (runOp env op w).
Proof.
  unfold indexMirrorsStore. intros Hw Hop.
  destruct op as [docs filename fileType|docId'|]; cbn [runOp].
  - pose proof (addDocumentsToStore_spec env docs filename fileType w) as H. cbn zeta in H.
    unfold worldAfter.
    destruct (addDocumentsToStore env docs filename fileType w) as [[m|e] w']; cbn [snd].
    + destruct H as (_ & _ & Hs & He & _).
      by rewrite He, Hs, fmap_app, doc_of_stored, Hw.
    + destruct H as (k & w1 & _ & _ & _ & Hs & He & _).
      by rewrite He, Hs, fmap_app, doc_of_stored, Hw.
  - pose proof (deleteDocument_spec env docId' w) as H. cbn zeta in H.
    destruct H as (_ & _ & _ & _ & _ & H).
    destruct (outcomeOf (deleteDocument env docId') w); [|contradiction].
    by destruct H as [_ H].
  - reflexivity.
Qed.

(** X10. The index mirrors the stored documents as long as no deletion
    fails: from a world in which the indexed entries are the stored
    documents in order (the fresh world in particular), every sequence of
    ingestions — successful or failed —, clearings and deletions that return
    normally, each run to its end before the next one starts, ends in such
    a world. *)
Theorem index_mirrors_store_while_deletions_succeed (env : Env) (ops : list Operation)
    (w : World) :
  indexMirrorsStore w →
  deletionsSucceed env ops w →
  indexMirrorsStore (runOps env ops w).
Proof.
  revert w. induction ops as [|op ops IH]; intros w Hw Hops; [exact Hw|].
  destruct Hops as [Hop Hrest]. cbn [runOps foldl]. apply IH; [|exact Hrest].
  by apply indexMirrorsStore_op.
Qed.

Lemma index_mirrors_store_while_deletions_succeed_witness :
  let w' := runOps (tickingEnv 6) mixedOperations freshWorld in
  indexMirrorsStore w' ∧
  (length (metasOf w'), length (storedOf w'), length (entriesOf w')) = (1, 21, 21).
Proof.
  split; [|vm_compute; reflexivity].
  apply (index_mirrors_store_while_deletions_succeed (tickingEnv 6) mixedOperations
           freshWorld).
  - reflexivity.
  - vm_compute. repeat split.
Defined.

Lemma detectFileType_truthy (env : Env) (name : jsstring) :
  truthy (detectFileType env name) = true.
Proof.
  unfold detectFileType. cbn zeta.
  destruct (typeMapLookup (getFileExtension env name)) as [v|]; [|reflexivity].
  destruct (truthy v) eqn:Hv; [exact Hv|reflexivity].
Qed.

Lemma detectedFileTypeOf_truthy (env : Env) (filename : jsstring) (fileType : option jsvalue) :
  truthy (detectedFileTypeOf env filename fileType) = true.
Proof.
  unfold detectedFileTypeOf. destruct fileType as [v|]; [|apply detectFileType_truthy].
  destruct (truthy v) eqn:Hv; [exact Hv|apply detectFileType_truthy].
Qed.

Lemma docWithMeta_tagged (i filename : jsstring) (detectedFileType : jsvalue)
    (d : Document) :
  truthy detectedFileType = true →
  tagged (mkStoredDocument i (docWithMeta i filename detectedFileType d)).
Proof.
  intros Htruthy. unfold tagged, docWithMeta. cbn [doc docId metadata].
  split; [|split].
  - by rewrite lookup_insert_ne, lookup_insert_ne, lookup_insert_eq.
  - exists filename. by rewrite lookup_insert_ne, lookup_insert_eq.
  - exists detectedFileType. by rewrite lookup_insert_eq.
Qed.

Lemma stamped_tagged (i filename : jsstring) (detectedFileType : jsvalue)
    (ds : list Document) :
  truthy detectedFileType = true →
  Forall tagged (mkStoredDocument i <$> (docWithMeta i filename detectedFileType <$> ds)).
Proof.
  intros Htruthy. rewrite <- list_fmap_compose. apply Forall_fmap, Forall_forall.
  intros d _. by apply docWithMeta_tagged.
Qed.

(** X11. Every stored chunk is tagged: from a world in which each stored
    chunk carries in its metadata the [docId] under which it is stored, a
    [source] and a [fileType] that is not empty (the fresh world in
    particular), every sequence of ingestions, deletions and clearings,
    whatever their outcomes, ends in such a world. The file type is a
    truthy value and not always a string: for a file named [x.constructor]
    and no type given, it is the function that [typeMap] inherits. *)
Theorem stored_chunks_always_tagged (env : Env) (ops : list Operation) (w : World) :
  storedTagged w → storedTagged (runOps env ops w).
Proof.
  revert w. induction ops as [|op ops IH]; intros w Hw; [exact Hw|].
  cbn [runOps foldl]. apply IH. unfold storedTagged in *.
  destruct op as [docs filename fileType|docId'|]; cbn [runOp].
  - pose proof (addDocumentsToStore_spec env docs filename fileType w) as H. cbn zeta in H.
    unfold worldAfter.
    destruct (addDocumentsToStore env docs filename fileType w) as [[m|e] w']; cbn [snd].
    + destruct H as (_ & _ & Hs & _). rewrite Hs. apply Forall_app. split; [exact Hw|].
      apply stamped_tagged, detectedFileTypeOf_truthy.
    + destruct H as (k & w1 & _ & _ & _ & Hs & _). rewrite Hs.
      apply Forall_app. split; [exact Hw|]. apply stamped_tagged, detectedFileTypeOf_truthy.
  - pose proof (deleteDocument_spec env docId' w) as H. cbn zeta in H.
    destruct H as (_ & Hs & _). rewrite Hs. apply Forall_forall. intros s Hin.
    apply list_elem_of_filter in Hin as [_ Hin].
    by apply (proj1 (Forall_forall _ _) Hw).
  - apply Forall_nil. exact I.
Qed.

Lemma stored_chunks_always_tagged_witness :
  let w' := runOps (tickingEnv 6) mixedOperations freshWorld in
  storedTagged w' ∧ length (storedOf w') = 21.
Proof.
  split; [|vm_compute; reflexivity].
  apply (stored_chunks_always_tagged (tickingEnv 6) mixedOperations freshWorld).
  apply Forall_nil. exact I.
Defined.

(** The file type stored for a file named [x.constructor], when the caller
    gives none, is not a string. *)
Example inherited_file_type_stored :
  let w' := runOps (tickingEnv 6) [OpAdd [textDoc "alpha"] (js "x.constructor") None]
                   freshWorld in
  fileType <$> metasOf w' = [JOpaque 0] ∧
  (λ s, metadata (doc s) !! "fileType") <$> storedOf w' = [Some (JOpaque 0)].
Proof. vm_compute. split; reflexivity. Qed.

(* ===================================================================== *)
(** ** File types *)
(* ===================================================================== *)

Ltac js_distinct :=
  match goal with
  | H : js _ = js _ |- _ => vm_compute in H; discriminate H
  | H : js _ = js _ ∨ _ |- _ => destruct H as [H|H]; js_distinct
  | H : _ ∈ [] |- _ => inversion H
  | H : _ ∈ _ :: _ |- _ => apply elem_of_cons in H as [H|H]; [subst|]; js_distinct
  | H : ¬ (?x = ?x) |- _ => contradiction H; reflexivity
  | H : ¬ (?x = ?x ∨ _) |- _ => contradiction H; left; reflexivity
  | H : ¬ (_ ∨ ?x = ?x) |- _ => contradiction H; right; reflexivity
  | H : ¬ (_ ∨ ?x = ?x ∨ _) |- _ => contradiction H; right; left; reflexivity
  | H : ¬ (_ ∨ _ ∨ ?x = ?x) |- _ => contradiction H; right; right; reflexivity
  end.

(** X12. What [detectFileType] returns, in every environment and for every
    name. For a supported extension it is one of the five type names of the
    table. For an extension that is the name of a property inherited from
    [Object.prototype] ([constructor] and [__proto__] among them) it is
    that property, which is not a string. In every other case it is
    [Unknown]. So every file that the upload and reindex handlers accept
    has a known type, and [Unknown] is not the answer for every unsupported
    extension. *)
Theorem detectFileType_classifies (env : Env) (name : jsstring) :
  let ext := getFileExtension env name in
  (ext ∈ SUPPORTED_EXTENSIONS →
   ∃ type, detectFileType env name = JStr type ∧ type ∈ FILE_TYPES) ∧
  (ext ∈ OBJECT_PROTOTYPE_KEYS → ∃ tag, detectFileType env name = JOpaque tag) ∧
  (ext ∉ SUPPORTED_EXTENSIONS → ext ∉ OBJECT_PROTOTYPE_KEYS →
   detectFileType env name = JStr (js "Unknown")).
Proof.
  unfold detectFileType. cbn zeta. generalize (getFileExtension env name). intros ext.
  split; [|split].
  - intros Hin. unfold SUPPORTED_EXTENSIONS in Hin.
    repeat (apply elem_of_cons in Hin as [->|Hin]); [..|by apply elem_of_nil in Hin].
    all: eexists; split; [vm_compute; reflexivity|].
    all: apply (bool_decide_unpack _); vm_compute; exact I.
  - intros Hin. unfold OBJECT_PROTOTYPE_KEYS in Hin.
    repeat (apply elem_of_cons in Hin as [->|Hin]); [..|by apply elem_of_nil in Hin].
    all: eexists; vm_compute; reflexivity.
  - intros Hsupported Hinherited.
    assert (Hlookup : typeMapLookup ext = None); [|by rewrite Hlookup].
    unfold typeMapLookup, SUPPORTED_EXTENSIONS in *.
    repeat case_decide; subst;
      try (contradiction Hsupported; apply (bool_decide_unpack _); vm_compute; exact I).
    unfold inheritedProperty.
    destruct (list_find (λ k, k = ext) OBJECT_PROTOTYPE_KEYS) as [[i key]|] eqn:Hfind;
      [|reflexivity].
    apply list_find_Some in Hfind as (Hi & -> & _).
    contradiction Hinherited. by apply (list_elem_of_lookup_2 _ i).
Qed.

Lemma detectFileType_classifies_witness :
  (∃ type, detectFileType (tickingEnv 6) (js "Notes.PDF") = JStr type ∧ type ∈ FILE_TYPES) ∧
  (∃ tag, detectFileType (tickingEnv 6) (js "x.constructor") = JOpaque tag) ∧
  detectFileType (tickingEnv 6) (js "setup.exe") = JStr (js "Unknown").
Proof.
  split; [|split].
  - apply (proj1 (detectFileType_classifies (tickingEnv 6) (js "Notes.PDF"))).
    apply (bool_decide_unpack _). vm_compute. exact I.
  - apply (proj1 (proj2 (detectFileType_classifies (tickingEnv 6) (js "x.constructor")))).
    apply (bool_decide_unpack _). vm_compute. exact I.
  - apply (proj2 (proj2 (detectFileType_classifies (tickingEnv 6) (js "setup.exe")))).
    + apply (bool_decide_unpack _). vm_compute. exact I.
    + apply (bool_decide_unpack _). vm_compute. exact I.
Defined.

(** A file named [x.constructor] gets the inherited function as its type,
    and a file named [x.bin] gets [Unknown]. *)
Example detectFileType_inherited :
  detectFileType (tickingEnv 6) (js "x.constructor") = JOpaque 0 ∧
  detectFileType (tickingEnv 6) (js "x.__proto__") = JOpaque 10 ∧
  detectFileType (tickingEnv 6) (js "x.bin") = JStr (js "Unknown").
Proof. vm_compute. repeat split. Qed.

(** X13. The two handlers agree on a file: when the upload handler extracts
    a text and a file type from a supported file, the reindex handler,
    reading the same bytes from the upload directory, parses the same text,
    and the type it detects from the name is the type the upload handler
    used. *)
Theorem reindex_reads_what_upload_read (env : Env) (file : File) (raw fileType : jsstring) :
  getFileExtension env (name file) ∈ SUPPORTED_EXTENSIONS →
  Upload.extract env (getFileExtension env (name file)) (name file) (bytes file)
  = Ok (inr (raw, fileType)) →
  readFile env (name file) = Ok (bytes file) →
  Reindex.parseFile env (name file) = Ok raw ∧
  detectFileType env (name file) = JStr fileType.
Proof.
  unfold Upload.extract, Reindex.parseFile, detectFileType, typeMapLookup,
    SUPPORTED_EXTENSIONS.
  cbn zeta.
  generalize (getFileExtension env (name file)). intros ext Hin Hextract Hread.
  rewrite Hread in *.
  repeat case_decide; subst; try js_distinct.
  all: repeat match goal with
       | H : match ?o with Ok _ => _ | Throw _ => _ end = Ok (inr _) |- _ =>
         destruct o eqn:?; [|discriminate H]
       end.
  all: try (injection Hextract as <- <-; split; reflexivity).
  all: try js_distinct.
Qed.

Lemma reindex_reads_what_upload_read_witness :
  Reindex.parseFile emptySplitEnv (name noteFile) = Ok (js "hello world notes") ∧
  detectFileType emptySplitEnv (name noteFile) = JStr (js "TXT").
Proof.
  apply (reindex_reads_what_upload_read emptySplitEnv noteFile (js "hello world notes")
           (js "TXT")).
  - apply (bool_decide_unpack _). vm_compute. exact I.
  - vm_compute. reflexivity.
  - reflexivity.
Defined.

(* ===================================================================== *)
(** ** The upload handler as a whole *)
(* ===================================================================== *)

Lemma extract_failure_status (env : Env) (ext name : jsstring) (buffer : list N)
    (response : Response) :
  Upload.extract env ext name buffer = Ok (inl response) → status response = 500%Z.
Proof.
  unfold Upload.extract. intros H.
  repeat case_decide; try discriminate H.
  all: repeat match goal with
       | H : match ?o with Ok _ => _ | Throw _ => _ end = Ok (inl _) |- _ =>
         destruct o; [try discriminate H|try discriminate H]
       end.
  all: by injection H as <-.
Qed.

(** X14. The upload handler never throws, and its answer tells what
    happened. With status 200 exactly one record was added to the registry,
    it is the one returned, and it counts at least one chunk. With status
    400 the world is as before, or as before but for the uploaded file,
    which was written to the upload directory and stays there: stored
    documents, index, registry, configuration and request log are
    unchanged. With status 500 the registry is as before. No other status
    occurs. *)
Theorem upload_outcomes (env : Env) (form : Outcome (option File)) (w : World) :
  ∃ response w',
    Upload.POST env form w = (Ok response, w') ∧
    ((status response = 200%Z ∧
      ∃ message m, body response = UploadBody message m ∧
                   metasOf w' = metasOf w ++ [m] ∧ 1 ≤ chunkCount m) ∨
     (status response = 400%Z ∧
      (w' = w ∨ ∃ file, form = Ok (Some file) ∧ w' = withSaved file w)) ∨
     (status response = 500%Z ∧ metasOf w' = metasOf w)).
Proof.
  unfold Upload.POST, tryCatch. rewrite bind_run. unfold liftOutcome at 1.
  destruct form as [[file|]|e]; cbn beta iota;
    [|eexists _, _; split; [reflexivity|]; right; left; split; [reflexivity|by left]
     |eexists _, _; split; [reflexivity|]; right; right; by split].
  destruct (DASHSCOPE_API_KEY env) as [|ch key];
    [eexists _, _; split; [reflexivity|]; right; right; by split|].
  cbn zeta.
  destruct (decide (getFileExtension env (name file) ∈ SUPPORTED_EXTENSIONS)) as [_|_];
    [|eexists _, _; split; [reflexivity|]; right; left; split; [reflexivity|by left]].
  rewrite bind_run. unfold Upload.saveFile at 1.
  destruct (saveUpload env (length (savedFiles w)) (name file) (bytes file)) as [[]|e];
    [|eexists _, _; split; [reflexivity|]; right; right; by split].
  fold (withSaved file w). rewrite bind_run. unfold liftOutcome at 1.
  destruct (Upload.extract env _ (name file) (bytes file))
    as [[response|[raw fileType]]|e] eqn:Hextract;
    [|
     |eexists _, _; split; [reflexivity|]; right; right; by split].
  { eexists _, _. split; [reflexivity|]. right; right.
    split; [by eapply extract_failure_status|reflexivity]. }
  destruct (length (normalizeContent raw) <? 10) eqn:Hlen;
    [eexists _, _; split; [reflexivity|]; right; left; split; [reflexivity|];
     right; by exists file|].
  apply Nat.ltb_ge in Hlen.
  destruct (getRagConfig_run (withSaved file w)) as (c & w0 & Hc & Hm0 & _).
  rewrite (bind_ok _ _ _ _ _ Hc). unfold liftOutcome.
  destruct (splitDocuments env (chunkSize c) (chunkOverlap c) separators _)
    as [splitDocs|e] eqn:Hsplit.
  2:{ eexists _, _. split; [reflexivity|]. right; right. by split. }
  rewrite bind_lift_ok.
  assert (Hpos : (0 <? length (normalizeContent raw)) = true) by (apply Nat.ltb_lt; lia).
  rewrite Hpos, andb_true_r.
  set (docs := if length splitDocs =? 0 then _ else splitDocs).
  assert (Hdocs : 1 ≤ length docs).
  { unfold docs. destruct splitDocs; cbn; lia. }
  assert (Hnz : (length docs =? 0) = false) by (apply Nat.eqb_neq; lia).
  rewrite Hnz.
  pose proof (addDocumentsToStore_spec env docs (name file) (Some (JStr fileType)) w0) as Hadd.
  cbn zeta in Hadd. rewrite bind_run.
  destruct (addDocumentsToStore env docs (name file) (Some (JStr fileType)) w0)
    as [[m|e] w'].
  - eexists _, _. split; [reflexivity|]. left. split; [reflexivity|].
    destruct Hadd as (Hm & Hmetas & _). eexists _, m. split; [reflexivity|].
    split; [by rewrite Hmetas, Hm0|]. rewrite Hm. exact Hdocs.
  - eexists _, _. split; [reflexivity|]. right; right. split; [reflexivity|].
    destruct Hadd as (k & w1 & _ & _ & Hmetas & _). by rewrite Hmetas, Hm0.
Qed.

(** Saving can fail: a name with a directory that does not exist is
    answered 500, and nothing is ingested. *)
Example upload_save_failure :
  let env := mkEnv (js "sk-test") alwaysAnswers sameMillisecond decimal
                   (λ _ _ _ docs, Ok docs)
                   (λ vs _ k, Ok (take (Z.to_nat k) (storeDocs vs)))
                   (λ _ _ _ _, Ok (js "ok")) utf16_of_utf8
                   (λ _, Throw (JsError (js "pdf"))) (λ _, Throw (JsError (js "xlsx")))
                   (λ _, Throw (JsError (js "docx"))) (Ok [])
                   (λ _, Throw (JsError (js "ENOENT"))) toLowerCaseAscii
                   (λ _ _ _, Throw (JsError (js "ENOENT"))) in
  Upload.POST env (Ok (Some (mkFile (js "sub/hi.txt") [104; 105]%N))) freshWorld
  = (Ok (mkResponse (ErrorBody (js "处理失败: ENOENT")) 500), freshWorld).
Proof. vm_compute. reflexivity. Qed.

Lemma dropWhile_length (p : N → bool) (s : jsstring) : length (dropWhile p s) ≤ length s.
Proof. induction s as [|c s IH]; cbn; [lia|]. destruct (p c); cbn; lia. Qed.

Lemma trim_length (s : jsstring) : length (trim s) ≤ length s.
Proof.
  unfold trim, trimEnd, trimStart. rewrite length_rev.
  etrans; [apply dropWhile_length|]. rewrite length_rev. apply dropWhile_length.
Qed.

Lemma collapseBlanks_from_length (inRun : bool) (s : jsstring) :
  length (collapseBlanks_from inRun s) ≤ length s.
Proof.
  revert inRun. induction s as [|c s IH]; intros inRun; cbn; [lia|].
  destruct (isBlank c); [destruct inRun|]; cbn;
    [specialize (IH true)|specialize (IH true)|specialize (IH false)]; lia.
Qed.

Lemma collapseNewlines_from_length (seen : nat) (s : jsstring) :
  length (collapseNewlines_from seen s) ≤ length s.
Proof.
  revert seen. induction s as [|c s IH]; intros seen; cbn [collapseNewlines_from]; [cbn; lia|].
  pose proof (IH (S seen)). pose proof (IH seen). pose proof (IH O).
  destruct (c =? 10)%N; [destruct (seen <? 2)%nat|]; cbn [length]; lia.
Qed.

Lemma normalizeContent_length (content : jsstring) :
  length (normalizeContent content) ≤ length content.
Proof.
  unfold normalizeContent, collapseNewlines, collapseBlanks.
  etrans; [apply collapseNewlines_from_length|].
  etrans; [apply collapseBlanks_from_length|]. apply trim_length.
Qed.

Lemma dropWhile_all (p : N → bool) (s : jsstring) :
  Forall (λ c, p c = true) s → dropWhile p s = [].
Proof. induction 1 as [|c s Hc _ IH]; cbn; [reflexivity|]. by rewrite Hc. Qed.

Lemma normalizeContent_blank (content : jsstring) :
  Forall (λ c, isWhiteSpace c = true) content → normalizeContent content = [].
Proof.
  intros H. unfold normalizeContent, trim, trimStart, trimEnd.
  by rewrite (dropWhile_all _ _ H).
Qed.

(** X15. A file with too little text is refused whatever its format. Let
    the text have fewer than ten code units, or consist of white space only
    (however long). When the upload handler accepted and saved the file and
    extracted that text from it, it answers with the empty-content error,
    and the world is as before but for the file, which stays in the upload
    directory. When the reindex loop parses that text from a file, it
    records the file as skipped, changes nothing and goes on. *)
Theorem short_or_blank_files_are_refused (env : Env) (file : File) (raw : jsstring)
    (config : RagConfig) (results : list ReindexResult) (totalChunks : nat) (w : World) :
  length raw < 10 ∨ Forall (λ c, isWhiteSpace c = true) raw →
  (∀ fileType,
     DASHSCOPE_API_KEY env ≠ [] →
     getFileExtension env (name file) ∈ SUPPORTED_EXTENSIONS →
     saveUpload env (length (savedFiles w)) (name file) (bytes file) = Ok () →
     Upload.extract env (getFileExtension env (name file)) (name file) (bytes file)
     = Ok (inr (raw, fileType)) →
     Upload.POST env (Ok (Some file)) w
     = (Ok (emptyContentError fileType), withSaved file w)) ∧
  (Reindex.parseFile env (name file) = Ok raw →
   Reindex.processFile env config (results, totalChunks) (name file) w
   = (Ok (results ++ [mkReindexResult (name file) (js "内容为空，跳过") None], totalChunks),
      w)).
Proof.
  intros Hraw.
  assert (Hshort : length (normalizeContent raw) < 10).
  { destruct Hraw as [Hlt|Hblank].
    - pose proof (normalizeContent_length raw). lia.
    - rewrite (normalizeContent_blank _ Hblank). cbn. lia. }
  split.
  - intros fileType Hkey Hext Hsave Hextract.
    by apply (upload_short_run env file w raw fileType).
  - intros Hparse. unfold Reindex.processFile, tryCatch. rewrite Hparse. unfold liftOutcome.
    rewrite bind_lift_ok. apply Nat.ltb_lt in Hshort. rewrite Hshort. reflexivity.
Qed.

Lemma short_or_blank_files_are_refused_witness :
  Upload.POST blankDirEnv (Ok (Some blankFile)) freshWorld
  = (Ok (emptyContentError (js "TXT")), withSaved blankFile freshWorld) ∧
  Reindex.processFile blankDirEnv DEFAULT_RAG_CONFIG ([], 0) (name blankFile) freshWorld
  = (Ok ([] ++ [mkReindexResult (name blankFile) (js "内容为空，跳过") None], 0), freshWorld).
Proof.
  destruct (short_or_blank_files_are_refused blankDirEnv blankFile (js "            ")
              DEFAULT_RAG_CONFIG [] 0 freshWorld) as [Hupload Hreindex].
  - right. vm_compute. repeat constructor.
  - split.
    + apply (Hupload (js "TXT")).
      * discriminate.
      * apply (bool_decide_unpack _). vm_compute. exact I.
      * reflexivity.
      * vm_compute. reflexivity.
    + apply Hreindex. vm_compute. reflexivity.
Defined.

(* ===================================================================== *)
(** ** The reindex handler as a whole *)
(* ===================================================================== *)

Lemma failure_status_differs (message : jsstring) : js "失败: " ++ message ≠ js "成功".
Proof.
  intros H. apply (f_equal length) in H. rewrite length_app in H.
  vm_compute (length (js "失败: ")) in H. vm_compute (length (js "成功")) in H. lia.
Qed.

Lemma skipped_status_differs : js "内容为空，跳过" ≠ js "成功".
Proof. intros H. vm_compute in H. discriminate H. Qed.

(** One round of the reindex loop never throws: it adds one line for the
    file, and the registry grows exactly when that line says success. *)
Lemma processFile_round (env : Env) (config : RagConfig) (results : list ReindexResult)
    (total : nat) (x : jsstring) (w : World) :
  ∃ r total' w',
    Reindex.processFile env config (results, total) x w = (Ok (results ++ [r], total'), w') ∧
    r_filename r = x ∧
    ((r_status r = js "成功" ∧
      ∃ m, metasOf w' = metasOf w ++ [m] ∧ filename m = x ∧
           r_chunks r = Some (chunkCount m) ∧ total' = total + chunkCount m) ∨
     (r_status r ≠ js "成功" ∧ r_chunks r = None ∧ metasOf w' = metasOf w ∧ total' = total)).
Proof.
  unfold Reindex.processFile, tryCatch, liftOutcome.
  destruct (Reindex.parseFile env x) as [raw|e] eqn:Hparse.
  2:{ rewrite bind_run. eexists _, _, _. split; [reflexivity|]. split; [reflexivity|].
      right. split; [apply failure_status_differs|]. by repeat split. }
  rewrite bind_lift_ok.
  destruct (length (normalizeContent raw) <? 10) eqn:Hlen.
  { eexists _, _, _. split; [reflexivity|]. split; [reflexivity|].
    right. split; [apply skipped_status_differs|]. by repeat split. }
  destruct (splitDocuments env (chunkSize config) (chunkOverlap config) separators _)
    as [splitDocs|e] eqn:Hsplit.
  2:{ rewrite bind_run. eexists _, _, _. split; [reflexivity|]. split; [reflexivity|].
      right. split; [apply failure_status_differs|]. by repeat split. }
  rewrite bind_lift_ok.
  set (docs := if (length splitDocs =? 0) && _ then _ else splitDocs).
  pose proof (addDocumentsToStore_spec env docs x (Some (detectFileType env x)) w) as Hadd.
  cbn zeta in Hadd. rewrite bind_run.
  destruct (addDocumentsToStore env docs x (Some (detectFileType env x)) w) as [[m|e] w'].
  - eexists _, _, _. split; [reflexivity|]. split; [reflexivity|].
    left. split; [reflexivity|]. destruct Hadd as (Hm & Hmetas & _).
    exists m. rewrite Hm at 2 3 4. by repeat split.
  - eexists _, _, _. split; [reflexivity|]. split; [reflexivity|].
    right. split; [apply failure_status_differs|].
    destruct Hadd as (k & w1 & _ & _ & Hmetas & _). by repeat split.
Qed.

(** X16. The reindex handler always answers, and its report matches the
    registry it leaves. With no readable directory or no supported file it
    reports nothing processed and changes nothing. Otherwise it answers
    with status 200 and one line per supported file, in directory order (a
    file that fails is reported and the next one is processed); the
    registry then holds exactly the files reported as successful, in that
    order, so that the reported numbers of processed files and of chunks
    are those of [getKnowledgeBaseStats]. *)
Theorem reindex_report_matches_registry (env : Env) (w : World) :
  ∃ response w',
    Reindex.POST env w = (Ok response, w') ∧
    status response = 200%Z ∧
    ((supportedFilesOf env = [] ∧ w' = w ∧
      ∃ success message, body response = ReindexBody success message 0 None []) ∨
     (supportedFilesOf env ≠ [] ∧
      ∃ message processed total details,
        body response = ReindexBody true message processed (Some total) details ∧
        r_filename <$> details = supportedFilesOf env ∧
        filename <$> metasOf w' = r_filename <$> successesOf details ∧
        statsOf w' = Some (processed, total))).
Proof.
  unfold Reindex.POST, tryCatch, supportedFilesOf.
  destruct (readdir env) as [files|e].
  2:{ eexists _, _. split; [reflexivity|]. split; [reflexivity|]. left.
      repeat split. by eexists _, _. }
  set (supported := filter _ files).
  destruct (length supported =? 0) eqn:Hlen.
  { apply Nat.eqb_eq in Hlen. apply length_zero_iff_nil in Hlen.
    eexists _, _. split; [reflexivity|]. split; [reflexivity|]. left.
    repeat split; [exact Hlen|]. by eexists _, _. }
  apply Nat.eqb_neq in Hlen.
  rewrite bind_run. unfold clearAllDocuments at 1. rewrite bind_run. cbn [readGlobals writeGlobals].
  set (w0 := mkWorld _ _ _ _ _).
  destruct (getRagConfig_run w0) as (c & w1 & Hc & Hm1 & _).
  rewrite (bind_ok _ _ _ _ _ Hc). rewrite bind_run.
  set (I := λ (k : nat) (s : list ReindexResult * nat) (w : World),
         r_filename <$> s.1 = take k supported ∧
         filename <$> metasOf w = r_filename <$> successesOf s.1 ∧
         countChunks (metasOf w) = s.2).
  pose proof (forLoop_rule I (λ _ _, False) supported (Reindex.processFile env c) ([], 0) w1)
    as Hloop.
  lapply Hloop; [clear Hloop; intros Hloop|].
  2:{ unfold I. rewrite Hm1. cbn. by rewrite take_0. }
  lapply Hloop; [clear Hloop; intros Hloop|].
  2:{ clear. intros k x [results total] w Hx (Hnames & Hmetas & Hcount).
      destruct (processFile_round env c results total x w)
        as (r & total' & w' & Hrun & Hname & Hcases).
      rewrite Hrun. unfold I. cbn [fst snd] in *.
      split.
      { rewrite fmap_app, Hnames. cbn. rewrite Hname. by erewrite take_S_r. }
      unfold successesOf in *. rewrite filter_app.
      destruct Hcases as [(Hs & m & Hm & Hfile & _ & Htotal)|(Hs & _ & Hm & Htotal)].
      - rewrite filter_cons_True by exact Hs. rewrite filter_nil, Hm, !fmap_app, Hmetas.
        cbn. rewrite Hfile, Hname. split; [reflexivity|].
        rewrite countChunks_app, Hcount, Htotal. unfold countChunks. cbn. lia.
      - rewrite filter_cons_False by exact Hs. rewrite filter_nil, app_nil_r, Hm.
        split; [exact Hmetas|]. by rewrite Htotal. }
  destruct (forLoop supported (Reindex.processFile env c) ([], 0) w1)
    as [[[results total]|e] w']; [|contradiction].
  destruct Hloop as (Hnames & Hmetas & Hcount). cbn [fst snd] in *.
  eexists _, _. split; [reflexivity|]. split; [reflexivity|]. right.
  split; [by intros ->|].
  eexists _, _, _, _. split; [reflexivity|].
  split; [by rewrite Hnames, firstn_all|].
  split; [exact Hmetas|].
  rewrite statsOf_metas, Hcount. do 2 f_equal.
  unfold Reindex.succeeded. fold (successesOf results).
  by rewrite <- (length_fmap r_filename), <- Hmetas, length_fmap.
Qed.

(* ===================================================================== *)
(** ** Queries *)
(* ===================================================================== *)

Lemma retrieveFor_read_only (env : Env) (question : jsstring) (customTopK : option Z)
    (w : World) :
  let w' := worldAfter (retrieveFor env question customTopK) w in
  sameKnowledgeBase w w' ∧
  (embedRequests w' = embedRequests w ∨
   embedRequests w' = embedRequests w ++ [[DashScopeEmbeddings.processText question]]).
Proof.
  cbn zeta. unfold worldAfter, retrieveFor.
  pose proof (getRagConfig_configOf w) as [_ Hcfg].
  destruct (getRagConfig_run w) as (c & w0 & Hc & M0 & S0 & Q0 & _).
  unfold worldAfter in Hcfg. rewrite Hc in Hcfg. cbn [snd] in Hcfg.
  assert (E0 : entryDocsOf w0 = entryDocsOf w ∧ clockReads w0 = clockReads w).
  { revert Hc. unfold getRagConfig. rewrite bind_run. cbn [readGlobals].
    destruct (ragConfig (globals w)); intros [= _ <-]; by split. }
  destruct E0 as [E0 C0].
  rewrite (bind_ok _ _ _ _ _ Hc). cbn zeta.
  destruct (getVectorStore_run w0) as (vs & w1 & Hv & _ & E1 & S1 & M1 & R1 & Q1 & _ & C1).
  rewrite (bind_ok _ _ _ _ _ Hv). rewrite bind_run.
  assert (Hsame : sameKnowledgeBase w w1).
  { unfold sameKnowledgeBase, configOf in *. rewrite M1, S1, E1, R1, C1. by repeat split. }
  unfold retrieverInvoke, DashScopeEmbeddings.embedQuery. rewrite !bind_run.
  pose proof (callDashScopeEmbedding_frame env [question] w1) as (G2 & _ & C2).
  assert (Q2 : embedRequests
                 (worldAfter (DashScopeEmbeddings.callDashScopeEmbedding env [question]) w1)
               = embedRequests w1 ∨
               embedRequests
                 (worldAfter (DashScopeEmbeddings.callDashScopeEmbedding env [question]) w1)
               = embedRequests w1 ++ [[DashScopeEmbeddings.processText question]]).
  { unfold worldAfter, DashScopeEmbeddings.callDashScopeEmbedding.
    destruct (DASHSCOPE_API_KEY env) as [|ch key]; [by left|].
    rewrite tryCatch_rethrow. right. reflexivity. }
  unfold worldAfter in G2, C2, Q2.
  assert (Hsame2 : sameKnowledgeBase w
                     (DashScopeEmbeddings.callDashScopeEmbedding env [question] w1).2).
  { unfold sameKnowledgeBase, metasOf, storedOf, entryDocsOf, entriesOf, configOf in *.
    rewrite G2, C2. exact Hsame. }
  rewrite Q1, Q0 in Q2.
  destruct (DashScopeEmbeddings.callDashScopeEmbedding env [question] w1) as [[vectors|e] w2];
    cbn [fst snd] in *; [|by split].
  unfold liftOutcome, mret, M_ret. cbn beta iota.
  match goal with
  | |- context [similaritySearch ?e ?s ?v ?k] => destruct (similaritySearch e s v k)
  end; cbn beta iota; by split.
Qed.

(** What a query does to the world. *)
Lemma queryRag_effects (env : Env) (question : jsstring) (customTopK : option Z)
    (w : World) :
  let w' := worldAfter (queryRag env question customTopK) w in
  sameKnowledgeBase w w' ∧
  (embedRequests w' = embedRequests w ∨
   embedRequests w' = embedRequests w ++ [[DashScopeEmbeddings.processText question]]) ∧
  (llmPrompts w' = llmPrompts w ∨
   ∃ docs, docs ≠ [] ∧ llmPrompts w' = llmPrompts w ++ [buildPrompt docs question]).
Proof.
  cbn zeta.
  pose proof (retrieveFor_read_only env question customTopK w) as [Hsame Hreq].
  pose proof (retrieveFor_keeps_prompts env question customTopK w) as Hprompts.
  unfold worldAfter, queryRag in *. rewrite bind_run.
  destruct (retrieveFor env question customTopK w) as [[[config docs]|e] w1];
    cbn [snd] in *; [|split; [exact Hsame|]; split; [exact Hreq|by left]].
  cbn zeta. destruct (length docs =? 0) eqn:Hlen;
    [split; [exact Hsame|]; split; [exact Hreq|by left]|].
  rewrite bind_run. unfold invokeModel.
  assert (Hdocs : docs ≠ []) by (intros ->; discriminate Hlen).
  destruct (chatModel env _ _ _ _) as [raw|e]; [destruct (parseRawAnswer raw)|];
    cbn [snd llmPrompts embedRequests];
    (split; [exact Hsame|]; split; [exact Hreq|]; right; exists docs; split; [exact Hdocs|];
     by rewrite Hprompts).
Qed.

(** X17. A query reads the knowledge base and never changes it: whatever
    the question, the store, the endpoint and the chat model do, after
    [queryRag] the registry, the stored documents, the indexed entries, the
    configuration in force and the clock are as before. It sends at most
    one embedding request, holding the question alone, and at most one
    prompt to the chat model. *)
Theorem queryRag_is_read_only (env : Env) (question : jsstring) (customTopK : option Z)
    (w : World) :
  let w' := worldAfter (queryRag env question customTopK) w in
  sameKnowledgeBase w w' ∧
  (embedRequests w' = embedRequests w ∨
   embedRequests w' = embedRequests w ++ [[DashScopeEmbeddings.processText question]]) ∧
  (llmPrompts w' = llmPrompts w ∨
   ∃ docs, docs ≠ [] ∧ llmPrompts w' = llmPrompts w ++ [buildPrompt docs question]).
Proof. exact (queryRag_effects env question customTopK w). Qed.

Lemma parseRawAnswer_answer (rawAnswer : jsstring) :
  includes separator (parseRawAnswer rawAnswer).1 = false.
Proof.
  unfold parseRawAnswer. destruct (includes separator rawAnswer) eqn:Hinc; [|exact Hinc].
  cbn [fst]. destruct (includes_breakOn _ _ Hinc) as [[before after] Hbreak].
  rewrite (split_first _ _ _ _ Hbreak). cbn [default].
  destruct (trim_infix before) as (pre & post & Hbefore).
  apply (no_occurrence_before_first separator rawAnswer before after pre _ post);
    [discriminate|exact Hbreak|exact Hbefore].
Qed.

(** X18. The separator token never reaches the user: in every result that
    [queryRag] returns, with or without documents and whatever the chat
    model wrote, the answer does not contain [---SUGGESTED_QUESTIONS---],
    and there are at most three suggested questions. *)
Theorem answer_never_contains_separator (env : Env) (question : jsstring)
    (customTopK : option Z) (w w' : World) (result : RagResult) :
  queryRag env question customTopK w = (Ok result, w') →
  includes separator (answer result) = false ∧ length (suggestedQuestions result) ≤ 3.
Proof.
  unfold queryRag. rewrite bind_run.
  destruct (retrieveFor env question customTopK w) as [[[config docs]|e] w1]; [|discriminate].
  cbn zeta. destruct (length docs =? 0).
  { intros [= <- _]. split; [vm_compute; reflexivity|cbn; lia]. }
  rewrite bind_run. unfold invokeModel.
  destruct (chatModel env _ _ _ _) as [raw|e]; [|discriminate].
  pose proof (parseRawAnswer_answer raw) as Hanswer.
  assert (Hthree : length (parseRawAnswer raw).2 ≤ 3).
  { unfold parseRawAnswer. destruct (includes separator raw); cbn [snd]; [|cbn; lia].
    rewrite length_take. lia. }
  destruct (parseRawAnswer raw) as [a qs]. intros [= <- _]. by split.
Qed.

Lemma answer_never_contains_separator_witness :
  ∃ result,
    outcomeOf (queryRag chattyEnv (js "capital?") None) oneChunkWorld = Ok result ∧
    includes separator (answer result) = false ∧ length (suggestedQuestions result) ≤ 3.
Proof.
  eexists. split; [vm_compute; reflexivity|].
  apply (answer_never_contains_separator chattyEnv (js "capital?") None oneChunkWorld
           (worldAfter (queryRag chattyEnv (js "capital?") None) oneChunkWorld)).
  vm_compute. reflexivity.
Defined.

(* ===================================================================== *)
(** ** The chat route and the knowledge route *)
(* ===================================================================== *)

Lemma friendlyMessage_range (errorStr : jsstring) :
  Chat.friendlyMessage errorStr ∈ chatErrorMessages.
Proof.
  unfold Chat.friendlyMessage, chatErrorMessages.
  destruct (_ || _); [apply list_elem_of_here|apply list_elem_of_further].
  destruct (_ || _); [apply list_elem_of_here|apply list_elem_of_further].
  destruct (includes _ _); [apply list_elem_of_here|apply list_elem_of_further].
  destruct (includes _ _); [apply list_elem_of_here|apply list_elem_of_further].
  apply list_elem_of_here.
Qed.

(** X19. The chat route always answers and never changes the knowledge
    base. It answers with status 200 and exactly the result of [queryRag]
    on the message, or with status 500, no chunks, no suggested questions
    and one of five fixed messages: the text of the error itself is never
    sent. *)
Theorem chat_always_answers (env : Env) (parsed : Outcome (jsstring * option Z)) (w : World) :
  ∃ response w',
    Chat.POST env parsed w = (Ok response, w') ∧
    sameKnowledgeBase w w' ∧
    ((Chat.status response = 200%Z ∧
      ∃ message topK,
        parsed = Ok (message, topK) ∧
        queryRag env message topK w = (Ok (Chat.result response), w')) ∨
     (Chat.status response = 500%Z ∧
      chunks (Chat.result response) = [] ∧
      suggestedQuestions (Chat.result response) = [] ∧
      answer (Chat.result response) ∈ chatErrorMessages)).
Proof.
  unfold Chat.POST, tryCatch, liftOutcome.
  destruct parsed as [[message topK]|e].
  2:{ rewrite bind_run. eexists _, _. split; [reflexivity|].
      split; [by repeat split|]. right. repeat split. apply friendlyMessage_range. }
  rewrite bind_lift_ok, bind_run.
  pose proof (queryRag_effects env message topK w) as [Hsame _].
  unfold worldAfter in Hsame.
  destruct (queryRag env message topK w) as [[r|e] w'] eqn:Hrun; cbn [snd] in Hsame.
  - eexists _, _. split; [reflexivity|]. split; [exact Hsame|]. left.
    split; [reflexivity|]. exists message, topK. split; [reflexivity|]. by destruct r.
  - eexists _, _. split; [reflexivity|]. split; [exact Hsame|]. right.
    repeat split. apply friendlyMessage_range.
Qed.

Lemma queryRag_missing_key (env : Env) (question : jsstring) (customTopK : option Z)
    (w : World) :
  DASHSCOPE_API_KEY env = [] →
  outcomeOf (queryRag env question customTopK) w = Throw missingKeyError.
Proof.
  intros Hkey. unfold outcomeOf, queryRag, retrieveFor. rewrite !bind_run.
  destruct (getRagConfig_run w) as (c & w0 & Hc & _). rewrite Hc. cbn zeta. rewrite bind_run.
  destruct (getVectorStore_run w0) as (vs & w1 & Hv & _). rewrite Hv. rewrite bind_run.
  unfold retrieverInvoke, DashScopeEmbeddings.embedQuery. rewrite !bind_run.
  unfold DashScopeEmbeddings.callDashScopeEmbedding. rewrite Hkey. reflexivity.
Qed.

(** X20. Without a credential every chat request fails the same way: the
    route answers 500 with the generic message [请求处理失败] and no chunks,
    whatever the message and the knowledge base; the message about the API
    key is not the one shown. *)
Theorem chat_without_credential (env : Env) (message : jsstring) (topK : option Z)
    (w : World) :
  DASHSCOPE_API_KEY env = [] →
  outcomeOf (Chat.POST env (Ok (message, topK))) w
  = Ok (Chat.mkResponse (mkRagResult (js "请求处理失败") [] []) 500).
Proof.
  intros Hkey. pose proof (queryRag_missing_key env message topK w Hkey) as Hq.
  unfold outcomeOf, Chat.POST, tryCatch, liftOutcome in *.
  rewrite bind_lift_ok, bind_run.
  destruct (queryRag env message topK w) as [[r|e] w']; cbn [fst] in Hq; [discriminate|].
  injection Hq as ->. cbn [fst]. vm_compute. reflexivity.
Qed.

Lemma chat_without_credential_witness :
  outcomeOf (Chat.POST noKeyEnv (Ok (js "hello", None))) freshWorld
  = Ok (Chat.mkResponse (mkRagResult (js "请求处理失败") [] []) 500).
Proof. apply (chat_without_credential noKeyEnv (js "hello") None freshWorld). reflexivity. Defined.

Lemma setRagConfig_run (partial : PartialRagConfig) (w : World) :
  ∃ merged w', setRagConfig partial w = (Ok merged, w').
Proof.
  unfold setRagConfig. destruct (getRagConfig_run w) as (c & w0 & Hc & _).
  rewrite (bind_ok _ _ _ _ _ Hc). cbn zeta. rewrite bind_run. cbn [readGlobals].
  rewrite bind_run. cbn [writeGlobals]. eauto.
Qed.

(** X21. The knowledge route always answers, and its error answers mean
    this: status 400 (unknown action, or a deletion without [docId]) — the
    world is untouched; status 500 — either the body could not be read and
    the world is untouched, or a deletion failed while re-embedding, and
    then the document is already gone from the registry and from the stored
    documents while the index instance is still the old one. *)
Theorem knowledge_post_outcomes (env : Env) (parsed : Outcome Knowledge.Body) (w : World) :
  ∃ response w',
    Knowledge.POST env parsed w = (Ok response, w') ∧
    (Knowledge.status response = 200%Z ∨
     (Knowledge.status response = 400%Z ∧ w' = w) ∨
     (Knowledge.status response = 500%Z ∧
      Knowledge.body response = Knowledge.ErrorBody (js "操作失败") ∧
      ((∃ e, parsed = Throw e ∧ w' = w) ∨
       (∃ body docId',
          parsed = Ok body ∧ Knowledge.docId body = Some docId' ∧
          metasOf w' = filter (λ m, id m ≠ docId') (metasOf w) ∧
          storedOf w' = filter (λ d, docId d ≠ docId') (storedOf w) ∧
          vectorStoreInstance (globals w') = vectorStoreInstance (globals w))))).
Proof.
  unfold Knowledge.POST, tryCatch, liftOutcome.
  destruct parsed as [body|e].
  2:{ rewrite bind_run. eexists _, _. split; [reflexivity|]. right; right.
      repeat split. left. by exists e. }
  rewrite bind_lift_ok.
  destruct (decide (Knowledge.action body = js "updateConfig")) as [_|_].
  { destruct (setRagConfig_run (Knowledge.config body) w) as (merged & w' & Hset).
    rewrite (bind_ok _ _ _ _ _ Hset). eexists _, _. split; [reflexivity|]. by left. }
  destruct (decide (Knowledge.action body = js "deleteDocument")) as [_|_];
    [|eexists _, _; split; [reflexivity|]; right; left; by split].
  destruct (Knowledge.docId body) as [[|c rest]|] eqn:Hid;
    try (eexists _, _; split; [reflexivity|]; right; left; by split).
  rewrite bind_run.
  pose proof (deleteDocument_spec env (c :: rest) w) as Hdel. cbn zeta in Hdel.
  unfold worldAfter, outcomeOf in Hdel.
  destruct (deleteDocument env (c :: rest) w) as [[r|e] w']; cbn [fst snd] in Hdel.
  - eexists _, _. split; [reflexivity|]. by left.
  - eexists _, _. split; [reflexivity|]. right; right. repeat split. right.
    destruct Hdel as (Hm & Hs & _ & _ & _ & Hv). exists body, (c :: rest). by repeat split.
Qed.

(* ===================================================================== *)
(** ** The feedback route *)
(* ===================================================================== *)

Section Counting.
Context {A : Type} (P : A → Prop) `{∀ x, Decision (P x)}.

Lemma filter_length_snoc (l : list A) (x : A) :
  length (filter P (l ++ [x])) = length (filter P l) + (if decide (P x) then 1 else 0).
Proof.
  rewrite filter_app, length_app. f_equal. rewrite filter_cons, filter_nil.
  by destruct (decide (P x)).
Qed.

Lemma filter_length_delete (l : list A) (i : nat) (old : A) :
  l !! i = Some old →
  length (filter P (delete i l)) + (if decide (P old) then 1 else 0) = length (filter P l).
Proof.
  revert i. induction l as [|x l IH]; intros [|i] Hi; try discriminate.
  - injection Hi as ->. simpl. rewrite filter_cons.
    destruct (decide (P old)); cbn; lia.
  - simpl. rewrite !filter_cons. specialize (IH i Hi).
    destruct (decide (P x)); simpl; lia.
Qed.

Lemma filter_length_insert (l : list A) (i : nat) (old new : A) :
  l !! i = Some old →
  length (filter P (<[i:=new]> l)) + (if decide (P old) then 1 else 0)
  = length (filter P l) + (if decide (P new) then 1 else 0).
Proof.
  revert i. induction l as [|x l IH]; intros [|i] Hi; try discriminate.
  - injection Hi as ->. simpl. rewrite !filter_cons.
    destruct (decide (P old)), (decide (P new)); cbn; lia.
  - simpl. rewrite !filter_cons. specialize (IH i Hi).
    destruct (decide (P x)); simpl; lia.
Qed.

End Counting.

(** What a POST with a valid body does: the record it builds, the data it
    tries to save, and its answer. *)
Lemma feedback_POST_run (env : Feedback.Env) (body : Feedback.Body) (w : Feedback.World) :
  validBody body →
  let loaded := Feedback.loadFeedbackData env w in
  let messageId := Feedback.orBlank (Feedback.b_messageId body) in
  let feedbackType := Feedback.orBlank (Feedback.b_feedbackType body) in
  ∃ new data updated,
    Feedback.POST env body w
    = match Feedback.saveError env (Feedback.saves w) with
      | None =>
        (Feedback.mkResponse
           (Feedback.SuccessBody true (js "反馈已记录") (Feedback.stats data)) 200,
         Feedback.mkWorld (Some data) (3 + Feedback.clockReads loaded.2)
                          (S (Feedback.randomDraws w)) (S (Feedback.saves w)))
      | Some _ =>
        (Feedback.mkResponse (Feedback.ErrorBody (js "记录反馈失败")) 500,
         Feedback.mkWorld (Feedback.file w) (3 + Feedback.clockReads loaded.2)
                          (S (Feedback.randomDraws w)) (S (Feedback.saves w)))
      end ∧
    match Feedback.findByMessage messageId (Feedback.records loaded.1) with
    | Some (i, old) =>
      Feedback.records data = <[i:=new]> (Feedback.records loaded.1) ∧
      Feedback.stats data
      = (let s := Feedback.count feedbackType
                    (Feedback.uncount (Feedback.feedbackType old) (Feedback.stats loaded.1)) in
         Feedback.mkStats (Feedback.totalLikes s) (Feedback.totalDislikes s) updated)
    | None =>
      Feedback.records data = Feedback.records loaded.1 ++ [new] ∧
      Feedback.stats data
      = (let s := Feedback.count feedbackType (Feedback.stats loaded.1) in
         Feedback.mkStats (Feedback.totalLikes s) (Feedback.totalDislikes s) updated)
    end ∧
    Feedback.messageId new = messageId ∧
    Feedback.question new = Feedback.orBlank (Feedback.b_question body) ∧
    Feedback.answer new = Feedback.orBlank (Feedback.b_answer body) ∧
    Feedback.feedbackType new = feedbackType.
Proof.
  intros (Hm & Hq & Ha & Ht). unfold Feedback.POST. cbn zeta.
  destruct (Feedback.orBlank (Feedback.b_messageId body)) as [|c1 m] eqn:Em; [done|].
  destruct (Feedback.orBlank (Feedback.b_question body)) as [|c2 q] eqn:Eq; [done|].
  destruct (Feedback.orBlank (Feedback.b_answer body)) as [|c3 a] eqn:Ea; [done|].
  destruct (Feedback.orBlank (Feedback.b_feedbackType body)) as [|c4 t] eqn:Et;
    [apply list_elem_of_In in Ht; destruct Ht as [Ht|[Ht|[]]]; vm_compute in Ht; discriminate|].
  destruct (decide (c4 :: t ∈ [js "like"; js "dislike"])) as [_|Hn]; [|contradiction].
  unfold Feedback.loadFeedbackData, Feedback.isoNow, Feedback.saveFeedbackData.
  destruct (Feedback.file w) as [d|] eqn:Hfile; cbn;
    (eexists _, _, _; split;
       [destruct (Feedback.saveError env (Feedback.saves w)); rewrite ?Hfile;
          apply pair_equal_spec; (split; [|reflexivity]); reflexivity|];
     split;
       [first [destruct (Feedback.findByMessage (c1 :: m) _) as [[i old]|]; split; reflexivity
              |split; reflexivity]
       |by repeat split]).
Qed.

Lemma feedback_POST_invalid (env : Feedback.Env) (body : Feedback.Body) (w : Feedback.World) :
  ¬ validBody body →
  ∃ message, Feedback.POST env body w = (Feedback.mkResponse (Feedback.ErrorBody message) 400, w).
Proof.
  intros Hbody. unfold validBody in Hbody. unfold Feedback.POST. cbn zeta.
  destruct (Feedback.orBlank (Feedback.b_messageId body)) as [|c1 m]; [by eexists|].
  destruct (Feedback.orBlank (Feedback.b_question body)) as [|c2 q]; [by eexists|].
  destruct (Feedback.orBlank (Feedback.b_answer body)) as [|c3 a]; [by eexists|].
  destruct (Feedback.orBlank (Feedback.b_feedbackType body)) as [|c4 t]; [by eexists|].
  destruct (decide (c4 :: t ∈ [js "like"; js "dislike"])) as [Hin|_]; [|by eexists].
  contradiction Hbody. by repeat split.
Qed.

Lemma loaded_consistent (env : Feedback.Env) (w : Feedback.World) :
  feedbackInvariant w →
  countersMatch (Feedback.loadFeedbackData env w).1 ∧
  onePerMessage (Feedback.loadFeedbackData env w).1.
Proof.
  unfold feedbackInvariant, Feedback.loadFeedbackData.
  destruct (Feedback.file w) as [d|]; [done|]. intros _. cbn.
  split; [by split|]. apply NoDup_nil_2.
Qed.



Lemma findByMessage_Some (messageId : jsstring) (rs : list Feedback.FeedbackRecord)
    (i : nat) (old : Feedback.FeedbackRecord) :
  Feedback.findByMessage messageId rs = Some (i, old) →
  rs !! i = Some old ∧ Feedback.messageId old = messageId.
Proof. intros H. apply list_find_Some in H as (Hi & Hm & _). by split. Qed.

Lemma findByMessage_None (messageId : jsstring) (rs : list Feedback.FeedbackRecord) :
  Feedback.findByMessage messageId rs = None →
  messageId ∉ Feedback.messageId <$> rs.
Proof.
  intros H Hin. apply list_find_None in H.
  apply list_elem_of_fmap in Hin as (r & Hr & Hin).
  rewrite Forall_forall in H. by apply (H r Hin).
Qed.

(** Replacing, appending and removing a record keep the counters in step
    with the records. *)
Lemma counters_after_count (feedbackType : jsstring) (s : Feedback.Stats) :
  Feedback.totalLikes (Feedback.count feedbackType s)
  = (Feedback.totalLikes s + if decide (feedbackType = js "like") then 1 else 0)%Z ∧
  Feedback.totalDislikes (Feedback.count feedbackType s)
  = (Feedback.totalDislikes s + if decide (feedbackType ≠ js "like") then 1 else 0)%Z.
Proof.
  unfold Feedback.count.
  destruct (decide (feedbackType = js "like")), (decide (feedbackType ≠ js "like"));
    cbn; try contradiction; split; lia.
Qed.

Lemma counters_after_uncount (feedbackType : jsstring) (s : Feedback.Stats) :
  Feedback.totalLikes (Feedback.uncount feedbackType s)
  = (Feedback.totalLikes s - if decide (feedbackType = js "like") then 1 else 0)%Z ∧
  Feedback.totalDislikes (Feedback.uncount feedbackType s)
  = (Feedback.totalDislikes s - if decide (feedbackType ≠ js "like") then 1 else 0)%Z.
Proof.
  unfold Feedback.uncount.
  destruct (decide (feedbackType = js "like")), (decide (feedbackType ≠ js "like"));
    cbn; try contradiction; split; lia.
Qed.

Lemma recorded_consistent (d data : Feedback.FeedbackData) (new : Feedback.FeedbackRecord)
    (updated : jsstring) :
  countersMatch d → onePerMessage d →
  match Feedback.findByMessage (Feedback.messageId new) (Feedback.records d) with
  | Some (i, old) =>
    Feedback.records data = <[i:=new]> (Feedback.records d) ∧
    Feedback.stats data
    = (let s := Feedback.count (Feedback.feedbackType new)
                  (Feedback.uncount (Feedback.feedbackType old) (Feedback.stats d)) in
       Feedback.mkStats (Feedback.totalLikes s) (Feedback.totalDislikes s) updated)
  | None =>
    Feedback.records data = Feedback.records d ++ [new] ∧
    Feedback.stats data
    = (let s := Feedback.count (Feedback.feedbackType new) (Feedback.stats d) in
       Feedback.mkStats (Feedback.totalLikes s) (Feedback.totalDislikes s) updated)
  end →
  countersMatch data ∧ onePerMessage data.
Proof.
  intros [Hlikes Hdislikes] Hone.
  destruct (Feedback.findByMessage _ _) as [[i old]|] eqn:Hfind; intros [Hrecords Hstats];
    unfold countersMatch, onePerMessage, likesIn, dislikesIn in *;
    rewrite Hrecords, Hstats; cbn [Feedback.totalLikes Feedback.totalDislikes];
    destruct (counters_after_count (Feedback.feedbackType new)
                (Feedback.uncount (Feedback.feedbackType old) (Feedback.stats d))) as [-> ->]
    || destruct (counters_after_count (Feedback.feedbackType new) (Feedback.stats d))
         as [-> ->].
  - destruct (counters_after_uncount (Feedback.feedbackType old) (Feedback.stats d))
      as [-> ->].
    apply findByMessage_Some in Hfind as [Hi Hm].
    pose proof (filter_length_insert (λ r, Feedback.feedbackType r = js "like")
                  (Feedback.records d) i old new Hi) as H1.
    pose proof (filter_length_insert (λ r, Feedback.feedbackType r ≠ js "like")
                  (Feedback.records d) i old new Hi) as H2.
    cbv beta in H1, H2. rewrite Hlikes, Hdislikes.
    split; [split|].
    + destruct (decide (Feedback.feedbackType old = js "like")),
        (decide (Feedback.feedbackType new = js "like")); lia.
    + destruct (decide (Feedback.feedbackType old ≠ js "like")),
        (decide (Feedback.feedbackType new ≠ js "like")); lia.
    + rewrite list_fmap_insert, list_insert_id; [exact Hone|].
      rewrite list_lookup_fmap, Hi. cbn. by rewrite Hm.
  - apply findByMessage_None in Hfind.
    rewrite !filter_length_snoc, Hlikes, Hdislikes.
    split; [split|].
    + destruct (decide (Feedback.feedbackType new = js "like")); lia.
    + destruct (decide (Feedback.feedbackType new ≠ js "like")); lia.
    + rewrite fmap_app. apply NoDup_app. split; [exact Hone|]. split.
      * intros x Hx Hnew. cbn in Hnew. apply list_elem_of_singleton in Hnew as ->. done.
      * apply NoDup_singleton.
Qed.

Lemma cancelled_consistent (d : Feedback.FeedbackData) (i : nat) (old : Feedback.FeedbackRecord)
    (updated : jsstring) :
  countersMatch d → onePerMessage d → Feedback.records d !! i = Some old →
  let s := Feedback.uncount (Feedback.feedbackType old) (Feedback.stats d) in
  let data := Feedback.mkFeedbackData
                (delete i (Feedback.records d))
                (Feedback.mkStats (Feedback.totalLikes s) (Feedback.totalDislikes s) updated) in
  countersMatch data ∧ onePerMessage data.
Proof.
  intros [Hlikes Hdislikes] Hone Hi. cbn zeta.
  unfold countersMatch, onePerMessage, likesIn, dislikesIn in *.
  cbn [Feedback.records Feedback.stats Feedback.totalLikes Feedback.totalDislikes].
  destruct (counters_after_uncount (Feedback.feedbackType old) (Feedback.stats d)) as [-> ->].
  pose proof (filter_length_delete (λ r, Feedback.feedbackType r = js "like")
                (Feedback.records d) i old Hi) as H1.
  pose proof (filter_length_delete (λ r, Feedback.feedbackType r ≠ js "like")
                (Feedback.records d) i old Hi) as H2.
  cbv beta in H1, H2. rewrite Hlikes, Hdislikes.
  split; [split|].
  - destruct (decide (Feedback.feedbackType old = js "like")); lia.
  - destruct (decide (Feedback.feedbackType old ≠ js "like")); lia.
  - eapply sublist_NoDup; [exact Hone|]. rewrite list_fmap_delete. apply sublist_delete.
Qed.

Lemma runFeedback_keeps_invariant (env : Feedback.Env) (call : FeedbackCall)
    (w : Feedback.World) :
  feedbackInvariant w → feedbackInvariant (runFeedback env call w).2.
Proof.
  intros Hw. pose proof (loaded_consistent env w Hw) as [Hcounters Hone].
  destruct call as [body|messageId]; cbn [runFeedback].
  - destruct (decide (validBody body)) as [Hbody|Hbody].
    + destruct (feedback_POST_run env body w Hbody)
        as (new & data & updated & -> & Hdata & Hm & _ & _ & Ht).
      rewrite <- Hm, <- Ht in Hdata.
      destruct (Feedback.saveError env (Feedback.saves w)); [exact Hw|].
      unfold feedbackInvariant. cbn [snd Feedback.file].
      by apply (recorded_consistent _ data new updated Hcounters Hone).
    + by destruct (feedback_POST_invalid env body w Hbody) as [message ->].
  - unfold Feedback.DELETE. destruct messageId as [[|c m]|]; try exact Hw.
    revert Hcounters Hone. unfold Feedback.loadFeedbackData, Feedback.isoNow.
    destruct (Feedback.file w) as [d|] eqn:Hfile; cbn;
      [|intros _ _; unfold feedbackInvariant; cbn; rewrite ?Hfile; done].
    intros Hcounters Hone.
    destruct (Feedback.findByMessage (c :: m) (Feedback.records d)) as [[i old]|] eqn:Hfind;
      [|unfold feedbackInvariant; rewrite ?Hfile; done].
    apply findByMessage_Some in Hfind as [Hi _].
    unfold Feedback.saveFeedbackData. cbn.
    destruct (Feedback.saveError env (Feedback.saves w)); cbn;
      unfold feedbackInvariant; cbn; [rewrite ?Hfile; done|].
    by apply (cancelled_consistent d i old _ Hcounters Hone Hi).
Qed.

Lemma runFeedbacks_snoc (env : Feedback.Env) (calls : list FeedbackCall) (call : FeedbackCall)
    (w : Feedback.World) :
  runFeedbacks env (calls ++ [call]) w = (runFeedback env call (runFeedbacks env calls w)).2.
Proof. unfold runFeedbacks. by rewrite foldl_app. Qed.

(** X22. The feedback file stays consistent: if its two counters are the
    numbers of its like and of its other records and no two of its records
    are about the same message (a missing file counts as empty), then the
    same holds after any sequence of POST and DELETE requests, valid or
    not, and whichever of the saves fail. *)
Theorem feedback_counters_match_records (env : Feedback.Env) (calls : list FeedbackCall)
    (w : Feedback.World) :
  feedbackInvariant w → feedbackInvariant (runFeedbacks env calls w).
Proof.
  intros Hw. induction calls as [|call calls IH] using rev_ind; [exact Hw|].
  rewrite runFeedbacks_snoc. by apply runFeedback_keeps_invariant.
Qed.

Lemma feedback_counters_match_records_witness :
  feedbackInvariant
    (runFeedbacks secondSaveFails
       [CallPost (feedbackBody "m1" "like"); CallPost (feedbackBody "m2" "dislike");
        CallPost (feedbackBody "m1" "dislike"); CallDelete (Some (js "m2"))]
       noFeedback).
Proof.
  apply (feedback_counters_match_records secondSaveFails
           [CallPost (feedbackBody "m1" "like"); CallPost (feedbackBody "m2" "dislike");
            CallPost (feedbackBody "m1" "dislike"); CallDelete (Some (js "m2"))]
           noFeedback).
  vm_compute. exact I.
Defined.









